(** * OpenSlides element cache: a shallow embedding of
      [openslides/utils/cache.py] and the properties of its specification.

    The Python class [ElementCache] is embedded as state-passing functions
    over a record holding the object's attributes and the state of its cache
    provider.  Exceptions are values of [exn]; a computation that raises keeps
    the state it had reached (Python does not roll back mutations), which is
    what the statements about locks and about atomicity rely on. *)

From Stdlib Require Import ZArith Lia Ascii DecimalString DecimalZ DecimalPos.
From stdpp Require Import base list strings gmap.

Local Open Scope string_scope.
Local Open Scope Z_scope.
Local Set Warnings "-register-all".

(** ** Python values *)

(** Exceptions raised by the embedded code. *)
Inductive exn :=
  | RuntimeError (msg : string)
  | KeyError (key : string)
  | ValueError (msg : string)
  | TypeError (msg : string).

(** Result of running a piece of Python: a value, an exception, or a poll
    loop that did not finish within the fuel it was given. *)
Inductive outcome (A : Type) :=
  | Ok (a : A)
  | Raise (e : exn)
  | Diverge.
Arguments Ok {A} a.
Arguments Raise {A} e.
Arguments Diverge {A}.

(** JSON-compatible values: the [Any] of the type annotations.  [JNull] is
    Python's [None].  Numbers are integers; the cache reads no number but
    the ids of elements. *)
Inductive json :=
  | JNull
  | JBool (b : bool)
  | JNum (z : Z)
  | JStr (s : string)
  | JArr (items : list json)
  | JObj (fields : list (string * json)).

(** Truthiness, as tested by [if data:] and [if not value:]. *)
Definition truthy (j : json) : bool :=
  match j with
  | JNull => false
  | JBool b => b
  | JNum z => negb (z =? 0)
  | JStr s => negb (String.eqb s "")
  | JArr items => match items with [] => false | _ => true end
  | JObj fields => match fields with [] => false | _ => true end
  end.

(** Serialized element bodies.  [json.dumps] and [json.loads] belong to the
    Python standard library; a serialized text is represented by the JSON
    value it denotes, so that [json_loads (json_dumps j) = j] holds as it does
    in Python for JSON-compatible values.  The [encode]/[decode] steps between
    [str] and [bytes] are the identity on this representation. *)
Record serialized := Serialized { denotes : json }.

Definition json_dumps (j : json) : serialized := Serialized j.
Definition json_loads (s : serialized) : json := denotes s.

(** [str(n)] for an integer [n]: the decimal text of an integer is also its
    JSON text. *)
Definition str_of_int (n : Z) : serialized := json_dumps (JNum n).

(** [int(value)] on a stored text: defined on integer literals only. *)
Definition int_of_serialized (s : serialized) : outcome Z :=
  match denotes s with
  | JNum n => Ok n
  | _ => Raise (ValueError "invalid literal for int() with base 10")
  end.

(** Decimal text of an integer, as produced by [f"{id}"] and [str(id)]. *)
Definition string_of_Z (n : Z) : string :=
  NilZero.string_of_int (Z.to_int n).

(** [int(s)] on a string: an optional minus sign followed by digits. *)
Definition Z_of_string (s : string) : outcome Z :=
  match NilZero.int_of_string s with
  | Some d => Ok (Z.of_int d)
  | None => Raise (ValueError "invalid literal for int() with base 10")
  end.

(** ** Python dictionaries

    A [dict] keeps its keys in insertion order, and assigning to an existing
    key keeps the key's position: an association list without duplicate
    keys. *)
Module PyDict.
Section dict.
Context {K V : Type} `{EqDecision K}.

Fixpoint get (k : K) (d : list (K * V)) : option V :=
  match d with
  | [] => None
  | (k', v) :: d' => if decide (k = k') then Some v else get k d'
  end.

(** [d[k] = v] *)
Fixpoint set (k : K) (v : V) (d : list (K * V)) : list (K * V) :=
  match d with
  | [] => [(k, v)]
  | (k', v') :: d' =>
      if decide (k = k') then (k, v) :: d' else (k', v') :: set k v d'
  end.

(** [del d[k]], ignoring a missing key *)
Fixpoint del (k : K) (d : list (K * V)) : list (K * V) :=
  match d with
  | [] => []
  | (k', v') :: d' =>
      if decide (k = k') then del k d' else (k', v') :: del k d'
  end.

(** [d.update(src)] *)
Definition update (src d : list (K * V)) : list (K * V) :=
  fold_left (fun acc kv => set kv.1 kv.2 acc) src d.

Definition del_all (ks : list K) (d : list (K * V)) : list (K * V) :=
  fold_left (fun acc k => del k acc) ks d.

Definition keys (d : list (K * V)) : list K := map fst d.
Definition values (d : list (K * V)) : list V := map snd d.
End dict.

Section defaultdict.
Context {K A : Type} `{EqDecision K}.

(** [d[k].append(x)] on a [defaultdict(list)] *)
Definition append_to (k : K) (x : A) (d : list (K * list A))
  : list (K * list A) :=
  set k (default [] (get k d) ++ [x])%list d.
End defaultdict.
End PyDict.

Abbreviation dict K V := (list (K * V)).

(** [obj[key]] on a JSON value. *)
Definition getitem (obj : json) (key : string) : outcome json :=
  match obj with
  | JObj fields =>
      match PyDict.get key fields with
      | Some v => Ok v
      | None => Raise (KeyError key)
      end
  | _ => Raise (TypeError "object is not subscriptable")
  end.

(** Element ids are integers: [get_element_id] is annotated [id: int].  A
    looked-up [element["id"]] is narrowed to an integer where it is used as
    one; a body whose id is not an integer lies outside the annotated types
    and is rejected. *)
Definition as_int (j : json) : outcome Z :=
  match j with
  | JNum n => Ok n
  | _ => Raise (TypeError "element id is not an integer")
  end.

(** ** Computations

    [M S A] is a Python computation over the mutable state [S]: it returns a
    value or raises, and leaves a state behind in both cases. *)
Definition M (S A : Type) : Type := S -> outcome A * S.

Global Instance outcome_ret : MRet outcome := fun A a => Ok a.
Global Instance outcome_bind : MBind outcome := fun A B f o =>
  match o with
  | Ok a => f a
  | Raise e => Raise e
  | Diverge => Diverge
  end.

Global Instance M_ret {S} : MRet (M S) := fun A a s => (Ok a, s).
Global Instance M_bind {S} : MBind (M S) := fun A B f m s =>
  match m s with
  | (Ok a, s') => f a s'
  | (Raise e, s') => (Raise e, s')
  | (Diverge, s') => (Diverge, s')
  end.

Section control.
Context {S : Type}.

(** [raise e] *)
Definition raise {A} (e : exn) : M S A := fun s => (Raise e, s).

(** a computation that does not touch the state *)
Definition lift {A} (o : outcome A) : M S A := fun s => (o, s).

(** [try: body finally: fin].  The [finally] block runs whether [body]
    returned or raised, and the outcome of [body] is kept. *)
Definition try_finally {A} (body : M S A) (fin : M S unit) : M S A :=
  fun s =>
    match body s with
    | (Diverge, s1) => (Diverge, s1)
    | (r, s1) =>
        match fin s1 with
        | (Ok _, s2) => (r, s2)
        | (Raise e, s2) => (Raise e, s2)
        | (Diverge, s2) => (Diverge, s2)
        end
    end.

(** [try: body except RuntimeError: handler] *)
Definition except_RuntimeError {A} (body handler : M S A) : M S A :=
  fun s =>
    match body s with
    | (Raise (RuntimeError _), s1) => handler s1
    | r => r
    end.

(** [for x in xs: acc = body(x, acc)] *)
Fixpoint for_each {X Acc} (xs : list X) (body : X -> Acc -> M S Acc)
    (acc : Acc) : M S Acc :=
  match xs with
  | [] => mret acc
  | x :: xs' => acc' ← body x acc; for_each xs' body acc'
  end.
End control.

(** the same loop for code that only computes *)
Fixpoint for_each_pure {X Acc} (xs : list X) (body : X -> Acc -> outcome Acc)
    (acc : Acc) : outcome Acc :=
  match xs with
  | [] => Ok acc
  | x :: xs' => acc' ← body x acc; for_each_pure xs' body acc'
  end.

(** ** Element ids ([openslides/utils/utils.py]) *)

(** Modelled from the spec: [get_element_id] of [utils.py] is not among the
    sources.  The canonical serialized form of an ElementID is
    ["{collection}:{id}"]. *)
Definition get_element_id (collection_string : string) (id : Z) : string :=
  collection_string +:+ ":" +:+ string_of_Z id.

(** [element_id.rsplit(":", 1)]: the text before and after the last colon. *)
Fixpoint rsplit_colon (s : string) : option (string * string) :=
  match s with
  | EmptyString => None
  | String a s' =>
      match rsplit_colon s' with
      | Some (l, r) => Some (String a l, r)
      | None => if Ascii.eqb a ":"%char then Some (EmptyString, s') else None
      end
  end.

(** Modelled from the spec: [split_element_id] of [utils.py] is not among the
    sources.  It reads the canonical form back into collection and id: the
    separator is the last colon, as collection names may not contain it, and
    the id is an integer. *)
Definition split_element_id (element_id : string) : outcome (string * Z) :=
  match rsplit_colon element_id with
  | Some (collection_str, id) => n ← Z_of_string id; Ok (collection_str, n)
  | None => Raise (ValueError "not enough values to unpack")
  end.

(** ** The cache provider ([openslides/utils/cache_providers.py]) *)
Module Provider.

(** Modelled from the spec: the provider classes of [cache_providers.py] are
    not among the sources.  The state of a provider is the FullDataStore
    (namespace [None]) and one RestrictedDataStore per user id (namespace
    [Some user_id]), the ChangeIndex of (score, member) entries in the order
    they were recorded, the internal ChangeId counter, and the held locks. *)
Record t := Build {
  stores : gmap (option Z) (list (string * serialized));
  change_index : list (Z * string);
  counter : option Z;
  locks : gset string }.

(** Modelled from the spec: a provider of [cache_providers.py] (absent) as it
    is constructed: no store, no recorded change, no counter, no lock. *)
Definition empty : t :=
  {| stores := ∅; change_index := []; counter := None; locks := ∅ |}.

(** Modelled from the spec: an update of the stores of the absent provider
    that leaves its ChangeIndex, counter and locks alone. *)
Definition with_stores (f : gmap (option Z) (list (string * serialized)) ->
    gmap (option Z) (list (string * serialized))) (p : t) : t :=
  {| stores := f (stores p); change_index := change_index p;
     counter := counter p; locks := locks p |}.

(** Modelled from the spec: an update of the locks of the absent provider
    that leaves its stores, ChangeIndex and counter alone. *)
Definition with_locks (f : gset string -> gset string) (p : t) : t :=
  {| stores := stores p; change_index := change_index p;
     counter := counter p; locks := f (locks p) |}.

(** Modelled from the spec: the contents of one namespace of the absent
    provider, empty when the namespace was never initialized. *)
Definition store (user_id : option Z) (p : t) : list (string * serialized) :=
  default [] (stores p !! user_id).

(** Modelled from the spec: [data_exists] of the absent provider, whether a
    (full or per-user) store has been initialized at all. *)
Definition data_exists (user_id : option Z) (p : t) : bool :=
  bool_decide (is_Some (stores p !! user_id)).

(** Modelled from the spec: [set_lock] of the absent provider, a non-blocking
    try-acquire. *)
Definition set_lock (lock_name : string) (p : t) : bool * t :=
  if decide (lock_name ∈ locks p) then (false, p)
  else (true, with_locks (fun ls => {[lock_name]} ∪ ls) p).

(** Modelled from the spec: [get_lock] of the absent provider, poll-is-held. *)
Definition get_lock (lock_name : string) (p : t) : bool :=
  bool_decide (lock_name ∈ locks p).

(** Modelled from the spec: [del_lock] of the absent provider, release; no
    ownership token is checked. *)
Definition del_lock (lock_name : string) (p : t) : t :=
  with_locks (fun ls => ls ∖ {[lock_name]}) p.

(** Modelled from the spec: [reset_full_cache] of the absent provider replaces
    the entire FullDataStore by the mapping; the whole-cache reset is also
    what removes the entries of the ChangeIndex.  The counter is kept. *)
Definition reset_full_cache (data : list (string * serialized)) (p : t) : t :=
  {| stores := <[None := data]> (stores p); change_index := [];
     counter := counter p; locks := locks p |}.

(** Modelled from the spec: [add_elements] of the absent provider upserts
    entries in the FullDataStore.  The flat list [k1, v1, k2, v2, ...] of the
    source is represented by its pairs. *)
Definition add_elements (elements : list (string * serialized)) (p : t) : t :=
  with_stores (fun st => <[None := PyDict.update elements (store None p)]> st) p.

(** Modelled from the spec: [del_elements] of the absent provider removes
    entries from the FullDataStore (no user id) or from one
    RestrictedDataStore (user id given). *)
Definition del_elements (elements : list string) (user_id : option Z) (p : t)
  : t :=
  with_stores (fun st =>
    match st !! user_id with
    | Some d => <[user_id := PyDict.del_all elements d]> st
    | None => st
    end) p.

(** Modelled from the spec: [add_changed_elements] of the absent provider
    obtains the next ChangeId (the internal counter is seeded with
    [default_change_id] only if no counter exists yet), records a
    (ChangeId, id) entry in the ChangeIndex for every id, and returns the
    ChangeId used. *)
Definition add_changed_elements (default_change_id : Z)
    (element_ids : list string) (p : t) : Z * t :=
  let change_id :=
    match counter p with
    | Some c => c + 1
    | None => default_change_id
    end in
  (change_id,
   {| stores := stores p;
      change_index :=
        (change_index p ++ map (fun id => (change_id, id)) element_ids)%list;
      counter := Some change_id; locks := locks p |}).

(** Modelled from the spec: [get_all_data] of the absent provider, a snapshot
    of a full namespace. *)
Definition get_all_data (user_id : option Z) (p : t)
  : list (string * serialized) :=
  store user_id p.

(** Modelled from the spec: the last ChangeId recorded for a member of the
    ChangeIndex of the absent provider, that is the highest score among the
    entries of that member. *)
Definition last_change (member : string) (index : list (Z * string))
  : option Z :=
  fold_left (fun acc e =>
    if decide (e.2 = member)
    then Some (match acc with Some s => Z.max s e.1 | None => e.1 end)
    else acc) index None.

(** Modelled from the spec: the range test of [get_data_since] of the absent
    provider, [[change_id, max_change_id]] or [[change_id, +∞)] when
    [max_change_id = -1]. *)
Definition in_range (change_id max_change_id : Z) (score : option Z) : bool :=
  match score with
  | Some s =>
      bool_decide (change_id <= s)
      && (bool_decide (max_change_id = -1) || bool_decide (s <= max_change_id))
  | None => false
  end.

(** Modelled from the spec: [get_data_since] of the absent provider returns
    every element whose last recorded ChangeId lies in
    [[change_id, max_change_id]] (no upper bound when [max_change_id = -1]),
    grouped by collection; an element in that range of the ChangeIndex that
    is no longer in the data store is reported as deleted. *)
Definition get_data_since (change_id : Z) (user_id : option Z)
    (max_change_id : Z) (p : t)
  : outcome (list (string * list serialized) * list string) :=
  let cache_dict := store user_id p in
  let all_element_ids :=
    filter (fun m => in_range change_id max_change_id
                       (last_change m (change_index p)) = true)
           (remove_dups (map snd (change_index p))) in
  for_each_pure all_element_ids (fun element_id '(changed, deleted) =>
    match PyDict.get element_id cache_dict with
    | None => Ok (changed, (deleted ++ [element_id])%list)
    | Some element_json =>
        '(collection_string, _) ← split_element_id element_id;
        Ok (PyDict.append_to collection_string element_json changed, deleted)
    end) ([], []).

(** Modelled from the spec: the entry of the ChangeIndex of the absent
    provider with the highest score. *)
Definition max_entry (index : list (Z * string)) : option (Z * string) :=
  fold_left (fun acc e =>
    match acc with
    | Some b => if decide (b.1 < e.1) then Some e else acc
    | None => Some e
    end) index None.

(** Modelled from the spec: [get_current_change_id] of the absent provider,
    the highest recorded ChangeId or none.  The source reads the answer as
    [value[0][1]]: a list that is empty or holds one (member, score) pair. *)
Definition get_current_change_id (p : t) : list (string * Z) :=
  match max_entry (change_index p) with
  | Some (score, member) => [(member, score)]
  | None => []
  end.

(** Modelled from the spec: [get_lowest_change_id] of the absent provider,
    the lowest recorded ChangeId or none. *)
Definition get_lowest_change_id (p : t) : option Z :=
  match change_index p with
  | [] => None
  | e :: index => Some (fold_left (fun m e' => Z.min m e'.1) index e.1)
  end.

(** Modelled from the spec: [get_change_id_user] of the absent provider, the
    ChangeId recorded under the sentinel key of the user's store. *)
Definition get_change_id_user (user_id : Z) (p : t) : option serialized :=
  PyDict.get "_config:change_id" (store (Some user_id) p).

(** Modelled from the spec: [update_restricted_data] of the absent provider
    upserts the mapping into the user's store. *)
Definition update_restricted_data (user_id : Z)
    (data : list (string * serialized)) (p : t) : t :=
  with_stores (fun st =>
    <[Some user_id := PyDict.update data (store (Some user_id) p)]> st) p.

(** Modelled from the spec: [del_restricted_data] of the absent provider
    removes the user's store. *)
Definition del_restricted_data (user_id : Z) (p : t) : t :=
  with_stores (fun st => delete (Some user_id) st) p.

(** Modelled from the spec: [get_collection_data] of the absent provider, a
    snapshot of the FullDataStore filtered to one collection: the entries
    whose key starts with the collection name and the separator.  The cache
    reads the collection of every returned key again. *)
Definition get_collection_data (collection : string) (p : t)
  : list (string * serialized) :=
  filter (fun entry => String.prefix (collection +:+ ":") entry.1 = true)
    (store None p).

(** Modelled from the spec: [get_element] of the absent provider, the stored
    text of one element of a namespace, or [None]. *)
Definition get_element (element_id : string) (user_id : option Z) (p : t)
  : option serialized :=
  PyDict.get element_id (store user_id p).

End Provider.

(** ** The element cache ([openslides/utils/cache.py]) *)

(** A collection as the cache sees it: its name, the enumeration of its
    elements and its permission filter.  Both calls may raise. *)
Record Cachable := {
  get_collection_string : string;
  get_elements : outcome (list json);
  restrict_elements : Z -> list json -> outcome (list json) }.

(** The attributes of an [ElementCache] object.  [cache_provider] is the
    state of the provider the object owns.  The lazily filled [_cachables] is
    a function of [cachable_provider] and is recomputed where it is read. *)
Record ElementCache := {
  use_restricted_data_cache : bool;
  cache_provider : Provider.t;
  cachable_provider : list Cachable;
  start_time : Z;
  ensured : bool }.

(** [ElementCache.__init__] with an explicit [start_time]. *)
Definition init (use_restricted : bool) (provider : Provider.t)
    (cachable_provider : list Cachable) (start_time : Z) : ElementCache :=
  {| use_restricted_data_cache := use_restricted;
     cache_provider := provider;
     cachable_provider := cachable_provider;
     start_time := start_time;
     ensured := false |}.

Definition with_provider (f : Provider.t -> Provider.t) (self : ElementCache)
  : ElementCache :=
  {| use_restricted_data_cache := use_restricted_data_cache self;
     cache_provider := f (cache_provider self);
     cachable_provider := cachable_provider self;
     start_time := start_time self;
     ensured := ensured self |}.

Definition set_ensured (b : bool) : M ElementCache unit := fun self =>
  (Ok tt,
   {| use_restricted_data_cache := use_restricted_data_cache self;
      cache_provider := cache_provider self;
      cachable_provider := cachable_provider self;
      start_time := start_time self;
      ensured := b |}).

(** reading an attribute of [self] *)
Definition attr {A} (f : ElementCache -> A) : M ElementCache A :=
  fun self => (Ok (f self), self).

(** calls into [self.cache_provider] *)
Definition provider_do (f : Provider.t -> Provider.t) : M ElementCache unit :=
  fun self => (Ok tt, with_provider f self).

Definition provider_call {A} (f : Provider.t -> A * Provider.t)
  : M ElementCache A :=
  fun self =>
    let '(a, p) := f (cache_provider self) in
    (Ok a, with_provider (fun _ => p) self).

Definition provider_get {A} (f : Provider.t -> A) : M ElementCache A :=
  fun self => (Ok (f (cache_provider self)), self).

Definition provider_try {A} (f : Provider.t -> outcome A) : M ElementCache A :=
  fun self => (f (cache_provider self), self).

(** [ElementCache.cachables] *)
Definition cachables (self : ElementCache) : list (string * Cachable) :=
  fold_left (fun acc cachable =>
      PyDict.set (get_collection_string cachable) cachable acc)
    (cachable_provider self) [].

(** [while await get_lock(lock_name): sleep(0.01)] *)
Fixpoint wait_for_lock (fuel : nat) (lock_name : string)
  : M ElementCache unit :=
  match fuel with
  | O => fun self => (Diverge, self)
  | S fuel' =>
      held ← provider_get (Provider.get_lock lock_name);
      if held : bool then wait_for_lock fuel' lock_name else mret tt
  end.

(** [element["id"]], as an integer *)
Definition element_id_of (element : json) : outcome Z :=
  id ← getitem element "id"; as_int id.

(** the [mapping] that [ensure_cache] builds from all cachables *)
Definition build_mapping (self : ElementCache)
  : outcome (list (string * serialized)) :=
  for_each_pure (cachables self) (fun '(collection_string, cachable) mapping =>
    elements ← get_elements cachable;
    for_each_pure elements (fun element mapping =>
      id ← element_id_of element;
      Ok (PyDict.update
            [(get_element_id collection_string id, json_dumps element)]
            mapping)) mapping) [].

(** the [try] block of [ensure_cache] *)
Definition build_full_cache : M ElementCache unit :=
  self ← attr id;
  mapping ← lift (build_mapping self);
  provider_do (Provider.reset_full_cache mapping).

Definition ensure_cache (fuel : nat) (reset : bool) : M ElementCache unit :=
  cache_exists ← provider_get (Provider.data_exists None);
  (if reset || negb cache_exists then
     let lock_name := "ensure_cache" in
     acquired ← provider_call (Provider.set_lock lock_name);
     if acquired : bool then
       try_finally build_full_cache
         (provider_do (Provider.del_lock lock_name))
     else wait_for_lock fuel lock_name
   else mret tt);;
  set_ensured true.

(** the two lists that [change_elements] fills from [elements.items()] *)
Definition partition_elements (elements : list (string * json))
  : list (string * serialized) * list string :=
  fold_left (fun '(changed_elements, deleted_elements) '(element_id, data) =>
      if truthy data
      then ((changed_elements ++ [(element_id, json_dumps data)])%list,
            deleted_elements)
      else (changed_elements, (deleted_elements ++ [element_id])%list))
    elements ([], []).

Definition change_elements (elements : list (string * json))
  : M ElementCache Z :=
  is_ensured ← attr ensured;
  if negb is_ensured then
    raise (RuntimeError
             "Call element_cache.ensure_cache before changing elements.")
  else
    let '(changed_elements, deleted_elements) := partition_elements elements in
    (if bool_decide (changed_elements ≠ [])
     then provider_do (Provider.add_elements changed_elements)
     else mret tt);;
    (if bool_decide (deleted_elements ≠ [])
     then provider_do (Provider.del_elements deleted_elements None)
     else mret tt);;
    seed ← attr start_time;
    provider_call
      (Provider.add_changed_elements (seed + 1) (PyDict.keys elements)).

Definition get_all_full_data_ordered
  : M ElementCache (list (string * list (Z * json))) :=
  full_data ← provider_get (Provider.get_all_data None);
  lift (for_each_pure full_data (fun '(element_id, data) out =>
    '(collection_string, id) ← split_element_id element_id;
    Ok (PyDict.set collection_string
          (PyDict.set id (json_loads data)
             (default [] (PyDict.get collection_string out))) out)) []).

Definition get_all_full_data : M ElementCache (list (string * list json)) :=
  all_data ← get_all_full_data_ordered;
  mret (fold_left (fun out '(collection_string, collection_data) =>
      fold_left (fun out data => PyDict.append_to collection_string data out)
        (PyDict.values collection_data) out) all_data []).

Definition get_current_change_id : M ElementCache Z :=
  value ← provider_get Provider.get_current_change_id;
  match value with
  | [] => attr start_time
  | (_, score) :: _ => mret score
  end.

Definition get_lowest_change_id : M ElementCache Z :=
  value ← provider_get Provider.get_lowest_change_id;
  match value with
  | Some n =>
      if n =? 0 then raise (RuntimeError "There is no known change_id.")
      else mret n
  | None => raise (RuntimeError "There is no known change_id.")
  end.

(** the message of the stale-read error *)
Definition stale_read_message (change_id lowest_change_id : Z) : string :=
  "change_id " +:+ string_of_Z change_id
  +:+ " is lower then the lowest change_id in redis "
  +:+ string_of_Z lowest_change_id
  +:+ ". Catch this exception and rerun the method with change_id=0.".

(** the comprehension that decodes the answer of [get_data_since] *)
Definition decode_changed (raw_changed_elements : list (string * list serialized))
  : list (string * list json) :=
  map (fun '(collection_string, value_list) =>
         (collection_string, map json_loads value_list))
      raw_changed_elements.

Definition get_full_data (change_id max_change_id : Z)
  : M ElementCache (list (string * list json) * list string) :=
  if change_id =? 0 then
    all_data ← get_all_full_data; mret (all_data, [])
  else
    lowest_change_id ← get_lowest_change_id;
    if change_id <? lowest_change_id then
      raise (RuntimeError (stale_read_message change_id lowest_change_id))
    else
      '(raw_changed_elements, deleted_elements) ←
        provider_try (Provider.get_data_since change_id None max_change_id);
      mret (decode_changed raw_changed_elements, deleted_elements).

(** [set(element["id"] for element in data)] *)
Definition id_set (data : list json) : outcome (list Z) :=
  ids ← for_each_pure data (fun element ids =>
           id ← element_id_of element; Ok (ids ++ [id])%list) [];
  Ok (remove_dups ids).

(** the [except RuntimeError] block of [update_restricted_data]: the whole
    restricted data of the user is recreated *)
Definition full_resync (user_id : Z)
  : M ElementCache (list (string * list json) * list string) :=
  full_data_elements ← get_all_full_data;
  provider_do (Provider.del_restricted_data user_id);;
  mret (full_data_elements, []).

(** the [try]/[except RuntimeError] of [update_restricted_data]: the delta of
    full data since the user's ChangeId, or everything after purging the
    user's store *)
Definition fetch_full_data (user_id user_change_id : Z)
  : M ElementCache (list (string * list json) * list string) :=
  except_RuntimeError
    (get_full_data (user_change_id + 1) (-1))
    (full_resync user_id).

(** [cachables[collection_string].restrict_elements(user_id, full_data)] *)
Definition restrict (self : ElementCache) (user_id : Z)
    (collection_string : string) (full_data : list json)
  : outcome (list json) :=
  match PyDict.get collection_string (cachables self) with
  | Some cachable => restrict_elements cachable user_id full_data
  | None => Raise (KeyError collection_string)
  end.

(** one round of the loop over [full_data_elements.items()] *)
Definition restrict_collection (self : ElementCache) (user_id : Z)
    (item : string * list json)
    (acc : list (string * serialized) * list string)
  : outcome (list (string * serialized) * list string) :=
  let '(collection_string, full_data) := item in
  let '(mapping, deleted_elements) := acc in
  restricted_elements ← restrict self user_id collection_string full_data;
  full_data_ids ← id_set full_data;
  restricted_data_ids ← id_set restricted_elements;
  let deleted_elements :=
    (deleted_elements
     ++ map (get_element_id collection_string)
          (list_difference full_data_ids restricted_data_ids))%list in
  mapping ← for_each_pure restricted_elements (fun element mapping =>
      id ← element_id_of element;
      Ok (PyDict.update
            [(get_element_id collection_string id, json_dumps element)]
            mapping)) mapping;
  Ok (mapping, deleted_elements).

(** the loop of [update_restricted_data] over the fetched collections: the
    [mapping] of visible elements and the extended deletion list *)
Definition restrict_full_data (self : ElementCache) (user_id : Z)
    (full_data_elements : list (string * list json))
    (deleted_elements : list string)
  : outcome (list (string * serialized) * list string) :=
  for_each_pure full_data_elements (restrict_collection self user_id)
    ([], deleted_elements).

Definition lock_name_of (user_id : Z) : string :=
  "restricted_data_" +:+ string_of_Z user_id.

(** the body of [if change_id > user_change_id:] *)
Definition refresh_restricted_data (user_id user_change_id change_id : Z)
  : M ElementCache unit :=
  '(full_data_elements, deleted_elements) ←
    fetch_full_data user_id user_change_id;
  self ← attr id;
  '(mapping, deleted_elements) ←
    lift (restrict_full_data self user_id full_data_elements deleted_elements);
  let mapping := PyDict.set "_config:change_id" (str_of_int change_id) mapping in
  provider_do (Provider.update_restricted_data user_id mapping);;
  if bool_decide (deleted_elements ≠ [])
  then provider_do (Provider.del_elements deleted_elements (Some user_id))
  else mret tt.

(** the statements of [update_restricted_data] between [set_lock] and
    [del_lock] *)
Definition refresh_if_stale (user_id : Z) : M ElementCache unit :=
  value ← provider_get (Provider.get_change_id_user user_id);
  user_change_id ← match value with
                   | Some v => lift (int_of_serialized v)
                   | None => mret (-1)
                   end;
  change_id ← get_current_change_id;
  if user_change_id <? change_id
  then refresh_restricted_data user_id user_change_id change_id
  else mret tt.

Definition update_restricted_data (fuel : nat) (user_id : Z)
  : M ElementCache unit :=
  use_cache ← attr use_restricted_data_cache;
  if negb use_cache then mret tt
  else
    is_ensured ← attr ensured;
    if negb is_ensured then
      raise (RuntimeError
        "Call element_cache.ensure_cache before updating restricted data.")
    else
      let lock_name := lock_name_of user_id in
      acquired ← provider_call (Provider.set_lock lock_name);
      if acquired : bool then
        refresh_if_stale user_id;;
        provider_do (Provider.del_lock lock_name)
      else wait_for_lock fuel lock_name.

(** the loop of [get_all_restricted_data] over the user's store *)
Definition group_restricted (restricted_data : list (string * serialized))
  : outcome (list (string * list json)) :=
  for_each_pure restricted_data (fun '(element_id, data) out =>
    if String.prefix "_config" element_id then Ok out
    else
      '(collection_string, _) ← split_element_id element_id;
      Ok (PyDict.append_to collection_string (json_loads data) out)) [].

Definition get_all_restricted_data (fuel : nat) (user_id : Z)
  : M ElementCache (list (string * list json)) :=
  use_cache ← attr use_restricted_data_cache;
  if negb use_cache then
    all_full_data ← get_all_full_data;
    self ← attr id;
    lift (for_each_pure all_full_data
      (fun '(collection_string, full_data) all_restricted_data =>
         elements ← restrict self user_id collection_string full_data;
         Ok (PyDict.set collection_string elements all_restricted_data)) [])
  else
    update_restricted_data fuel user_id;;
    restricted_data ← provider_get (Provider.get_all_data (Some user_id));
    lift (group_restricted restricted_data).

Definition get_restricted_data (fuel : nat) (user_id change_id max_change_id : Z)
  : M ElementCache (list (string * list json) * list string) :=
  if change_id =? 0 then
    all_data ← get_all_restricted_data fuel user_id; mret (all_data, [])
  else
    use_cache ← attr use_restricted_data_cache;
    if negb use_cache then
      '(changed_elements, deleted_elements) ←
        get_full_data change_id max_change_id;
      self ← attr id;
      lift (for_each_pure changed_elements
        (fun '(collection_string, full_data) '(restricted_data, deleted_elements) =>
           elements ← restrict self user_id collection_string full_data;
           full_data_ids ← id_set full_data;
           restricted_data_ids ← id_set elements;
           let deleted_elements :=
             (deleted_elements
              ++ map (get_element_id collection_string)
                   (list_difference full_data_ids restricted_data_ids))%list in
           Ok (if bool_decide (elements ≠ [])
               then PyDict.set collection_string elements restricted_data
               else restricted_data,
               deleted_elements))
        ([], deleted_elements))
    else
      lowest_change_id ← get_lowest_change_id;
      if change_id <? lowest_change_id then
        raise (RuntimeError (stale_read_message change_id lowest_change_id))
      else
        update_restricted_data fuel user_id;;
        '(raw_changed_elements, deleted_elements) ←
          provider_try
            (Provider.get_data_since change_id (Some user_id) max_change_id);
        mret (decode_changed raw_changed_elements, deleted_elements).

Definition get_collection_full_data (collection_string : string)
  : M ElementCache (list (Z * json)) :=
  full_data ← provider_get (Provider.get_collection_data collection_string);
  lift (for_each_pure full_data (fun '(element_id, data) out =>
    '(returned_collection_string, id) ← split_element_id element_id;
    Ok (if String.eqb returned_collection_string collection_string
        then PyDict.set id (json_loads data) out
        else out)) []).

(** [None] is returned as [JNull]. *)
Definition get_element_full_data (collection_string : string) (id : Z)
  : M ElementCache json :=
  element ← provider_get
    (Provider.get_element (get_element_id collection_string id) None);
  match element with
  | None => mret JNull
  | Some element => mret (json_loads element)
  end.

Definition exists_restricted_data (user_id : Z) : M ElementCache bool :=
  use_cache ← attr use_restricted_data_cache;
  if negb use_cache then mret false
  else provider_get (Provider.data_exists (Some user_id)).

Definition del_user (user_id : Z) : M ElementCache unit :=
  provider_do (Provider.del_restricted_data user_id).

(** [restricted_data[0] if restricted_data else None] *)
Definition first_or_None (restricted_data : list json) : json :=
  match restricted_data with
  | element :: _ => element
  | [] => JNull
  end.

(** [None] is returned as [JNull].  A stored text denotes a JSON value and is
    never empty, so that [if out] tests whether the key was found. *)
Definition get_element_restricted_data (fuel : nat) (user_id : Z)
    (collection_string : string) (id : Z) : M ElementCache json :=
  use_cache ← attr use_restricted_data_cache;
  if negb use_cache then
    full_data ← get_element_full_data collection_string id;
    match full_data with
    | JNull => mret JNull
    | _ =>
        self ← attr (fun self => self);
        restricted_data ←
          lift (restrict self user_id collection_string [full_data]);
        mret (first_or_None restricted_data)
    end
  else
    update_restricted_data fuel user_id;;
    out ← provider_get
      (Provider.get_element (get_element_id collection_string id)
         (Some user_id));
    match out with
    | Some out => mret (json_loads out)
    | None => mret JNull
    end.

(** ** Auxiliary definitions for the statements *)

(** an element id that [split_element_id] can read *)
Definition well_formed_id (element_id : string) : Prop :=
  match split_element_id element_id with
  | Ok _ => True
  | _ => False
  end.

Global Instance well_formed_id_dec element_id :
  Decision (well_formed_id element_id).
Proof.
  unfold well_formed_id. destruct (split_element_id element_id); apply _.
Defined.

(** the ChangeId that the next batch of changes is stamped with *)
Definition next_change_id (self : ElementCache) : Z :=
  match Provider.counter (cache_provider self) with
  | Some c => c + 1
  | None => start_time self + 1
  end.

(** [change_elements] called for one batch after another; the ChangeIds are
    collected in the order of the calls *)
Fixpoint change_elements_seq (batches : list (list (string * json)))
  : M ElementCache (list Z) :=
  match batches with
  | [] => mret []
  | elements :: batches' =>
      change_id ← change_elements elements;
      change_ids ← change_elements_seq batches';
      mret (change_id :: change_ids)
  end.

(** the calls of the cache that are embedded here *)
Inductive call :=
  | EnsureCache (reset : bool)
  | ChangeElements (elements : list (string * json))
  | GetAllFullData
  | GetFullData (change_id max_change_id : Z)
  | UpdateRestrictedData (user_id : Z)
  | GetAllRestrictedData (user_id : Z)
  | GetRestrictedData (user_id change_id max_change_id : Z)
  | GetCurrentChangeId
  | GetLowestChangeId.

(** a call, returning the ChangeId when it is a [change_elements] *)
Definition run_call (fuel : nat) (c : call) : M ElementCache (option Z) :=
  match c with
  | EnsureCache reset => ensure_cache fuel reset;; mret None
  | ChangeElements elements =>
      change_id ← change_elements elements; mret (Some change_id)
  | GetAllFullData => get_all_full_data;; mret None
  | GetFullData change_id max_change_id =>
      get_full_data change_id max_change_id;; mret None
  | UpdateRestrictedData user_id =>
      update_restricted_data fuel user_id;; mret None
  | GetAllRestrictedData user_id =>
      get_all_restricted_data fuel user_id;; mret None
  | GetRestrictedData user_id change_id max_change_id =>
      get_restricted_data fuel user_id change_id max_change_id;; mret None
  | GetCurrentChangeId => get_current_change_id;; mret None
  | GetLowestChangeId => get_lowest_change_id;; mret None
  end.

(** calls made one after another by a caller that catches their exceptions;
    a call that does not return ends the run.  The ChangeIds that
    [change_elements] returned are collected in the order of the calls. *)
Fixpoint run_calls (fuel : nat) (calls : list call) (self : ElementCache)
  : list Z * ElementCache :=
  match calls with
  | [] => ([], self)
  | c :: calls' =>
      match run_call fuel c self with
      | (Ok (Some change_id), self1) =>
          let '(change_ids, self') := run_calls fuel calls' self1 in
          (change_id :: change_ids, self')
      | (Ok None, self1) | (Raise _, self1) => run_calls fuel calls' self1
      | (Diverge, self1) => ([], self1)
      end
  end.

(** a computation that leaves the counter of the provider and the start
    time as they are *)
Definition keeps_counter {A} (m : M ElementCache A) : Prop :=
  ∀ self r self', m self = (r, self') ->
    Provider.counter (cache_provider self')
    = Provider.counter (cache_provider self)
    ∧ start_time self' = start_time self.

(** the element [{"id": 1, "title": title}] and a collection ["motion"] that
    holds it with title ["A"] *)
Definition motion (title : string) : json :=
  JObj [("id", JNum 1); ("title", JStr title)].

(** the element [{"id": 2, "title": title}] *)
Definition motion2 (title : string) : json :=
  JObj [("id", JNum 2); ("title", JStr title)].

Definition motions (restricter : Z -> list json -> outcome (list json))
  : Cachable :=
  {| get_collection_string := "motion";
     get_elements := Ok [motion "A"];
     restrict_elements := restricter |}.


(** a permission filter that fails *)
Definition broken_filter (user_id : Z) (elements : list json)
  : outcome (list json) :=
  Raise (KeyError "permission").

(** [element["title"] == title] *)
Definition has_title (title : string) (element : json) : bool :=
  match getitem element "title" with
  | Ok (JStr s) => String.eqb s title
  | _ => false
  end.

(** a permission filter that shows the elements titled ["A"] only *)
Definition see_title_A (user_id : Z) (elements : list json)
  : outcome (list json) :=
  Ok (filter (fun element => has_title "A" element = true) elements).

(** a permission filter that lets every element through *)
Definition see_all (user_id : Z) (elements : list json)
  : outcome (list json) :=
  Ok elements.

(** the ids of the elements of a list *)
Definition has_id (data : list json) (id : Z) : Prop :=
  ∃ element, element ∈ data ∧ element_id_of element = Ok id.

(** the cache while a lock is held *)
Definition holding (lock_name : string) (self : ElementCache) : ElementCache :=
  with_provider (Provider.with_locks (fun ls => {[lock_name]} ∪ ls)) self.

(** the keys that [update_restricted_data] writes into a user's store: the
    sentinel and element ids *)
Definition restricted_key (key : string) : Prop :=
  key = "_config:change_id" ∨ well_formed_id key.

Global Instance restricted_key_dec key : Decision (restricted_key key).
Proof. unfold restricted_key. apply _. Defined.

(** an entry of the full store whose key is the element id of its body *)
Definition consistent_entry (entry : string * serialized) : Prop :=
  match split_element_id entry.1, element_id_of (json_loads entry.2) with
  | Ok (collection_string, id), Ok id' =>
      entry.1 = get_element_id collection_string id ∧ id' = id
  | _, _ => False
  end.

Global Instance consistent_entry_dec entry : Decision (consistent_entry entry).
Proof.
  unfold consistent_entry.
  destruct (split_element_id entry.1) as [[c id]| |]; try apply _.
  destruct (element_id_of (json_loads entry.2)); apply _.
Defined.

(** the ChangeId recorded in a user's store, [-1] when there is none: the
    [user_change_id] of [update_restricted_data] *)
Definition recorded_change_id (user_id : Z) (self : ElementCache)
  : outcome Z :=
  match Provider.get_change_id_user user_id (cache_provider self) with
  | Some v => int_of_serialized v
  | None => Ok (-1)
  end.

(** the value that [get_current_change_id] returns *)
Definition current_change_id (self : ElementCache) : Z :=
  match Provider.get_current_change_id (cache_provider self) with
  | [] => start_time self
  | (_, score) :: _ => score
  end.

(** the members of the ChangeIndex *)
Definition changed_ids (self : ElementCache) : list string :=
  map snd (Provider.change_index (cache_provider self)).

(** the store of a user *)
Definition restricted_store (user_id : Z) (self : ElementCache)
  : list (string * serialized) :=
  Provider.store (Some user_id) (cache_provider self).

(** the cache with the stores of its provider replaced *)
Definition set_stores (st : gmap (option Z) (list (string * serialized)))
    (self : ElementCache) : ElementCache :=
  with_provider (Provider.with_stores (fun _ => st)) self.

(** two states that differ at most in the stores of the provider: the
    attributes, the ChangeIndex, the counter and the locks are the same *)
Definition stores_only (self self' : ElementCache) : Prop :=
  ∃ st, self' = set_stores st self.

(** the state a computation leaves behind *)
Definition state_after {A} (m : M ElementCache A) (self : ElementCache)
  : ElementCache :=
  (m self).2.

(** a cache over the collection ["motion"], as constructed and as built by
    [ensure_cache] *)
Definition fresh_cache (use_restricted : bool) : ElementCache :=
  init use_restricted Provider.empty [motions see_all] 1000.

Definition built_cache (use_restricted : bool) : ElementCache :=
  state_after (ensure_cache 0 false) (fresh_cache use_restricted).

(** a built cache whose permission filter fails, with restricted-data
    caching enabled *)
Definition failing_cache : ElementCache :=
  state_after (ensure_cache 0 false)
    (init true Provider.empty [motions broken_filter] 1000).

(** a cache whose filter shows titles ["A"] only: user 7 has read
    [motion:1], then the motion got the title ["B"] *)
Definition retitled_cache : ElementCache :=
  state_after
    (ensure_cache 0 false;;
     update_restricted_data 0 7;;
     change_elements [("motion:1", motion "B")])
    (init true Provider.empty [motions see_title_A] 1000).


(** the built cache after [motion:1] got the title ["B"] *)
Definition changed_cache (use_restricted : bool) : ElementCache :=
  state_after (change_elements [("motion:1", motion "B")])
    (built_cache use_restricted).



(** a cache that was rebuilt after user 7 had read: the ChangeIndex was
    reset, and [motion:1] was changed afterwards *)
Definition rebuilt_cache : ElementCache :=
  state_after
    (ensure_cache 0 false;;
     update_restricted_data 0 7;;
     change_elements [("motion:1", motion "B")];;
     ensure_cache 0 true;;
     change_elements [("motion:1", motion "B")])
    (init true Provider.empty [motions see_all] 1000).

(** a cache without restricted-data caching whose filter shows the titles
    ["A"] only, after [motion:1] got the title ["B"] *)
Definition retitled_cache_live : ElementCache :=
  state_after
    (ensure_cache 0 false;;
     change_elements [("motion:1", motion "B")])
    (init false Provider.empty [motions see_title_A] 1000).

(** the built cache after user 7 has read *)
Definition read_cache : ElementCache :=
  state_after (update_restricted_data 0 7) (built_cache true).

(** the ids under which a list of entries holds elements of a collection,
    in the order of the entries *)
Definition collection_ids (collection_string : string)
    (entries : list (string * serialized)) : list Z :=
  omap (fun entry : string * serialized =>
          match split_element_id entry.1 with
          | Ok (c, id) =>
              if String.eqb c collection_string then Some id else None
          | _ => None
          end) entries.

(** the built cache after [motion:1] was deleted, a second motion was added
    and [motion:1] was added again *)
Definition reordered_cache : ElementCache :=
  state_after
    (change_elements [("motion:1", JNull); ("motion:2", motion2 "B")];;
     change_elements [("motion:1", motion "A")])
    (built_cache false).

(** * Properties *)

(** ** Dictionaries *)
Module PyDictFacts.
Import PyDict.
Section facts.
Context {K V : Type} `{EqDecision K}.
Implicit Types (k : K) (v : V) (d : list (K * V)).

Lemma get_set_eq k v d : get k (set k v d) = Some v.
Proof.
  induction d as [|[k' v'] d IH]; simpl; repeat (case_decide; simpl); congruence.
Qed.

Lemma get_set_ne k k' v d : k ≠ k' -> get k' (set k v d) = get k' d.
Proof.
  intros Hne. induction d as [|[k0 v0] d IH]; simpl;
    repeat (case_decide; simpl); congruence.
Qed.

Lemma get_del_eq k d : get k (del k d) = None.
Proof.
  induction d as [|[k' v'] d IH]; simpl; repeat (case_decide; simpl); congruence.
Qed.

Lemma get_del_ne k k' d : k ≠ k' -> get k' (del k d) = get k' d.
Proof.
  intros Hne. induction d as [|[k0 v0] d IH]; simpl;
    repeat (case_decide; simpl); congruence.
Qed.

Lemma get_del_None k k' d : get k' d = None -> get k' (del k d) = None.
Proof.
  intros Hn. destruct (decide (k = k')) as [->|Hne].
  - apply get_del_eq.
  - by rewrite get_del_ne.
Qed.

Lemma get_del_all_None ks k d : get k d = None -> get k (del_all ks d) = None.
Proof.
  revert d. induction ks as [|k0 ks IH]; intros d Hn; simpl; [done|].
  apply IH. by apply get_del_None.
Qed.

Lemma get_del_all_elem ks k d : k ∈ ks -> get k (del_all ks d) = None.
Proof.
  revert d. induction ks as [|k0 ks IH]; intros d Hin.
  - by apply elem_of_nil in Hin.
  - simpl. apply elem_of_cons in Hin as [->|Hin].
    + apply get_del_all_None, get_del_eq.
    + by apply IH.
Qed.

Lemma get_del_all_notin ks k d : k ∉ ks -> get k (del_all ks d) = get k d.
Proof.
  revert d. induction ks as [|k0 ks IH]; intros d Hin; simpl; [done|].
  apply not_elem_of_cons in Hin as [Hne Hin].
  rewrite IH by done. by apply get_del_ne.
Qed.

Lemma get_None_keys k d : get k d = None <-> k ∉ keys d.
Proof.
  unfold keys. induction d as [|[k' v'] d IH]; simpl.
  - split; [intros _; apply not_elem_of_nil | done].
  - rewrite not_elem_of_cons. case_decide.
    + split; [done | intros [? _]; done].
    + rewrite IH. tauto.
Qed.

Lemma keys_set k v d : ∀ k', k' ∈ keys (set k v d) <-> k' = k ∨ k' ∈ keys d.
Proof.
  intros k'. unfold keys. induction d as [|[k0 v0] d IH]; simpl.
  - rewrite list_elem_of_singleton. split; [auto|]. intros [?|H0]; [done|].
    by apply elem_of_nil in H0.
  - case_decide; simpl; rewrite !elem_of_cons; [subst; tauto|].
    rewrite IH. tauto.
Qed.

Lemma keys_del_subseteq k d : keys (del k d) ⊆ keys d.
Proof.
  unfold keys. induction d as [|[k0 v0] d IH]; simpl; [done|].
  case_decide; simpl.
  - by apply list_subseteq_cons.
  - intros x. rewrite !elem_of_cons. intros [?|?]; [auto|]. right. by apply IH.
Qed.

Lemma keys_del_all_subseteq ks d : keys (del_all ks d) ⊆ keys d.
Proof.
  revert d. induction ks as [|k ks IH]; intros d; simpl; [done|].
  etransitivity; [apply IH|apply keys_del_subseteq].
Qed.

Lemma keys_update src d :
  ∀ k, k ∈ keys (update src d) <-> k ∈ keys src ∨ k ∈ keys d.
Proof.
  unfold update. revert d. induction src as [|[k0 v0] src IH]; intros d k; simpl.
  - unfold keys at 1. simpl. rewrite elem_of_nil. tauto.
  - rewrite IH, keys_set. unfold keys at 3. simpl. rewrite elem_of_cons. tauto.
Qed.
End facts.
End PyDictFacts.

(** ** Dictionaries without duplicate keys *)
Section dict_update.
Context {K V : Type} `{EqDecision K}.
Implicit Types (k : K) (v : V) (d src : list (K * V)).

Lemma keys_set_NoDup k v d :
  NoDup (PyDict.keys d) -> NoDup (PyDict.keys (PyDict.set k v d)).
Proof.
  unfold PyDict.keys. induction d as [|[k0 v0] d IH]; simpl; intros Hnd.
  - apply NoDup_singleton.
  - apply NoDup_cons in Hnd as [Hnotin Hnd]. case_decide; simpl.
    + subst. by apply NoDup_cons.
    + apply NoDup_cons. split; [|by apply IH].
      intros Hin. apply (PyDictFacts.keys_set k v d k0) in Hin as [->|Hin]; done.
Qed.

Lemma keys_update_NoDup src d :
  NoDup (PyDict.keys d) -> NoDup (PyDict.keys (PyDict.update src d)).
Proof.
  unfold PyDict.update. revert d.
  induction src as [|[k v] src IH]; intros d Hnd; simpl; [done|].
  by apply IH, keys_set_NoDup.
Qed.

Lemma get_update_notin src d k :
  k ∉ PyDict.keys src -> PyDict.get k (PyDict.update src d) = PyDict.get k d.
Proof.
  unfold PyDict.update, PyDict.keys. revert d.
  induction src as [|[k0 v0] src IH]; intros d Hnotin; simpl; [done|].
  simpl in Hnotin. apply not_elem_of_cons in Hnotin as [Hne Hnotin].
  rewrite IH by done. by apply PyDictFacts.get_set_ne.
Qed.

(** [update] lets the source win *)
Lemma get_update src d k :
  NoDup (PyDict.keys src) ->
  PyDict.get k (PyDict.update src d) =
  match PyDict.get k src with
  | Some v => Some v
  | None => PyDict.get k d
  end.
Proof.
  revert d. induction src as [|[k0 v0] src IH]; intros d Hnd; [done|].
  change (PyDict.update ((k0, v0) :: src) d)
    with (PyDict.update src (PyDict.set k0 v0 d)).
  change (PyDict.keys ((k0, v0) :: src)) with (k0 :: PyDict.keys src) in Hnd.
  apply NoDup_cons in Hnd as [Hnotin Hnd]. simpl. case_decide.
  - subst. rewrite get_update_notin by done. apply PyDictFacts.get_set_eq.
  - rewrite IH by done. destruct (PyDict.get k src); [done|].
    by apply PyDictFacts.get_set_ne.
Qed.

Lemma get_Some_keys k v d : PyDict.get k d = Some v -> k ∈ PyDict.keys d.
Proof.
  intros H. destruct (decide (k ∈ PyDict.keys d)) as [|Hn]; [done|].
  apply PyDictFacts.get_None_keys in Hn. congruence.
Qed.

Lemma get_Some_elem k v d : PyDict.get k d = Some v -> (k, v) ∈ d.
Proof.
  induction d as [|[k0 v0] d IH]; simpl; [done|]. case_decide.
  - intros [= ->]. subst. left.
  - intros H'. right. by apply IH.
Qed.
End dict_update.

(** ** Element ids *)
Section element_ids.

Lemma rsplit_colon_uint d : rsplit_colon (NilEmpty.string_of_uint d) = None.
Proof. induction d; simpl; rewrite ?IHd; reflexivity. Qed.

Lemma rsplit_colon_string_of_Z n : rsplit_colon (string_of_Z n) = None.
Proof.
  unfold string_of_Z, NilZero.string_of_int, NilZero.string_of_uint.
  destruct (Z.to_int n) as [d|d]; destruct d; simpl;
    rewrite ?rsplit_colon_uint; reflexivity.
Qed.

Lemma rsplit_colon_app c d :
  rsplit_colon d = None -> rsplit_colon (c +:+ ":" +:+ d) = Some (c, d).
Proof.
  intros Hd. induction c as [|a c IH].
  - change (rsplit_colon (String ":" d) = Some ("", d)).
    cbn [rsplit_colon]. by rewrite Hd.
  - change (rsplit_colon (String a (c +:+ ":" +:+ d)) = Some (String a c, d)).
    cbn [rsplit_colon]. by rewrite IH.
Qed.

Lemma Z_of_string_of_Z n : Z_of_string (string_of_Z n) = Ok n.
Proof.
  unfold Z_of_string, string_of_Z.
  rewrite NilZero.isi.
  - by rewrite DecimalZ.of_to.
  - destruct n; simpl; try discriminate.
    intros [= H]. by apply (Unsigned.to_uint_nonnil p).
  - destruct n; simpl; try discriminate.
    intros [= H]. by apply (Unsigned.to_uint_nonnil p).
Qed.

Lemma split_get_element_id c n :
  split_element_id (get_element_id c n) = Ok (c, n).
Proof.
  unfold split_element_id, get_element_id.
  rewrite rsplit_colon_app by apply rsplit_colon_string_of_Z.
  by rewrite Z_of_string_of_Z.
Qed.

Lemma get_element_id_inj c c' n n' :
  get_element_id c n = get_element_id c' n' -> c = c' ∧ n = n'.
Proof.
  intros Heq. pose proof (split_get_element_id c n) as H.
  rewrite Heq, split_get_element_id in H. by simplify_eq.
Qed.

Lemma get_element_id_not_sentinel c n :
  get_element_id c n ≠ "_config:change_id".
Proof.
  intros Heq. pose proof (split_get_element_id c n) as H.
  rewrite Heq in H. discriminate H.
Qed.
End element_ids.

(** ** Running computations *)
Section monad_laws.
Context {S A B : Type}.
Implicit Types (s : S) (k : A -> M S B).

Lemma bind_unfold (m : M S A) k s :
  (m ≫= k) s =
  match m s with
  | (Ok a, s') => k a s'
  | (Raise e, s') => (Raise e, s')
  | (Diverge, s') => (Diverge, s')
  end.
Proof. reflexivity. Qed.

Lemma bind_mret (a : A) k s : (mret a ≫= k) s = k a s.
Proof. reflexivity. Qed.

Lemma bind_raise e k s : (raise e ≫= k) s = (Raise e, s).
Proof. reflexivity. Qed.

Lemma bind_lift (o : outcome A) k s :
  (lift o ≫= k) s =
  match o with
  | Ok a => k a s
  | Raise e => (Raise e, s)
  | Diverge => (Diverge, s)
  end.
Proof. by destruct o. Qed.

Lemma bind_Ok (m : M S A) k s a s' : m s = (Ok a, s') -> (m ≫= k) s = k a s'.
Proof. intros H. by rewrite bind_unfold, H. Qed.

Lemma bind_Raise (m : M S A) k s e s' :
  m s = (Raise e, s') -> (m ≫= k) s = (Raise e, s').
Proof. intros H. by rewrite bind_unfold, H. Qed.
End monad_laws.

Lemma bind_assoc {S A B C} (m : M S A) (f : A -> M S B) (g : B -> M S C)
    (s : S) :
  ((m ≫= f) ≫= g) s = (m ≫= fun a => f a ≫= g) s.
Proof.
  rewrite !bind_unfold. destruct (m s) as [[a| |] s1]; try done.
Qed.

Section self_laws.
Context {A B : Type}.
Implicit Types (self : ElementCache) (k : A -> M ElementCache B).

Lemma bind_attr (g : ElementCache -> A) k self :
  (attr g ≫= k) self = k (g self) self.
Proof. reflexivity. Qed.

Lemma bind_provider_get (g : Provider.t -> A) k self :
  (provider_get g ≫= k) self = k (g (cache_provider self)) self.
Proof. reflexivity. Qed.

Lemma bind_provider_call (g : Provider.t -> A * Provider.t) k self :
  (provider_call g ≫= k) self =
  k (g (cache_provider self)).1
    (with_provider (fun _ => (g (cache_provider self)).2) self).
Proof. unfold provider_call. rewrite bind_unfold. by destruct (g _). Qed.

Lemma bind_provider_try (g : Provider.t -> outcome A) k self :
  (provider_try g ≫= k) self =
  match g (cache_provider self) with
  | Ok a => k a self
  | Raise e => (Raise e, self)
  | Diverge => (Diverge, self)
  end.
Proof. unfold provider_try. rewrite bind_unfold. by destruct (g _). Qed.
End self_laws.

Lemma bind_provider_do {B} (f : Provider.t -> Provider.t)
    (k : unit -> M ElementCache B) self :
  (provider_do f ≫= k) self = k tt (with_provider f self).
Proof. reflexivity. Qed.

Lemma bind_set_ensured {B} b (k : unit -> M ElementCache B) self :
  (set_ensured b ≫= k) self = k tt (snd (set_ensured b self)).
Proof. reflexivity. Qed.

Create Rewrite HintDb monad.
#[local] Hint Rewrite @bind_assoc @bind_mret @bind_raise @bind_attr
  @bind_provider_get @bind_provider_call @bind_provider_try
  @bind_provider_do : monad.

Ltac mstep := autorewrite with monad; cbn beta iota.

(** ** Writes *)

Lemma change_elements_counter elements self :
  ensured self = true ->
  ∃ self',
    change_elements elements self = (Ok (next_change_id self), self') ∧
    ensured self' = true ∧
    start_time self' = start_time self ∧
    Provider.counter (cache_provider self') = Some (next_change_id self).
Proof.
  intros H. unfold change_elements, next_change_id.
  mstep. rewrite H. simpl negb. cbv iota.
  destruct (partition_elements elements) as [ch de].
  destruct (bool_decide (ch ≠ [])), (bool_decide (de ≠ [])); mstep.
  all: unfold provider_call; simpl.
  all: eexists; split; [reflexivity|]; simpl; auto.
Qed.

Lemma change_elements_seq_spec batches : ∀ self,
  ensured self = true ->
  ∃ self',
    change_elements_seq batches self =
      (Ok (map (fun i => next_change_id self + Z.of_nat i)
             (seq 0 (length batches))), self').
Proof.
  induction batches as [|elements batches IH]; intros self Hens.
  - by eexists.
  - destruct (change_elements_counter elements self Hens)
      as (self1 & Hrun & Hens1 & Hst & Hctr).
    destruct (IH self1 Hens1) as (self2 & Hrest).
    exists self2. cbn [change_elements_seq].
    rewrite (bind_Ok _ _ _ _ _ Hrun), (bind_Ok _ _ _ _ _ Hrest). mstep.
    unfold mret, M_ret. do 2 f_equal. cbn [length seq map].
    f_equal; [lia|].
    rewrite <- seq_shift, map_map. apply map_ext. intros i.
    unfold next_change_id at 1. rewrite Hctr. lia.
Qed.

(** ** Loops *)
Section loops.
Context {X Acc : Type}.
Implicit Types (xs : list X) (body : X -> Acc -> outcome Acc) (acc : Acc).

Lemma for_each_pure_app xs ys body acc :
  for_each_pure (xs ++ ys) body acc =
  for_each_pure xs body acc ≫= for_each_pure ys body.
Proof.
  revert acc. induction xs as [|x xs IH]; intros acc; simpl; [done|].
  destruct (body x acc); simpl; auto.
Qed.

(** a loop whose rounds all return, returns *)
Lemma for_each_pure_Ok (P : Acc -> Prop) xs body acc :
  P acc ->
  (∀ x a, x ∈ xs -> P a -> ∃ a', body x a = Ok a' ∧ P a') ->
  ∃ r, for_each_pure xs body acc = Ok r ∧ P r.
Proof.
  revert acc. induction xs as [|x xs IH]; intros acc Hacc Hbody; simpl.
  - by exists acc.
  - destruct (Hbody x acc) as (a' & -> & Ha'); [left | done |]. simpl.
    apply IH; [done|]. intros y a Hy. apply Hbody. by right.
Qed.

(** a loop raises what one of its rounds raises *)
Lemma for_each_pure_Raise xs body acc e :
  for_each_pure xs body acc = Raise e ->
  ∃ x a, x ∈ xs ∧ body x a = Raise e.
Proof.
  revert acc. induction xs as [|x xs IH]; intros acc; simpl; [done|].
  destruct (body x acc) as [a'| e' |] eqn:Hb; simpl.
  - intros H. destruct (IH _ H) as (y & a & Hy & Hr).
    exists y, a. split; [by right | done].
  - intros [= ->]. exists x, acc. split; [left | done].
  - done.
Qed.

(** a loop over code that terminates, terminates *)
Lemma for_each_pure_Diverge xs body acc :
  for_each_pure xs body acc = Diverge ->
  ∃ x a, x ∈ xs ∧ body x a = Diverge.
Proof.
  revert acc. induction xs as [|x xs IH]; intros acc; simpl; [done|].
  destruct (body x acc) as [a'| e' |] eqn:Hb; simpl.
  - intros H. destruct (IH _ H) as (y & a & Hy & Hr).
    exists y, a. split; [by right | done].
  - done.
  - intros _. exists x, acc. split; [left | done].
Qed.

(** an invariant of the rounds holds of the result *)
Lemma for_each_pure_inv (P : Acc -> Prop) xs body acc r :
  P acc ->
  (∀ x a a', x ∈ xs -> P a -> body x a = Ok a' -> P a') ->
  for_each_pure xs body acc = Ok r -> P r.
Proof.
  revert acc. induction xs as [|x xs IH]; intros acc Hacc Hbody; simpl.
  - by intros [= <-].
  - destruct (body x acc) as [a'| |] eqn:Hb; simpl; try done.
    apply IH.
    + eapply Hbody; [left | done | done].
    + intros y a a'' Hy. apply Hbody. by right.
Qed.
End loops.

Lemma split_element_id_Raise element_id e :
  split_element_id element_id = Raise e -> ∃ msg, e = ValueError msg.
Proof.
  unfold split_element_id, Z_of_string.
  destruct (rsplit_colon element_id) as [[c i]|]; [|intros [= <-]; eauto].
  destruct (NilZero.int_of_string i); simpl; [done|]. intros [= <-]; eauto.
Qed.

Lemma split_element_id_not_Diverge element_id :
  split_element_id element_id ≠ Diverge.
Proof.
  unfold split_element_id, Z_of_string.
  destruct (rsplit_colon element_id) as [[c i]|]; [|done].
  by destruct (NilZero.int_of_string i).
Qed.
(** ** Full-data reads *)

Lemma get_lowest_change_id_unfold self :
  get_lowest_change_id self =
  (match Provider.get_lowest_change_id (cache_provider self) with
   | Some n =>
       if n =? 0 then Raise (RuntimeError "There is no known change_id.")
       else Ok n
   | None => Raise (RuntimeError "There is no known change_id.")
   end, self).
Proof.
  unfold get_lowest_change_id. mstep.
  destruct (Provider.get_lowest_change_id _) as [n|]; [|done].
  by destruct (n =? 0).
Qed.

Lemma get_lowest_change_id_Ok self lowest self' :
  get_lowest_change_id self = (Ok lowest, self') ->
  self' = self ∧ lowest ≠ 0 ∧
  Provider.get_lowest_change_id (cache_provider self) = Some lowest.
Proof.
  rewrite get_lowest_change_id_unfold.
  destruct (Provider.get_lowest_change_id _) as [n|]; [|intros [=]].
  destruct (n =? 0) eqn:Hn; intros [= <- <-].
  apply Z.eqb_neq in Hn. done.
Qed.

Lemma get_all_full_data_ordered_state self r self' :
  get_all_full_data_ordered self = (r, self') -> self' = self.
Proof.
  unfold get_all_full_data_ordered. mstep. unfold lift. by intros [= _ <-].
Qed.

Lemma get_all_full_data_state self r self' :
  get_all_full_data self = (r, self') -> self' = self.
Proof.
  unfold get_all_full_data. rewrite bind_unfold.
  destruct (get_all_full_data_ordered self) as [o s] eqn:Ho.
  apply get_all_full_data_ordered_state in Ho as ->.
  destruct o; intros [= _ <-]; done.
Qed.

Lemma get_all_full_data_ordered_well_formed self :
  Forall well_formed_id
    (PyDict.keys (Provider.store None (cache_provider self))) ->
  ∃ all_data, get_all_full_data_ordered self = (Ok all_data, self).
Proof.
  intros Hwf. unfold get_all_full_data_ordered.
  mstep. unfold Provider.get_all_data, lift.
  match goal with |- context [for_each_pure ?xs ?body ?acc] =>
    destruct (for_each_pure_Ok (fun _ => True) xs body acc) as (r & -> & _)
  end; [done | | by eexists].
  intros [element_id data] out Hin _.
  rewrite Forall_forall in Hwf.
  assert (well_formed_id element_id) as Hid.
  { apply Hwf. unfold PyDict.keys. apply list_elem_of_fmap.
    by exists (element_id, data). }
  unfold well_formed_id in Hid.
  destruct (split_element_id element_id) as [[c n]| |]; [|done..].
  simpl. eauto.
Qed.

Lemma get_all_full_data_well_formed self :
  Forall well_formed_id
    (PyDict.keys (Provider.store None (cache_provider self))) ->
  ∃ all_data, get_all_full_data self = (Ok all_data, self).
Proof.
  intros Hwf.
  destruct (get_all_full_data_ordered_well_formed self Hwf) as [d Hd].
  unfold get_all_full_data. rewrite (bind_Ok _ _ _ _ _ Hd). by eexists.
Qed.

(** C6 (initialization order).  On a cache for which [ensure_cache] was not
    called, [change_elements] raises the initialization-order error and
    leaves the whole state, provider included, as it was: no store is
    written, no entry is recorded in the ChangeIndex and the counter is not
    advanced. *)
Theorem change_elements_before_ensure_cache elements self :
  ensured self = false ->
  change_elements elements self =
    (Raise (RuntimeError
       "Call element_cache.ensure_cache before changing elements."), self).
Proof.
  intros H. unfold change_elements. mstep. by rewrite H.
Qed.

Lemma change_elements_before_ensure_cache_witness :
  ensured (fresh_cache true) = false
  ∧ change_elements [("motion:1", motion "B")] (fresh_cache true) =
    (Raise (RuntimeError
       "Call element_cache.ensure_cache before changing elements."),
     fresh_cache true).
Proof.
  split; [reflexivity|].
  apply change_elements_before_ensure_cache. reflexivity.
Defined.

(** C7 (initial sync).  For [change_id = 0], [get_full_data] is
    [get_all_full_data] paired with an empty deletion list.  The low-water
    mark is not read: the call returns the snapshot as soon as the keys of
    the full store are element ids, also on an empty ChangeIndex, where every
    other [change_id] fails for want of a recorded ChangeId. *)
Theorem get_full_data_initial_sync max_change_id self :
  get_full_data 0 max_change_id self =
    (all_data ← get_all_full_data; mret (all_data, [])) self
  ∧ (Forall well_formed_id
       (PyDict.keys (Provider.store None (cache_provider self))) ->
     ∃ all_data,
       get_all_full_data self = (Ok all_data, self) ∧
       get_full_data 0 max_change_id self = (Ok (all_data, []), self))
  ∧ (Provider.change_index (cache_provider self) = [] ->
     ∀ change_id, change_id ≠ 0 ->
       get_full_data change_id max_change_id self =
         (Raise (RuntimeError "There is no known change_id."), self)).
Proof.
  split; [reflexivity|]. split.
  - intros Hwf. destruct (get_all_full_data_well_formed self Hwf) as [d Hd].
    exists d. split; [done|]. unfold get_full_data. simpl.
    by rewrite (bind_Ok _ _ _ _ _ Hd).
  - intros Hidx change_id Hne. unfold get_full_data.
    apply Z.eqb_neq in Hne. rewrite Hne.
    rewrite bind_unfold, get_lowest_change_id_unfold.
    unfold Provider.get_lowest_change_id. by rewrite Hidx.
Qed.

Lemma get_full_data_initial_sync_witness :
  Forall well_formed_id
    (PyDict.keys (Provider.store None (cache_provider (built_cache false))))
  ∧ Provider.change_index (cache_provider (built_cache false)) = []
  ∧ (∃ all_data,
     get_all_full_data (built_cache false) = (Ok all_data, built_cache false) ∧
     get_full_data 0 (-1) (built_cache false) =
       (Ok (all_data, []), built_cache false))
  ∧ get_full_data 7 (-1) (built_cache false) =
      (Raise (RuntimeError "There is no known change_id."), built_cache false).
Proof.
  destruct (get_full_data_initial_sync (-1) (built_cache false))
    as (_ & Hsnapshot & Hother).
  assert (Hwf : Forall well_formed_id
    (PyDict.keys (Provider.store None (cache_provider (built_cache false))))).
  { vm_compute. repeat constructor. }
  split; [exact Hwf|]. split; [reflexivity|]. split.
  - apply Hsnapshot, Hwf.
  - apply Hother; [reflexivity | lia].
Defined.

Lemma get_data_since_Raise change_id user_id max_change_id p e :
  Provider.get_data_since change_id user_id max_change_id p = Raise e ->
  ∃ msg, e = ValueError msg.
Proof.
  unfold Provider.get_data_since. intros H.
  apply for_each_pure_Raise in H as (element_id & [changed deleted] & _ & H).
  destruct (PyDict.get element_id _); [|done].
  destruct (split_element_id element_id) as [[c n]| e' |] eqn:Hs;
    simpl in H; try done.
  injection H as ->. by eapply split_element_id_Raise.
Qed.

(** [get_data_since] returns when the members of the ChangeIndex that are in
    the store are element ids *)
Lemma get_data_since_Ok change_id user_id max_change_id p :
  (∀ m v, m ∈ map snd (Provider.change_index p) ->
          PyDict.get m (Provider.store user_id p) = Some v ->
          well_formed_id m) ->
  ∃ r, Provider.get_data_since change_id user_id max_change_id p = Ok r.
Proof.
  intros Hwf. unfold Provider.get_data_since.
  match goal with |- context [for_each_pure ?xs ?body ?acc] =>
    destruct (for_each_pure_Ok (fun _ => True) xs body acc) as (r & -> & _)
  end; [done | | by eexists].
  intros m [ch de] Hm _.
  apply list_elem_of_filter in Hm as [_ Hm].
  apply (proj1 (elem_of_remove_dups _ _)) in Hm.
  destruct (PyDict.get m _) as [v|] eqn:Hget; [|by eexists].
  specialize (Hwf m v Hm Hget). unfold well_formed_id in Hwf.
  destruct (split_element_id m) as [[c i]| |]; [|done..].
  simpl. by eexists.
Qed.

(** C2 (low-water mark).  Let [lowest] be what [get_lowest_change_id]
    returns.  For every [change_id] with [0 < change_id < lowest],
    [get_full_data] raises the stale-read error, whose message tells the
    caller to rerun with [change_id=0], and leaves the state as it was.  For
    [change_id = lowest] it runs [get_data_since] and returns its delta,
    decoded; it then raises neither the stale-read error nor any other
    [RuntimeError], and it returns as soon as the keys of the full store are
    element ids. *)
Theorem get_full_data_low_water_mark change_id max_change_id lowest self :
  get_lowest_change_id self = (Ok lowest, self) ->
  (0 < change_id < lowest ->
   get_full_data change_id max_change_id self =
     (Raise (RuntimeError (stale_read_message change_id lowest)), self))
  ∧ get_full_data lowest max_change_id self =
      ('(raw_changed_elements, deleted_elements) ←
         provider_try (Provider.get_data_since lowest None max_change_id);
       mret (decode_changed raw_changed_elements, deleted_elements)) self
  ∧ (∀ msg self',
       get_full_data lowest max_change_id self
       ≠ (Raise (RuntimeError msg), self'))
  ∧ (Forall well_formed_id
       (PyDict.keys (Provider.store None (cache_provider self))) ->
     ∃ raw_changed_elements deleted_elements,
       Provider.get_data_since lowest None max_change_id (cache_provider self)
       = Ok (raw_changed_elements, deleted_elements) ∧
       get_full_data lowest max_change_id self
       = (Ok (decode_changed raw_changed_elements, deleted_elements), self)).
Proof.
  intros Hlow.
  destruct (get_lowest_change_id_Ok _ _ _ Hlow) as (_ & Hne & _).
  assert (Heq : get_full_data lowest max_change_id self =
      ('(raw_changed_elements, deleted_elements) ←
         provider_try (Provider.get_data_since lowest None max_change_id);
       mret (decode_changed raw_changed_elements, deleted_elements)) self).
  { unfold get_full_data. apply Z.eqb_neq in Hne. rewrite Hne.
    rewrite (bind_Ok _ _ _ _ _ Hlow). by rewrite Z.ltb_irrefl. }
  split; [|split; [exact Heq|split]].
  - intros [Hpos Hlt]. unfold get_full_data.
    replace (change_id =? 0) with false by (symmetry; apply Z.eqb_neq; lia).
    rewrite (bind_Ok _ _ _ _ _ Hlow).
    by replace (change_id <? lowest) with true by (symmetry; apply Z.ltb_lt; lia).
  - intros msg self'. rewrite Heq. mstep.
    destruct (Provider.get_data_since _ _ _ _) as [[raw deleted]| e |] eqn:Hd;
      try done.
    apply get_data_since_Raise in Hd as [msg' ->]. done.
  - intros Hwf.
    destruct (get_data_since_Ok lowest None max_change_id (cache_provider self))
      as [[raw deleted] Hd].
    { intros m v _ Hget. rewrite Forall_forall in Hwf.
      by apply Hwf, (get_Some_keys m v). }
    exists raw, deleted. split; [done|]. rewrite Heq. mstep. by rewrite Hd.
Qed.

Lemma get_full_data_low_water_mark_witness :
  get_lowest_change_id (changed_cache false) = (Ok 1001, changed_cache false)
  ∧ 0 < 5 < 1001
  ∧ Forall well_formed_id
      (PyDict.keys (Provider.store None (cache_provider (changed_cache false))))
  ∧ get_full_data 5 (-1) (changed_cache false) =
      (Raise (RuntimeError (stale_read_message 5 1001)), changed_cache false)
  ∧ get_full_data 1001 (-1) (changed_cache false) =
      (Ok ([("motion", [motion "B"])], []), changed_cache false).
Proof.
  assert (Hlow : get_lowest_change_id (changed_cache false)
                 = (Ok 1001, changed_cache false)) by (vm_compute; reflexivity).
  assert (Hwf : Forall well_formed_id
      (PyDict.keys (Provider.store None (cache_provider (changed_cache false)))))
    by compute_done.
  destruct (get_full_data_low_water_mark 5 (-1) 1001 (changed_cache false) Hlow)
    as (Hstale & _ & _ & Hdelta).
  split; [exact Hlow|]. split; [lia|]. split; [exact Hwf|]. split.
  - apply Hstale. lia.
  - destruct (Hdelta Hwf) as (raw & deleted & Hdata & ->).
    revert Hdata. vm_compute. by intros [= <- <-].
Defined.

(** ** Restricted-data refresh *)

(** C9 (disabled restricted cache).  With restricted-data caching disabled,
    [update_restricted_data] returns at once and changes nothing, whether or
    not [ensure_cache] was called: the test of the flag comes first.  The
    initialization-order error is raised only with caching enabled. *)
Theorem update_restricted_data_disabled fuel user_id self :
  (use_restricted_data_cache self = false ->
   update_restricted_data fuel user_id self = (Ok tt, self))
  ∧ (use_restricted_data_cache self = true -> ensured self = false ->
     update_restricted_data fuel user_id self =
       (Raise (RuntimeError
          "Call element_cache.ensure_cache before updating restricted data."),
        self)).
Proof.
  split.
  - intros H. unfold update_restricted_data. mstep. by rewrite H.
  - intros H He. unfold update_restricted_data. mstep. rewrite H. simpl.
    mstep. by rewrite He.
Qed.

Lemma update_restricted_data_disabled_witness :
  (use_restricted_data_cache (fresh_cache false) = false
   ∧ ensured (fresh_cache false) = false
   ∧ update_restricted_data 0 7 (fresh_cache false) = (Ok tt, fresh_cache false))
  ∧ (use_restricted_data_cache (fresh_cache true) = true
     ∧ ensured (fresh_cache true) = false
     ∧ update_restricted_data 0 7 (fresh_cache true) =
         (Raise (RuntimeError
            "Call element_cache.ensure_cache before updating restricted data."),
          fresh_cache true)).
Proof.
  split.
  - split; [reflexivity|]. split; [reflexivity|].
    apply (update_restricted_data_disabled 0 7 (fresh_cache false)). reflexivity.
  - split; [reflexivity|]. split; [reflexivity|].
    apply (update_restricted_data_disabled 0 7 (fresh_cache true)); reflexivity.
Defined.

(** ** What a computation may change *)

Lemma set_stores_id self :
  set_stores (Provider.stores (cache_provider self)) self = self.
Proof. by destruct self as [? [] ? ? ?]. Qed.

Lemma set_stores_set_stores st st' self :
  set_stores st' (set_stores st self) = set_stores st' self.
Proof. reflexivity. Qed.

Lemma with_stores_set_stores f self :
  with_provider (Provider.with_stores f) self =
  set_stores (f (Provider.stores (cache_provider self))) self.
Proof. reflexivity. Qed.

Lemma stores_only_refl self : stores_only self self.
Proof. eexists. symmetry. apply set_stores_id. Qed.

Lemma stores_only_trans s1 s2 s3 :
  stores_only s1 s2 -> stores_only s2 s3 -> stores_only s1 s3.
Proof. intros [st ->] [st' ->]. by exists st'. Qed.

Lemma stores_only_with_stores f self :
  stores_only self (with_provider (Provider.with_stores f) self).
Proof. eexists. apply with_stores_set_stores. Qed.

Lemma stores_only_locks s1 s2 :
  stores_only s1 s2 ->
  Provider.locks (cache_provider s2) = Provider.locks (cache_provider s1).
Proof. by intros [st ->]. Qed.

Lemma stores_only_attrs s1 s2 :
  stores_only s1 s2 ->
  use_restricted_data_cache s2 = use_restricted_data_cache s1 ∧
  ensured s2 = ensured s1 ∧ start_time s2 = start_time s1 ∧
  cachable_provider s2 = cachable_provider s1 ∧
  Provider.change_index (cache_provider s2)
  = Provider.change_index (cache_provider s1) ∧
  Provider.counter (cache_provider s2) = Provider.counter (cache_provider s1).
Proof. by intros [st ->]. Qed.

Lemma get_current_change_id_unfold self :
  get_current_change_id self =
  (Ok match Provider.get_current_change_id (cache_provider self) with
      | [] => start_time self
      | (_, score) :: _ => score
      end, self).
Proof.
  unfold get_current_change_id. mstep.
  by destruct (Provider.get_current_change_id _) as [|[? ?] ?].
Qed.

Lemma get_full_data_state change_id max_change_id self r self' :
  get_full_data change_id max_change_id self = (r, self') -> self' = self.
Proof.
  unfold get_full_data. destruct (change_id =? 0).
  - rewrite bind_unfold. destruct (get_all_full_data self) as [o s] eqn:Ho.
    apply get_all_full_data_state in Ho as ->.
    destruct o; intros [= _ <-]; done.
  - rewrite bind_unfold, get_lowest_change_id_unfold.
    destruct (Provider.get_lowest_change_id _) as [n|]; [|by intros [= _ <-]].
    destruct (n =? 0); [by intros [= _ <-]|].
    destruct (change_id <? n); [by intros [= _ <-]|].
    mstep. destruct (Provider.get_data_since _ _ _ _) as [[? ?]| |];
      by intros [= _ <-].
Qed.

Lemma full_resync_stores_only user_id self r self' :
  full_resync user_id self = (r, self') -> stores_only self self'.
Proof.
  unfold full_resync. rewrite bind_unfold.
  destruct (get_all_full_data self) as [o s] eqn:Ho.
  apply get_all_full_data_state in Ho as ->.
  destruct o; try (intros [= _ <-]; apply stores_only_refl).
  mstep. intros [= _ <-]. apply stores_only_with_stores.
Qed.

Lemma fetch_full_data_stores_only user_id user_change_id self r self' :
  fetch_full_data user_id user_change_id self = (r, self') ->
  stores_only self self'.
Proof.
  unfold fetch_full_data, except_RuntimeError.
  destruct (get_full_data _ _ self) as [o s] eqn:Hg.
  apply get_full_data_state in Hg as ->.
  destruct o as [a|[]|]; try (intros [= _ <-]; apply stores_only_refl).
  apply full_resync_stores_only.
Qed.

Lemma refresh_restricted_data_stores_only user_id user_change_id change_id
    self r self' :
  refresh_restricted_data user_id user_change_id change_id self = (r, self') ->
  stores_only self self'.
Proof.
  unfold refresh_restricted_data. rewrite bind_unfold.
  destruct (fetch_full_data user_id user_change_id self) as [o s1] eqn:Hf.
  apply fetch_full_data_stores_only in Hf.
  destruct o as [[full_data_elements deleted_elements]| |];
    try (by intros [= _ <-]).
  mstep. rewrite bind_lift.
  destruct (restrict_full_data _ _ _ _) as [[mapping deleted]| |];
    try (by intros [= _ <-]).
  mstep. destruct (bool_decide _); mstep; intros [= _ <-].
  - eapply stores_only_trans; [exact Hf|].
    eapply stores_only_trans; apply stores_only_with_stores.
  - eapply stores_only_trans; [exact Hf|]. apply stores_only_with_stores.
Qed.

(** ** Locks *)

Lemma wait_for_lock_held fuel lock_name self :
  lock_name ∈ Provider.locks (cache_provider self) ->
  wait_for_lock fuel lock_name self = (Diverge, self).
Proof.
  intros Hheld. induction fuel as [|fuel IH]; [done|].
  cbn [wait_for_lock]. mstep. unfold Provider.get_lock.
  by rewrite bool_decide_eq_true_2.
Qed.

Lemma set_lock_free lock_name p :
  lock_name ∉ Provider.locks p ->
  Provider.set_lock lock_name p =
  (true, Provider.with_locks (fun ls => {[lock_name]} ∪ ls) p).
Proof. intros H. unfold Provider.set_lock. by rewrite decide_False. Qed.

Lemma set_lock_held lock_name p :
  lock_name ∈ Provider.locks p -> Provider.set_lock lock_name p = (false, p).
Proof. intros H. unfold Provider.set_lock. by rewrite decide_True. Qed.

Lemma refresh_if_stale_stores_only user_id self r self' :
  refresh_if_stale user_id self = (r, self') -> stores_only self self'.
Proof.
  unfold refresh_if_stale. mstep.
  assert (Hrest : ∀ user_change_id,
    (change_id ← get_current_change_id;
     if user_change_id <? change_id
     then refresh_restricted_data user_id user_change_id change_id
     else mret tt) self = (r, self') -> stores_only self self').
  { intros user_change_id.
    rewrite bind_unfold, get_current_change_id_unfold.
    destruct (_ <? _).
    - apply refresh_restricted_data_stores_only.
    - intros [= _ <-]. apply stores_only_refl. }
  destruct (Provider.get_change_id_user _ _) as [v|].
  - rewrite bind_lift. destruct (int_of_serialized v);
      [apply Hrest | by intros [= _ <-]; apply stores_only_refl..].
  - mstep. apply Hrest.
Qed.

(** with caching enabled, on an ensured cache whose refresh lock is free,
    [update_restricted_data] takes the lock, runs the critical section and
    releases the lock only if the critical section returned *)
Lemma update_restricted_data_acquired fuel user_id self :
  use_restricted_data_cache self = true -> ensured self = true ->
  lock_name_of user_id ∉ Provider.locks (cache_provider self) ->
  update_restricted_data fuel user_id self =
  (refresh_if_stale user_id;;
   provider_do (Provider.del_lock (lock_name_of user_id)))
    (holding (lock_name_of user_id) self).
Proof.
  intros Huse Hens Hfree. unfold update_restricted_data. mstep.
  rewrite Huse. simpl. mstep. rewrite Hens. simpl. mstep.
  by rewrite set_lock_free.
Qed.

Lemma update_restricted_data_waits fuel user_id self :
  use_restricted_data_cache self = true -> ensured self = true ->
  lock_name_of user_id ∈ Provider.locks (cache_provider self) ->
  update_restricted_data fuel user_id self = (Diverge, self).
Proof.
  intros Huse Hens Hheld. unfold update_restricted_data. mstep.
  rewrite Huse. simpl. mstep. rewrite Hens. simpl. mstep.
  rewrite set_lock_held by done. simpl.
  replace (with_provider _ self) with self by (by destruct self as [? [] ? ? ?]).
  by apply wait_for_lock_held.
Qed.

Lemma del_lock_free lock_name self :
  lock_name ∉ Provider.locks
    (cache_provider (with_provider (Provider.del_lock lock_name) self)).
Proof.
  simpl. intros [_ Hne]%elem_of_difference. by apply Hne, elem_of_singleton.
Qed.

Lemma build_full_cache_locks self r self' :
  build_full_cache self = (r, self') ->
  Provider.locks (cache_provider self')
  = Provider.locks (cache_provider self).
Proof.
  unfold build_full_cache. mstep. rewrite bind_lift.
  destruct (build_mapping _); by intros [= _ <-].
Qed.

(** C10 (refresh lock and exceptions).  With caching enabled, on an ensured
    cache whose per-user refresh lock is free: if [update_restricted_data]
    raises, it does so inside the critical section, the lock is still held
    in the state it leaves, and every later [update_restricted_data] for
    that user polls the lock without end, whatever fuel it is given; the
    lock is released only when the call returns.  [ensure_cache] in contrast
    leaves its build lock free whenever it returns or raises. *)
Theorem refresh_lock_not_released_on_error fuel user_id reset self r self' :
  (use_restricted_data_cache self = true -> ensured self = true ->
   lock_name_of user_id ∉ Provider.locks (cache_provider self) ->
   update_restricted_data fuel user_id self = (r, self') ->
   match r with
   | Ok _ => lock_name_of user_id ∉ Provider.locks (cache_provider self')
   | _ =>
       lock_name_of user_id ∈ Provider.locks (cache_provider self') ∧
       ∀ fuel', update_restricted_data fuel' user_id self' = (Diverge, self')
   end)
  ∧ ("ensure_cache" ∉ Provider.locks (cache_provider self) ->
     ensure_cache fuel reset self = (r, self') -> r ≠ Diverge ->
     "ensure_cache" ∉ Provider.locks (cache_provider self')).
Proof.
  split.
  - intros Huse Hens Hfree.
    rewrite update_restricted_data_acquired by done.
    rewrite bind_unfold.
    destruct (refresh_if_stale user_id _) as [o s1] eqn:Hcrit.
    apply refresh_if_stale_stores_only in Hcrit as Hs1.
    pose proof (stores_only_locks _ _ Hs1) as Hlocks.
    destruct (stores_only_attrs _ _ Hs1) as (Huse1 & Hens1 & _).
    simpl in Hlocks, Huse1, Hens1.
    assert (Hheld : lock_name_of user_id ∈ Provider.locks (cache_provider s1)).
    { rewrite Hlocks. apply elem_of_union. left. by apply elem_of_singleton. }
    destruct o as [[]| e |].
    + intros [= <- <-]. apply del_lock_free.
    + intros [= <- <-]. split; [done|]. intros fuel'.
      apply update_restricted_data_waits; congruence.
    + intros [= <- <-]. split; [done|]. intros fuel'.
      apply update_restricted_data_waits; congruence.
  - intros Hfree. unfold ensure_cache. mstep.
    destruct (reset || negb _).
    + cbv zeta. mstep. rewrite set_lock_free by done. simpl.
      rewrite bind_unfold. unfold try_finally.
      destruct (build_full_cache _) as [o s1] eqn:Hbuild.
      apply build_full_cache_locks in Hbuild. simpl in Hbuild.
      destruct o as [[]| e |]; unfold provider_do.
      * intros [= <- <-] _. apply del_lock_free.
      * intros [= <- <-] _. apply del_lock_free.
      * by intros [= <- <-].
    + mstep. by intros [= <- <-].
Qed.

Lemma refresh_lock_not_released_on_error_witness :
  (use_restricted_data_cache failing_cache = true
   ∧ ensured failing_cache = true
   ∧ (lock_name_of 7 ∉ Provider.locks (cache_provider failing_cache))
   ∧ update_restricted_data 0 7 failing_cache =
       (Raise (KeyError "permission"),
        state_after (update_restricted_data 0 7) failing_cache)
   ∧ (lock_name_of 7
       ∈ Provider.locks
           (cache_provider
              (state_after (update_restricted_data 0 7) failing_cache)))
   ∧ ∀ fuel',
       update_restricted_data fuel' 7
         (state_after (update_restricted_data 0 7) failing_cache) =
       (Diverge, state_after (update_restricted_data 0 7) failing_cache))
  ∧ (("ensure_cache"
       ∉ Provider.locks
           (cache_provider (init true Provider.empty [motions broken_filter] 1000)))
     ∧ ("ensure_cache" ∉ Provider.locks (cache_provider failing_cache))).
Proof.
  assert (Hfree : lock_name_of 7 ∉ Provider.locks (cache_provider failing_cache))
    by compute_done.
  assert (Hrun : update_restricted_data 0 7 failing_cache =
       (Raise (KeyError "permission"),
        state_after (update_restricted_data 0 7) failing_cache))
    by (vm_compute; reflexivity).
  assert (Hfree0 : "ensure_cache"
       ∉ Provider.locks
           (cache_provider (init true Provider.empty [motions broken_filter] 1000)))
    by compute_done.
  split.
  - split; [reflexivity|]. split; [reflexivity|]. split; [exact Hfree|].
    split; [exact Hrun|].
    exact (proj1 (refresh_lock_not_released_on_error 0 7 false failing_cache _ _)
             eq_refl eq_refl Hfree Hrun).
  - split; [exact Hfree0|].
    refine (proj2 (refresh_lock_not_released_on_error 0 7 false
               (init true Provider.empty [motions broken_filter] 1000)
               (Ok tt) failing_cache) Hfree0 _ _); [|done].
    vm_compute. reflexivity.
Defined.
(** ** Partition of a batch *)

(** [change_elements] sorts the entries of a batch by the truth value of
    their bodies, keeping the order of the batch *)
Lemma partition_elements_truthy elements :
  partition_elements elements =
  (map (fun kv => (kv.1, json_dumps kv.2))
     (filter (fun kv => truthy kv.2 = true) elements),
   map fst (filter (fun kv => truthy kv.2 = false) elements)).
Proof.
  unfold partition_elements.
  assert (Hgen : ∀ changed deleted,
    fold_left (fun '(changed_elements, deleted_elements) '(element_id, data) =>
        if truthy data
        then ((changed_elements ++ [(element_id, json_dumps data)])%list,
              deleted_elements)
        else (changed_elements, (deleted_elements ++ [element_id])%list))
      elements (changed, deleted) =
    ((changed ++ map (fun kv => (kv.1, json_dumps kv.2))
        (filter (fun kv => truthy kv.2 = true) elements))%list,
     (deleted ++ map fst
        (filter (fun kv => truthy kv.2 = false) elements))%list)).
  { induction elements as [|[element_id data] elements IH];
      intros changed deleted; simpl.
    - by rewrite !app_nil_r.
    - rewrite !filter_cons. simpl.
      destruct (truthy data) eqn:Ht; rewrite IH.
      + rewrite decide_True, decide_False by done. simpl.
        by rewrite <- app_assoc.
      + rewrite decide_False, decide_True by done. simpl.
        by rewrite <- app_assoc. }
  apply Hgen.
Qed.

(** C4 at an empty document.  A batch that maps ["motion:1"] to the empty
    document [{}] is sorted among the deletions: the body is not null, yet
    [change_elements] removes the stored element instead of writing the
    body. *)
Theorem change_elements_empty_document :
  partition_elements [("motion:1", JObj [])] = ([], ["motion:1"])
  ∧ PyDict.get "motion:1" (Provider.store None (cache_provider (built_cache false)))
    = Some (json_dumps (motion "A"))
  ∧ (change_elements [("motion:1", JObj [])] (built_cache false)).1 = Ok 1001
  ∧ PyDict.get "motion:1"
      (Provider.store None
         (cache_provider
            (state_after (change_elements [("motion:1", JObj [])])
               (built_cache false))))
    = None.
Proof. repeat split; vm_compute; reflexivity. Qed.
(** ** The scenario of the specification *)

Lemma get_full_data_since change_id max_change_id self lowest raw deleted :
  change_id ≠ 0 ->
  Provider.get_lowest_change_id (cache_provider self) = Some lowest ->
  lowest ≠ 0 -> lowest <= change_id ->
  Provider.get_data_since change_id None max_change_id (cache_provider self)
  = Ok (raw, deleted) ->
  get_full_data change_id max_change_id self
  = (Ok (decode_changed raw, deleted), self).
Proof.
  intros Hc Hlow Hl0 Hle Hdata. unfold get_full_data.
  apply Z.eqb_neq in Hc. rewrite Hc.
  rewrite bind_unfold, get_lowest_change_id_unfold, Hlow.
  apply Z.eqb_neq in Hl0. rewrite Hl0.
  replace (change_id <? lowest) with false by (symmetry; apply Z.ltb_ge; lia).
  mstep. by rewrite Hdata.
Qed.

Lemma in_range_unbounded change_id score :
  change_id <= score -> Provider.in_range change_id (-1) (Some score) = true.
Proof.
  intros H. unfold Provider.in_range.
  by rewrite bool_decide_eq_true_2.
Qed.

Section scenario.
Variables (use_restricted : bool) (start_time : Z) (fuel : nat).
Variable restricter : Z -> list json -> outcome (list json).
Hypothesis start_time_nonneg : 0 <= start_time.

Let self0 := init use_restricted Provider.empty [motions restricter] start_time.
Let self1 := state_after (ensure_cache fuel false) self0.
Let self2 := state_after (change_elements [("motion:1", motion "B")]) self1.
Let self3 := state_after (change_elements [("motion:1", JNull)]) self2.

Lemma scenario_build : ensure_cache fuel false self0 = (Ok tt, self1).
Proof. vm_compute. reflexivity. Qed.

Lemma scenario_snapshot :
  get_full_data 0 (-1) self1 = (Ok ([("motion", [motion "A"])], []), self1).
Proof. vm_compute. reflexivity. Qed.

Lemma scenario_change :
  change_elements [("motion:1", motion "B")] self1
  = (Ok (start_time + 1), self2).
Proof. reflexivity. Qed.

Lemma scenario_delete :
  change_elements [("motion:1", JNull)] self2
  = (Ok (start_time + 1 + 1), self3).
Proof. reflexivity. Qed.

Lemma scenario_changed_data :
  get_full_data (start_time + 1) (-1) self2
  = (Ok ([("motion", [motion "B"])], []), self2).
Proof.
  assert (Hindex : Provider.change_index (cache_provider self2)
                   = [(start_time + 1, "motion:1")]) by reflexivity.
  assert (Hstore : Provider.store None (cache_provider self2)
                   = [("motion:1", json_dumps (motion "B"))])
    by (vm_compute; reflexivity).
  apply (get_full_data_since _ _ _ (start_time + 1)
           [("motion", [json_dumps (motion "B")])] []); [lia | | lia | lia |].
  - unfold Provider.get_lowest_change_id. by rewrite Hindex.
  - unfold Provider.get_data_since. rewrite Hindex, Hstore.
    replace (remove_dups (map snd [(start_time + 1, "motion:1")]))
      with ["motion:1"] by (vm_compute; reflexivity).
    rewrite filter_cons, decide_True; [reflexivity|].
    by apply in_range_unbounded.
Qed.

Lemma scenario_deleted_data :
  get_full_data (start_time + 1 + 1) (-1) self3
  = (Ok ([], ["motion:1"]), self3).
Proof.
  assert (Hindex : Provider.change_index (cache_provider self3)
                   = [(start_time + 1, "motion:1");
                      (start_time + 1 + 1, "motion:1")]) by reflexivity.
  assert (Hstore : Provider.store None (cache_provider self3) = [])
    by (vm_compute; reflexivity).
  apply (get_full_data_since _ _ _ (start_time + 1) [] ["motion:1"]);
    [lia | | lia | lia |].
  - unfold Provider.get_lowest_change_id. rewrite Hindex. simpl.
    f_equal. lia.
  - unfold Provider.get_data_since. rewrite Hindex, Hstore.
    replace (remove_dups (map snd [(start_time + 1, "motion:1");
                                   (start_time + 1 + 1, "motion:1")]))
      with ["motion:1"] by (vm_compute; reflexivity).
    rewrite filter_cons, decide_True; [reflexivity|].
    change (Provider.last_change "motion:1" _)
      with (Some (Z.max (start_time + 1) (start_time + 1 + 1))).
    apply in_range_unbounded. lia.
Qed.
End scenario.

(** C1 (scenario).  A cache is built over a collection ["motion"] whose only
    element is [{"id": 1, "title": "A"}].  Changing ["motion:1"] to title
    ["B"] returns a ChangeId [C1], and [get_full_data(C1)] returns the new
    body and no deletion; changing ["motion:1"] to [None] returns a ChangeId
    [C2 > C1], and [get_full_data(C2)] returns no element and the deletion of
    ["motion:1"].  The start time is any value that is not negative. *)
Theorem scenario_motion use_restricted restricter start_time fuel :
  0 <= start_time ->
  ∃ self1 C1 self2 C2 self3,
    ensure_cache fuel false
      (init use_restricted Provider.empty [motions restricter] start_time)
    = (Ok tt, self1) ∧
    get_full_data 0 (-1) self1 = (Ok ([("motion", [motion "A"])], []), self1) ∧
    change_elements [("motion:1", motion "B")] self1 = (Ok C1, self2) ∧
    get_full_data C1 (-1) self2 = (Ok ([("motion", [motion "B"])], []), self2) ∧
    change_elements [("motion:1", JNull)] self2 = (Ok C2, self3) ∧
    C1 < C2 ∧
    get_full_data C2 (-1) self3 = (Ok ([], ["motion:1"]), self3).
Proof.
  intros Hstart. eexists _, (start_time + 1), _, (start_time + 1 + 1), _.
  split; [apply scenario_build|].
  split; [apply scenario_snapshot|].
  split; [apply scenario_change|].
  split; [by apply scenario_changed_data|].
  split; [apply scenario_delete|].
  split; [lia|]. by apply scenario_deleted_data.
Qed.

Lemma scenario_motion_witness :
  0 <= 1000
  ∧ ∃ self1 C1 self2 C2 self3,
      ensure_cache 0 false (init false Provider.empty [motions see_all] 1000)
      = (Ok tt, self1) ∧
      get_full_data 0 (-1) self1 = (Ok ([("motion", [motion "A"])], []), self1) ∧
      change_elements [("motion:1", motion "B")] self1 = (Ok C1, self2) ∧
      get_full_data C1 (-1) self2
      = (Ok ([("motion", [motion "B"])], []), self2) ∧
      change_elements [("motion:1", JNull)] self2 = (Ok C2, self3) ∧
      C1 < C2 ∧
      get_full_data C2 (-1) self3 = (Ok ([], ["motion:1"]), self3).
Proof.
  split; [lia|]. apply (scenario_motion false see_all 1000 0). lia.
Defined.

(** ** More on loops *)

(** every round of a loop that returned has returned, and what a round
    established is kept when the later rounds respect it *)
Lemma for_each_pure_round {X Acc} (R : Acc -> Acc -> Prop)
    (xs : list X) (body : X -> Acc -> outcome Acc) acc r :
  (∀ a, R a a) -> (∀ a1 a2 a3, R a1 a2 -> R a2 a3 -> R a1 a3) ->
  (∀ x a a', body x a = Ok a' -> R a a') ->
  for_each_pure xs body acc = Ok r ->
  R acc r ∧ ∀ x, x ∈ xs -> ∃ a a', body x a = Ok a' ∧ R a' r.
Proof.
  intros Hrefl Htrans Hmono. revert acc.
  induction xs as [|x xs IH]; intros acc; simpl.
  - intros [= <-]. split; [apply Hrefl|]. by intros x Hx%elem_of_nil.
  - destruct (body x acc) as [a'| |] eqn:Hb; simpl; try done.
    intros Hrest. destruct (IH _ Hrest) as [Hr Hall]. split.
    + apply (Htrans _ a'); [by eapply Hmono | done].
    + intros y [->|Hy]%elem_of_cons; [by exists acc, a' | by apply Hall].
Qed.

(** ** The ids of a list of elements *)

Lemma id_set_spec data ids :
  id_set data = Ok ids -> ∀ id, id ∈ ids <-> has_id data id.
Proof.
  unfold id_set.
  destruct (for_each_pure data _ []) as [l| |] eqn:Hloop; simpl; try done.
  intros [= <-] id. rewrite elem_of_remove_dups.
  assert (Hgen : ∀ acc l,
    for_each_pure data (fun element ids =>
      id ← element_id_of element; Ok (ids ++ [id])%list) acc = Ok l ->
    id ∈ l <-> id ∈ acc ∨ has_id data id).
  { clear. induction data as [|element data IH]; intros acc l; simpl.
    - intros [= <-]. split; [auto|]. intros [?|(e & He & _)]; [done|].
      by apply elem_of_nil in He.
    - destruct (element_id_of element) as [i| |] eqn:Hid; simpl; try done.
      intros H. rewrite (IH _ _ H), elem_of_app, list_elem_of_singleton.
      split.
      + intros [[?| ->]|(e & He & Hi)]; [by left | |].
        * right. exists element. split; [left | done].
        * right. exists e. split; [by right | done].
      + intros [?|(e & [->|He]%elem_of_cons & Hi)]; [by left; left | |].
        * left. right. congruence.
        * right. by exists e. }
  rewrite (Hgen _ _ Hloop). split; [|auto].
  intros [Hnil|?]; [|done]. by apply elem_of_nil in Hnil.
Qed.

(** ** The loop over the fetched collections *)

(** the elements that pass the filter are written under element ids *)
Lemma visible_mapping_keys collection_string restricted mapping mapping' :
  for_each_pure restricted (fun element mapping =>
    id ← element_id_of element;
    Ok (PyDict.update
          [(get_element_id collection_string id, json_dumps element)]
          mapping)) mapping = Ok mapping' ->
  (NoDup (PyDict.keys mapping) -> NoDup (PyDict.keys mapping')) ∧
  (∀ k, k ∈ PyDict.keys mapping' ->
     k ∈ PyDict.keys mapping ∨ ∃ id, k = get_element_id collection_string id).
Proof.
  revert mapping. induction restricted as [|element restricted IH];
    intros mapping; simpl.
  - intros [= <-]. auto.
  - destruct (element_id_of element) as [i| |]; simpl; try done.
    intros H. destruct (IH _ H) as [Hnd Hkeys]. split.
    + intros Hm. by apply Hnd, keys_set_NoDup.
    + intros k [Hk|Hk]%Hkeys; [|by right].
      apply PyDictFacts.keys_set in Hk as [->|Hk]; [|by left].
      right. by exists i.
Qed.

(** one round: the filter ran, and the ids it dropped went to the deletion
    list *)
Lemma restrict_collection_Ok self user_id collection_string full_data
    mapping deleted mapping' deleted' :
  restrict_collection self user_id (collection_string, full_data)
    (mapping, deleted) = Ok (mapping', deleted') ->
  ∃ restricted full_data_ids restricted_data_ids,
    restrict self user_id collection_string full_data = Ok restricted ∧
    id_set full_data = Ok full_data_ids ∧
    id_set restricted = Ok restricted_data_ids ∧
    deleted' = (deleted ++ map (get_element_id collection_string)
                  (list_difference full_data_ids restricted_data_ids))%list ∧
    (NoDup (PyDict.keys mapping) -> NoDup (PyDict.keys mapping')) ∧
    (∀ k, k ∈ PyDict.keys mapping' ->
       k ∈ PyDict.keys mapping ∨ ∃ id, k = get_element_id collection_string id).
Proof.
  unfold restrict_collection.
  destruct (restrict self user_id collection_string full_data)
    as [restricted| |]; simpl; try done.
  destruct (id_set full_data) as [fids| |]; simpl; try done.
  destruct (id_set restricted) as [rids| |] eqn:Hrids; simpl; try done.
  destruct (for_each_pure restricted _ mapping) as [m'| |] eqn:Hm;
    simpl; try done.
  intros [= <- <-]. exists restricted, fids, rids.
  apply visible_mapping_keys in Hm as [Hnd Hkeys]. done.
Qed.

Lemma restrict_full_data_Ok self user_id full_data_elements deleted0
    mapping deleted :
  restrict_full_data self user_id full_data_elements deleted0
  = Ok (mapping, deleted) ->
  NoDup (PyDict.keys mapping)
  ∧ (∀ k, k ∈ PyDict.keys mapping -> ∃ c id, k = get_element_id c id)
  ∧ (∀ k, k ∈ deleted -> k ∈ deleted0 ∨ ∃ c id, k = get_element_id c id)
  ∧ (∀ collection_string full_data,
       (collection_string, full_data) ∈ full_data_elements ->
       ∃ restricted,
         restrict self user_id collection_string full_data = Ok restricted ∧
         ∀ id, has_id full_data id -> ¬ has_id restricted id ->
           get_element_id collection_string id ∈ deleted).
Proof.
  unfold restrict_full_data. intros Hloop.
  assert (Hinv :
    NoDup (PyDict.keys mapping)
    ∧ (∀ k, k ∈ PyDict.keys mapping -> ∃ c id, k = get_element_id c id)
    ∧ (∀ k, k ∈ deleted -> k ∈ deleted0 ∨ ∃ c id, k = get_element_id c id)).
  { apply (for_each_pure_inv (fun acc =>
      NoDup (PyDict.keys acc.1)
      ∧ (∀ k, k ∈ PyDict.keys acc.1 -> ∃ c id, k = get_element_id c id)
      ∧ (∀ k, k ∈ acc.2 -> k ∈ deleted0 ∨ ∃ c id, k = get_element_id c id))
      _ _ _ _) in Hloop; [exact Hloop | |].
    - simpl. split; [apply NoDup_nil_2|]. split; [|by left].
      by intros k Hk%elem_of_nil.
    - intros [c full_data] [m d] [m' d'] _ (Hnd & Hkeys & Hdel) Hround.
      apply restrict_collection_Ok in Hround
        as (restricted & fids & rids & _ & _ & _ & -> & Hnd' & Hkeys').
      simpl in *. split; [by apply Hnd'|]. split.
      + intros k [Hk|[id ->]]%Hkeys'; [by apply Hkeys | by exists c, id].
      + intros k [Hk|Hk]%elem_of_app; [by apply Hdel|]. right.
        apply list_elem_of_fmap in Hk as (id & -> & _). by exists c, id. }
  destruct Hinv as (Hnd & Hkeys & Hdel). do 3 (split; [done|]).
  intros c full_data Hin.
  apply (for_each_pure_round (fun acc acc' => acc.2 ⊆ acc'.2)) in Hloop
    as [_ Hrounds].
  - destruct (Hrounds _ Hin) as ([m d] & [m' d'] & Hround & Hkept).
    apply restrict_collection_Ok in Hround
      as (restricted & fids & rids & Hr & Hfids & Hrids & -> & _).
    exists restricted. split; [done|]. intros id Hfull Hnot.
    apply Hkept. simpl. apply elem_of_app. right.
    apply list_elem_of_fmap. exists id. split; [done|].
    apply list_elem_of_difference. split.
    + by apply (id_set_spec _ _ Hfids).
    + by intros Hid%(id_set_spec _ _ Hrids).
  - by intros [m d].
  - intros [m1 d1] [m2 d2] [m3 d3]; simpl. intros H12 H23. by transitivity d2.
  - intros [c' full_data'] [m d] [m' d'] Hround.
    apply restrict_collection_Ok in Hround
      as (restricted & fids & rids & _ & _ & _ & -> & _).
    simpl. intros k Hk. apply elem_of_app. by left.
Qed.

Lemma restrict_stores_only self self' user_id collection_string full_data :
  stores_only self self' ->
  restrict self' user_id collection_string full_data
  = restrict self user_id collection_string full_data.
Proof. by intros [st ->]. Qed.

Lemma restrict_full_data_stores_only self self' user_id fde deleted0 :
  stores_only self self' ->
  restrict_full_data self' user_id fde deleted0
  = restrict_full_data self user_id fde deleted0.
Proof. by intros [st ->]. Qed.

(** ** The stores after the writes of a refresh *)

Lemma store_update_restricted_data user_id mapping p :
  Provider.store (Some user_id)
    (Provider.update_restricted_data user_id mapping p)
  = PyDict.update mapping (Provider.store (Some user_id) p).
Proof.
  unfold Provider.store at 1. simpl. by rewrite lookup_insert_eq.
Qed.

Lemma store_del_elements elements user_id p :
  Provider.store user_id (Provider.del_elements elements user_id p)
  = PyDict.del_all elements (Provider.store user_id p).
Proof.
  unfold Provider.store. simpl.
  destruct (Provider.stores p !! user_id) as [d|] eqn:Hd.
  - by rewrite lookup_insert_eq.
  - rewrite Hd. simpl. clear. by induction elements.
Qed.

(** a refresh that returns has fetched full data, filtered it, written the
    visible elements and the sentinel, and applied the deletion list *)
Lemma refresh_restricted_data_Ok user_id user_change_id change_id self self' :
  refresh_restricted_data user_id user_change_id change_id self
  = (Ok tt, self') ->
  ∃ full_data_elements deleted0 self1 mapping deleted,
    fetch_full_data user_id user_change_id self
    = (Ok (full_data_elements, deleted0), self1) ∧
    restrict_full_data self user_id full_data_elements deleted0
    = Ok (mapping, deleted) ∧
    stores_only self self' ∧
    Provider.store (Some user_id) (cache_provider self')
    = PyDict.del_all deleted
        (PyDict.update
           (PyDict.set "_config:change_id" (str_of_int change_id) mapping)
           (Provider.store (Some user_id) (cache_provider self1))).
Proof.
  intros Hrun.
  pose proof (refresh_restricted_data_stores_only _ _ _ _ _ _ Hrun) as Hframe.
  revert Hrun. unfold refresh_restricted_data. rewrite bind_unfold.
  destruct (fetch_full_data user_id user_change_id self) as [o s1] eqn:Hf.
  apply fetch_full_data_stores_only in Hf as Hs1.
  destruct o as [[fde deleted0]| |]; try done.
  mstep. rewrite bind_lift.
  rewrite (restrict_full_data_stores_only self s1) by done.
  destruct (restrict_full_data _ _ _ _) as [[mapping deleted]| |] eqn:Hloop;
    try done.
  mstep. intros Hrun. exists fde, deleted0, s1, mapping, deleted.
  do 3 (split; [done|]).
  destruct (bool_decide (deleted ≠ [])) eqn:Hdel; revert Hrun; mstep;
    intros [= <-]; simpl.
  - by rewrite store_del_elements, store_update_restricted_data.
  - apply bool_decide_eq_false in Hdel. apply dec_stable in Hdel as ->.
    by rewrite store_update_restricted_data.
Qed.

(** ** Restricted snapshots *)

Lemma elem_of_set {K V} `{EqDecision K} (k k' : K) (v v' : V) d :
  (k', v') ∈ PyDict.set k v d -> (k' = k ∧ v' = v) ∨ (k', v') ∈ d.
Proof.
  induction d as [|[k0 v0] d IH]; simpl.
  - intros Hin%list_elem_of_singleton. left. by simplify_eq.
  - case_decide.
    + intros [Hin|Hin]%elem_of_cons; [left; by simplify_eq|].
      right. by apply list_elem_of_further.
    + intros [Hin|Hin]%elem_of_cons.
      * right. rewrite Hin. apply list_elem_of_here.
      * destruct (IH Hin) as [?|?]; [by left|].
        right. by apply list_elem_of_further.
Qed.

Lemma prefix_app p s t :
  String.prefix p s = true -> String.prefix p (s +:+ t) = true.
Proof.
  revert p. induction s as [|b s IH]; intros [|a p]; simpl; try done.
  - by destruct t.
  - destruct (Ascii.ascii_dec a b); [apply IH | done].
Qed.

Lemma rsplit_colon_Some s l r :
  rsplit_colon s = Some (l, r) -> s = l +:+ ":" +:+ r.
Proof.
  revert l. induction s as [|a s IH]; intros l; simpl; [done|].
  destruct (rsplit_colon s) as [[l' r']|].
  - intros [= <- <-]. rewrite (IH l' eq_refl) at 1. reflexivity.
  - destruct (Ascii.eqb_spec a ":"); [|done].
    intros [= <- <-]. by subst.
Qed.

Lemma split_element_id_prefix p element_id collection_string id :
  split_element_id element_id = Ok (collection_string, id) ->
  String.prefix p element_id = false -> String.prefix p collection_string = false.
Proof.
  unfold split_element_id.
  destruct (rsplit_colon element_id) as [[l r]|] eqn:Hs; [|done].
  apply rsplit_colon_Some in Hs as ->.
  destruct (Z_of_string r); simpl; try done. intros [= <- _] Hp.
  destruct (String.prefix p l) eqn:Hl; [|done].
  by rewrite prefix_app in Hp.
Qed.

(** every body of a restricted snapshot is the decoded value of an entry of
    the store whose key does not start with ["_config"], filed under the
    collection of that key *)
Lemma group_restricted_sound restricted_data out :
  group_restricted restricted_data = Ok out ->
  ∀ collection_string bodies body,
    (collection_string, bodies) ∈ out -> body ∈ bodies ->
    String.prefix "_config" collection_string = false ∧
    ∃ element_id data id,
      (element_id, data) ∈ restricted_data ∧
      String.prefix "_config" element_id = false ∧
      split_element_id element_id = Ok (collection_string, id) ∧
      body = json_loads data.
Proof.
  unfold group_restricted. intros Hloop.
  refine (for_each_pure_inv (fun out =>
    ∀ collection_string bodies body,
      (collection_string, bodies) ∈ out -> body ∈ bodies ->
      String.prefix "_config" collection_string = false ∧
      ∃ element_id data id,
        (element_id, data) ∈ restricted_data ∧
        String.prefix "_config" element_id = false ∧
        split_element_id element_id = Ok (collection_string, id) ∧
        body = json_loads data) _ _ _ _ _ _ Hloop).
  - by intros c bodies body Hin%elem_of_nil.
  - intros [element_id data] acc acc' Hentry Hacc.
    destruct (String.prefix "_config" element_id) eqn:Hp;
      [by intros [= <-]|].
    destruct (split_element_id element_id) as [[c id]| |] eqn:Hs;
      simpl; try done.
    intros [= <-] c' bodies body Hin Hbody.
    unfold PyDict.append_to in Hin.
    apply elem_of_set in Hin as [[-> ->]|Hin]; [|by eapply Hacc].
    apply elem_of_app in Hbody as [Hbody|Hbody%list_elem_of_singleton].
    + destruct (PyDict.get c acc) as [bs|] eqn:Hget;
        [|by apply elem_of_nil in Hbody].
      apply get_Some_elem in Hget. by eapply Hacc.
    + split; [by eapply split_element_id_prefix|].
      by exists element_id, data, id.
Qed.

(** the snapshot is taken whenever all keys of the store are the sentinel or
    element ids *)
Lemma group_restricted_Ok restricted_data :
  Forall restricted_key (PyDict.keys restricted_data) ->
  ∃ out, group_restricted restricted_data = Ok out.
Proof.
  intros Hkeys. unfold group_restricted.
  match goal with |- context [for_each_pure ?xs ?body ?acc] =>
    destruct (for_each_pure_Ok (fun _ => True) xs body acc) as (r & -> & _)
  end; [done | | by eexists].
  intros [element_id data] out Hin _.
  destruct (String.prefix "_config" element_id) eqn:Hp; [by eexists|].
  rewrite Forall_forall in Hkeys.
  destruct (Hkeys element_id) as [->|Hwf].
  - unfold PyDict.keys. apply list_elem_of_fmap. by exists (element_id, data).
  - done.
  - unfold well_formed_id in Hwf.
    destruct (split_element_id element_id) as [[c id]| |]; [|done..].
    simpl. by eexists.
Qed.

(** ** The refresh as a whole *)

(** a critical section that returns has either found the user's store up to
    date or refreshed it *)
Lemma refresh_if_stale_Ok user_id self self' :
  refresh_if_stale user_id self = (Ok tt, self') ->
  ∃ user_change_id,
    recorded_change_id user_id self = Ok user_change_id ∧
    if user_change_id <? current_change_id self
    then refresh_restricted_data user_id user_change_id
           (current_change_id self) self = (Ok tt, self')
    else self' = self.
Proof.
  unfold refresh_if_stale, recorded_change_id. mstep.
  assert (Hrest : ∀ user_change_id,
    (change_id ← get_current_change_id;
     if user_change_id <? change_id
     then refresh_restricted_data user_id user_change_id change_id
     else mret tt) self = (Ok tt, self') ->
    if user_change_id <? current_change_id self
    then refresh_restricted_data user_id user_change_id
           (current_change_id self) self = (Ok tt, self')
    else self' = self).
  { intros user_change_id.
    rewrite bind_unfold, get_current_change_id_unfold.
    fold (current_change_id self).
    destruct (_ <? _); [done | by intros [= <-]]. }
  destruct (Provider.get_change_id_user _ _) as [v|].
  - rewrite bind_lift. destruct (int_of_serialized v) as [n| |]; try done.
    intros H. exists n. split; [done|]. by apply Hrest.
  - mstep. intros H. exists (-1). split; [done|]. by apply Hrest.
Qed.

(** a call that returns, with caching enabled, has found the cache ensured
    and the lock free, has run the critical section and released the lock *)
Lemma update_restricted_data_Ok fuel user_id self self' :
  use_restricted_data_cache self = true ->
  update_restricted_data fuel user_id self = (Ok tt, self') ->
  ensured self = true ∧
  (lock_name_of user_id ∉ Provider.locks (cache_provider self)) ∧
  ∃ self1,
    refresh_if_stale user_id (holding (lock_name_of user_id) self)
    = (Ok tt, self1) ∧
    self' = with_provider (Provider.del_lock (lock_name_of user_id)) self1.
Proof.
  intros Huse Hrun.
  destruct (ensured self) eqn:Hens.
  - destruct (decide (lock_name_of user_id
                      ∈ Provider.locks (cache_provider self))) as [Hheld|Hfree].
    + by rewrite update_restricted_data_waits in Hrun.
    + rewrite update_restricted_data_acquired in Hrun by done.
      rewrite bind_unfold in Hrun.
      destruct (refresh_if_stale _ _) as [[[]| |] s1]; try done.
      revert Hrun. unfold provider_do. intros [= <-]. eauto.
  - revert Hrun. unfold update_restricted_data. mstep. rewrite Huse. simpl.
    mstep. by rewrite Hens.
Qed.

Lemma holding_stores lock_name self :
  Provider.stores (cache_provider (holding lock_name self))
  = Provider.stores (cache_provider self).
Proof. reflexivity. Qed.

(** the store of the user after the fetch: as before, or purged *)
Lemma fetch_full_data_store user_id user_change_id self r self' :
  fetch_full_data user_id user_change_id self = (r, self') ->
  restricted_store user_id self' = restricted_store user_id self
  ∨ restricted_store user_id self' = [].
Proof.
  unfold fetch_full_data, except_RuntimeError.
  destruct (get_full_data _ _ self) as [o s] eqn:Hg.
  apply get_full_data_state in Hg as ->.
  assert (Hresync : full_resync user_id self = (r, self') ->
    restricted_store user_id self' = restricted_store user_id self
    ∨ restricted_store user_id self' = []).
  { unfold full_resync. rewrite bind_unfold.
    destruct (get_all_full_data self) as [o' s] eqn:Ho.
    apply get_all_full_data_state in Ho as ->.
    destruct o'; try (intros [= _ <-]; by left).
    mstep. intros [= _ <-]. right.
    unfold restricted_store, Provider.store. simpl.
    by rewrite lookup_delete_eq. }
  destruct o as [a|[]|]; try (intros [= _ <-]; by left). done.
Qed.

(** what the fetch reports as deleted was recorded in the ChangeIndex *)
Lemma get_data_since_deleted change_id user_id max_change_id p changed deleted :
  Provider.get_data_since change_id user_id max_change_id p
  = Ok (changed, deleted) ->
  ∀ k, k ∈ deleted <->
    k ∈ map snd (Provider.change_index p) ∧
    Provider.in_range change_id max_change_id
      (Provider.last_change k (Provider.change_index p)) = true ∧
    PyDict.get k (Provider.store user_id p) = None.
Proof.
  unfold Provider.get_data_since. intros Hloop k.
  assert (Hgen : ∀ members acc changed deleted,
    for_each_pure members (fun element_id '(changed, deleted) =>
      match PyDict.get element_id (Provider.store user_id p) with
      | None => Ok (changed, (deleted ++ [element_id])%list)
      | Some element_json =>
          '(collection_string, _) ← split_element_id element_id;
          Ok (PyDict.append_to collection_string element_json changed, deleted)
      end) acc = Ok (changed, deleted) ->
    k ∈ deleted <->
      k ∈ acc.2 ∨ (k ∈ members ∧ PyDict.get k (Provider.store user_id p) = None)).
  { clear. induction members as [|m members IH]; intros [ch de] changed deleted.
    - simpl. intros [= <- <-]. split; [auto|].
      intros [?|[Hk _]]; [done|]. by apply elem_of_nil in Hk.
    - simpl. destruct (PyDict.get m _) as [v|] eqn:Hget.
      + destruct (split_element_id m) as [[c i]| |]; simpl; try done.
        intros H. rewrite (IH _ _ _ H). simpl. rewrite elem_of_cons.
        split; [tauto|]. intros [?|[[->|?] Hn]]; [tauto|congruence|tauto].
      + intros H. rewrite (IH _ _ _ H). simpl.
        rewrite elem_of_app, list_elem_of_singleton, elem_of_cons.
        split; [|tauto]. intros [[?| ->]|?]; tauto. }
  rewrite (Hgen _ _ _ _ Hloop). simpl.
  rewrite list_elem_of_filter, elem_of_remove_dups, elem_of_nil. tauto.
Qed.

Lemma get_full_data_Ok change_id max_change_id self data deleted self' :
  get_full_data change_id max_change_id self = (Ok (data, deleted), self') ->
  self' = self ∧
  ((change_id = 0 ∧ get_all_full_data self = (Ok data, self) ∧ deleted = [])
   ∨ (change_id ≠ 0 ∧ ∃ lowest raw,
        get_lowest_change_id self = (Ok lowest, self) ∧
        lowest <= change_id ∧
        Provider.get_data_since change_id None max_change_id
          (cache_provider self) = Ok (raw, deleted) ∧
        data = decode_changed raw)).
Proof.
  intros Hrun. pose proof (get_full_data_state _ _ _ _ _ Hrun) as ->.
  split; [done|]. revert Hrun. unfold get_full_data.
  destruct (change_id =? 0) eqn:Hc.
  - apply Z.eqb_eq in Hc as ->. rewrite bind_unfold.
    destruct (get_all_full_data self) as [o s] eqn:Ho.
    apply get_all_full_data_state in Ho as Hs. subst s.
    destruct o; try done. intros [= <- <-]. by left.
  - apply Z.eqb_neq in Hc. rewrite bind_unfold.
    destruct (get_lowest_change_id self) as [o s] eqn:Hlow.
    destruct o as [lowest| |]; try done.
    apply get_lowest_change_id_Ok in Hlow as Hl. destruct Hl as (-> & _ & _).
    destruct (change_id <? lowest) eqn:Hlt; [done|].
    apply Z.ltb_ge in Hlt. mstep.
    destruct (Provider.get_data_since _ _ _ _) as [[raw del]| |] eqn:Hd;
      try done.
    intros [= <- <-]. right. split; [done|]. by exists lowest, raw.
Qed.

(** what the fetch reports as deleted is a member of the ChangeIndex *)
Lemma fetch_full_data_deleted user_id user_change_id self
    full_data_elements deleted0 self' :
  fetch_full_data user_id user_change_id self
  = (Ok (full_data_elements, deleted0), self') ->
  ∀ k, k ∈ deleted0 -> k ∈ changed_ids self.
Proof.
  unfold fetch_full_data, except_RuntimeError.
  destruct (get_full_data _ _ self) as [o s] eqn:Hg.
  destruct o as [[d del]|[]|]; try done.
  - intros [= <- <- <-].
    apply get_full_data_Ok in Hg
      as (_ & [(_ & _ & ->)|(_ & l & raw & _ & _ & Hd & _)]).
    + by intros k Hk%elem_of_nil.
    + intros k Hk.
      by apply (get_data_since_deleted _ _ _ _ _ _ Hd) in Hk as [? _].
  - apply get_full_data_state in Hg as ->. unfold full_resync.
    rewrite bind_unfold. destruct (get_all_full_data self) as [[a| |] s'];
      try done.
    mstep. intros [= _ <- _]. by intros k Hk%elem_of_nil.
Qed.

(** a refresh leaves only the sentinel and element ids in the user's store,
    and the sentinel holds the current ChangeId unless the ChangeIndex
    lists the sentinel key itself *)
Lemma refresh_restricted_data_store user_id user_change_id change_id
    self self' :
  refresh_restricted_data user_id user_change_id change_id self
  = (Ok tt, self') ->
  Forall restricted_key (PyDict.keys (restricted_store user_id self)) ->
  Forall restricted_key (PyDict.keys (restricted_store user_id self'))
  ∧ ("_config:change_id" ∉ changed_ids self ->
     PyDict.get "_config:change_id" (restricted_store user_id self')
     = Some (str_of_int change_id)).
Proof.
  intros Hrun Hkeys.
  apply refresh_restricted_data_Ok in Hrun
    as (fde & deleted0 & s1 & mapping & deleted & Hfetch & Hloop & _ & Hstore).
  apply restrict_full_data_Ok in Hloop as (Hnd & Hmap & Hdel & _).
  unfold restricted_store in *. rewrite Hstore. split.
  - apply Forall_forall. intros k Hk.
    apply PyDictFacts.keys_del_all_subseteq in Hk.
    apply PyDictFacts.keys_update in Hk as [Hk|Hk].
    + apply PyDictFacts.keys_set in Hk as [->|Hk]; [by left|].
      right. destruct (Hmap _ Hk) as (c & id & ->).
      unfold well_formed_id. by rewrite split_get_element_id.
    + destruct (fetch_full_data_store _ _ _ _ _ Hfetch) as [Heq|Heq];
        unfold restricted_store in Heq; rewrite Heq in Hk.
      * rewrite Forall_forall in Hkeys. by apply Hkeys.
      * by apply elem_of_nil in Hk.
  - intros Hindex. rewrite PyDictFacts.get_del_all_notin.
    + rewrite get_update by by apply keys_set_NoDup.
      by rewrite PyDictFacts.get_set_eq.
    + intros [Hk|(c & id & Hk)]%Hdel.
      * by apply Hindex, (fetch_full_data_deleted _ _ _ _ _ _ Hfetch).
      * symmetry in Hk. by apply get_element_id_not_sentinel in Hk.
Qed.

(** a call that returns leaves only the sentinel and element ids in the
    user's store; the store then holds the sentinel as soon as the current
    ChangeId is above [-1], unless the ChangeIndex lists the sentinel key *)
Lemma update_restricted_data_store fuel user_id self self' :
  use_restricted_data_cache self = true ->
  update_restricted_data fuel user_id self = (Ok tt, self') ->
  Forall restricted_key (PyDict.keys (restricted_store user_id self)) ->
  Forall restricted_key (PyDict.keys (restricted_store user_id self'))
  ∧ ("_config:change_id" ∉ changed_ids self -> -1 < current_change_id self ->
     is_Some (PyDict.get "_config:change_id" (restricted_store user_id self'))).
Proof.
  intros Huse Hrun Hkeys.
  apply update_restricted_data_Ok in Hrun as (_ & _ & s1 & Hcrit & ->);
    [|done].
  apply refresh_if_stale_Ok in Hcrit as (ucid & Hrec & Hcases).
  change (restricted_store user_id (with_provider _ s1))
    with (restricted_store user_id s1).
  change (current_change_id (holding _ self))
    with (current_change_id self) in Hcases.
  destruct (ucid <? current_change_id self) eqn:Hlt.
  - apply refresh_restricted_data_store in Hcases as [Hkeys' Hsentinel];
      [|done].
    split; [done|]. intros Hindex _. rewrite Hsentinel; [by eexists | done].
  - subst s1. split; [done|]. intros _ Hcur.
    apply Z.ltb_ge in Hlt. revert Hrec.
    unfold recorded_change_id, Provider.get_change_id_user.
    change (Provider.store (Some user_id)
              (cache_provider (holding (lock_name_of user_id) self)))
      with (restricted_store user_id self).
    destruct (PyDict.get _ _) as [v|]; [by eexists|]. intros [= <-]. lia.
Qed.

(** C8 (sentinel exclusion).  With restricted-data caching enabled,
    [get_all_restricted_data] runs [update_restricted_data] and then groups
    the entries of the user's store, skipping every key that starts with
    ["_config"].  When the refresh returns, on a store whose keys are the
    sentinel and element ids (as the refresh leaves them), the snapshot is
    returned: each of its bodies is the decoded value of a key that does not
    start with ["_config"], and no collection of it does, even though the
    store then holds the sentinel ["_config:change_id"]. *)
Theorem get_all_restricted_data_excludes_sentinel fuel user_id self :
  use_restricted_data_cache self = true ->
  get_all_restricted_data fuel user_id self =
    (update_restricted_data fuel user_id;;
     restricted_data ← provider_get (Provider.get_all_data (Some user_id));
     lift (group_restricted restricted_data)) self
  ∧ ∀ self',
      update_restricted_data fuel user_id self = (Ok tt, self') ->
      Forall restricted_key (PyDict.keys (restricted_store user_id self)) ->
      ∃ out,
        get_all_restricted_data fuel user_id self = (Ok out, self') ∧
        (∀ collection_string bodies body,
           (collection_string, bodies) ∈ out -> body ∈ bodies ->
           String.prefix "_config" collection_string = false ∧
           ∃ element_id data id,
             (element_id, data) ∈ restricted_store user_id self' ∧
             String.prefix "_config" element_id = false ∧
             split_element_id element_id = Ok (collection_string, id) ∧
             body = json_loads data) ∧
        Forall restricted_key (PyDict.keys (restricted_store user_id self')) ∧
        ("_config:change_id" ∉ changed_ids self ->
         -1 < current_change_id self ->
         is_Some (PyDict.get "_config:change_id"
                    (restricted_store user_id self'))).
Proof.
  intros Huse.
  assert (Hshape : get_all_restricted_data fuel user_id self =
    (update_restricted_data fuel user_id;;
     restricted_data ← provider_get (Provider.get_all_data (Some user_id));
     lift (group_restricted restricted_data)) self).
  { unfold get_all_restricted_data. rewrite bind_attr, Huse. reflexivity. }
  split; [exact Hshape|]. intros self' Hrun Hkeys.
  destruct (update_restricted_data_store _ _ _ _ Huse Hrun Hkeys)
    as [Hkeys' Hsentinel].
  destruct (group_restricted_Ok _ Hkeys') as [out Hout].
  exists out. split; [|split; [|done]].
  - rewrite Hshape, (bind_Ok _ _ _ _ _ Hrun). mstep.
    unfold Provider.get_all_data. fold (restricted_store user_id self').
    by rewrite Hout.
  - by apply group_restricted_sound.
Qed.

Lemma get_all_restricted_data_excludes_sentinel_witness :
  use_restricted_data_cache (built_cache true) = true
  ∧ update_restricted_data 0 7 (built_cache true)
    = (Ok tt, state_after (update_restricted_data 0 7) (built_cache true))
  ∧ Forall restricted_key
      (PyDict.keys (restricted_store 7 (built_cache true)))
  ∧ ("_config:change_id" ∉ changed_ids (built_cache true))
  ∧ -1 < current_change_id (built_cache true)
  ∧ get_all_restricted_data 0 7 (built_cache true)
    = (Ok [("motion", [motion "A"])],
       state_after (update_restricted_data 0 7) (built_cache true))
  ∧ is_Some (PyDict.get "_config:change_id"
               (restricted_store 7
                  (state_after (update_restricted_data 0 7)
                     (built_cache true)))).
Proof.
  assert (Hrun : update_restricted_data 0 7 (built_cache true)
    = (Ok tt, state_after (update_restricted_data 0 7) (built_cache true)))
    by (vm_compute; reflexivity).
  assert (Hkeys : Forall restricted_key
      (PyDict.keys (restricted_store 7 (built_cache true))))
    by compute_done.
  assert (Hindex : "_config:change_id" ∉ changed_ids (built_cache true))
    by compute_done.
  assert (Hcur : -1 < current_change_id (built_cache true))
    by (vm_compute; reflexivity).
  destruct (get_all_restricted_data_excludes_sentinel 0 7 (built_cache true)
              eq_refl) as [_ Hsnapshot].
  destruct (Hsnapshot _ Hrun Hkeys) as (out & Hout & _ & _ & Hsentinel).
  split; [reflexivity|]. split; [exact Hrun|]. split; [exact Hkeys|].
  split; [exact Hindex|]. split; [exact Hcur|]. split.
  - vm_compute. reflexivity.
  - by apply Hsentinel.
Defined.

(** ** Incremental reads *)

(** every value that [get_data_since] returns is stored under a member of
    the ChangeIndex whose last change lies in the range *)
Lemma get_data_since_changed change_id user_id max_change_id p changed deleted :
  Provider.get_data_since change_id user_id max_change_id p
  = Ok (changed, deleted) ->
  ∀ collection_string values v,
    (collection_string, values) ∈ changed -> v ∈ values ->
    ∃ m id,
      Provider.in_range change_id max_change_id
        (Provider.last_change m (Provider.change_index p)) = true ∧
      PyDict.get m (Provider.store user_id p) = Some v ∧
      split_element_id m = Ok (collection_string, id).
Proof.
  unfold Provider.get_data_since. intros Hloop.
  refine (for_each_pure_inv (fun acc =>
    ∀ collection_string values v,
      (collection_string, values) ∈ acc.1 -> v ∈ values ->
      ∃ m id,
        Provider.in_range change_id max_change_id
          (Provider.last_change m (Provider.change_index p)) = true ∧
        PyDict.get m (Provider.store user_id p) = Some v ∧
        split_element_id m = Ok (collection_string, id)) _ _ _ _ _ _ Hloop).
  - by intros c values v Hin%elem_of_nil.
  - intros m [ch de] [ch' de'] Hm Hacc. simpl in *.
    apply list_elem_of_filter in Hm as [Hrange _].
    destruct (PyDict.get m _) as [v|] eqn:Hget.
    + destruct (split_element_id m) as [[c i]| |] eqn:Hs; simpl; try done.
      intros [= <- <-] c' values v' Hin Hv.
      unfold PyDict.append_to in Hin.
      apply elem_of_set in Hin as [[-> ->]|Hin]; [|by eapply Hacc].
      apply elem_of_app in Hv as [Hv|Hv%list_elem_of_singleton].
      * destruct (PyDict.get c ch) as [vs|] eqn:Hc;
          [|by apply elem_of_nil in Hv].
        apply get_Some_elem in Hc. by eapply Hacc.
      * subst v'. by exists m, i.
    + intros [= <- <-]. exact Hacc.
Qed.



(** ** Visibility loss *)


Section visibility_loss.
Context (fuel : nat) (user_id : Z) (self self' : ElementCache).
Context (user_change_id : Z) (full_data_elements : list (string * list json)).
Context (deleted0 : list string) (self1 : ElementCache).
Context (collection_string : string) (full_data restricted : list json).
Context (id : Z).

(** caching is enabled and the refresh returns *)
Hypothesis enabled : use_restricted_data_cache self = true.
Hypothesis returned :
  update_restricted_data fuel user_id self = (Ok tt, self').
(** the user's store is behind, so the refresh fetches full data *)
Hypothesis recorded : recorded_change_id user_id self = Ok user_change_id.
Hypothesis stale : user_change_id < current_change_id self.
Hypothesis fetched :
  fetch_full_data user_id user_change_id (holding (lock_name_of user_id) self)
  = (Ok (full_data_elements, deleted0), self1).
(** the id is in the delta of a collection and not in what the filter lets
    through *)
Hypothesis in_delta : (collection_string, full_data) ∈ full_data_elements.
Hypothesis filtered :
  restrict self user_id collection_string full_data = Ok restricted.
Hypothesis in_full_data : has_id full_data id.
Hypothesis not_visible : ¬ has_id restricted id.

Let key := get_element_id collection_string id.


End visibility_loss.







(** ** The counter *)
Section keeps_counter.
Context {A B : Type}.

Lemma keeps_counter_bind (m : M ElementCache A) (k : A -> M ElementCache B) :
  keeps_counter m -> (∀ a, keeps_counter (k a)) -> keeps_counter (m ≫= k).
Proof.
  intros Hm Hk self r self'. rewrite bind_unfold.
  destruct (m self) as [o s] eqn:Hrun. destruct (Hm _ _ _ Hrun) as [Hc Hs].
  destruct o as [a| |]; try (by intros [= _ <-]).
  intros Hrest. destruct (Hk a _ _ _ Hrest) as [Hc' Hs']. split; congruence.
Qed.

Lemma keeps_counter_mret (a : A) : keeps_counter (mret a : M ElementCache A).
Proof. by intros self r self' [= _ <-]. Qed.

Lemma keeps_counter_raise e : keeps_counter (raise e : M ElementCache A).
Proof. by intros self r self' [= _ <-]. Qed.

Lemma keeps_counter_lift (o : outcome A) : keeps_counter (lift o).
Proof. by intros self r self' [= _ <-]. Qed.

Lemma keeps_counter_attr (f : ElementCache -> A) : keeps_counter (attr f).
Proof. by intros self r self' [= _ <-]. Qed.

Lemma keeps_counter_provider_get (f : Provider.t -> A) :
  keeps_counter (provider_get f).
Proof. by intros self r self' [= _ <-]. Qed.

Lemma keeps_counter_provider_try (f : Provider.t -> outcome A) :
  keeps_counter (provider_try f).
Proof. by intros self r self' [= _ <-]. Qed.

Lemma keeps_counter_try_finally (body : M ElementCache A)
    (fin : M ElementCache unit) :
  keeps_counter body -> keeps_counter fin ->
  keeps_counter (try_finally body fin).
Proof.
  intros Hbody Hfin self r self'. unfold try_finally.
  destruct (body self) as [o s] eqn:Hrun.
  destruct (Hbody _ _ _ Hrun) as [Hc Hs].
  destruct (fin s) as [o' s'] eqn:Hrun'.
  destruct (Hfin _ _ _ Hrun') as [Hc' Hs'].
  destruct o as [a| |], o' as [[]| |]; intros [= _ <-]; split; congruence.
Qed.

Lemma keeps_counter_except (body handler : M ElementCache A) :
  keeps_counter body -> keeps_counter handler ->
  keeps_counter (except_RuntimeError body handler).
Proof.
  intros Hbody Hhandler self r self'. unfold except_RuntimeError.
  destruct (body self) as [o s] eqn:Hrun.
  destruct (Hbody _ _ _ Hrun) as [Hc Hs].
  destruct o as [a|[]|]; try (intros [= _ <-]; by split).
  intros Hrun'. destruct (Hhandler _ _ _ Hrun') as [Hc' Hs'].
  split; congruence.
Qed.
End keeps_counter.

Lemma keeps_counter_if {A} (b : bool) (m1 m2 : M ElementCache A) :
  keeps_counter m1 -> keeps_counter m2 -> keeps_counter (if b then m1 else m2).
Proof. by destruct b. Qed.

Lemma keeps_counter_provider_do f :
  (∀ p, Provider.counter (f p) = Provider.counter p) ->
  keeps_counter (provider_do f).
Proof. intros Hf self r self' [= _ <-]. split; [apply Hf | done]. Qed.

Lemma keeps_counter_set_lock lock_name :
  keeps_counter (provider_call (Provider.set_lock lock_name)).
Proof.
  intros self r self'. unfold provider_call, Provider.set_lock.
  case_decide; by intros [= _ <-].
Qed.

Lemma keeps_counter_set_ensured b : keeps_counter (set_ensured b).
Proof. by intros self r self' [= _ <-]. Qed.

Lemma keeps_counter_wait_for_lock fuel lock_name :
  keeps_counter (wait_for_lock fuel lock_name).
Proof.
  induction fuel as [|fuel IH]; [by intros self r self' [= _ <-]|].
  cbn [wait_for_lock]. apply keeps_counter_bind.
  - apply keeps_counter_provider_get.
  - intros []; [done | apply keeps_counter_mret].
Qed.

Create HintDb frame.
#[local] Hint Resolve keeps_counter_bind keeps_counter_mret keeps_counter_raise
  keeps_counter_lift keeps_counter_attr keeps_counter_provider_get
  keeps_counter_provider_try keeps_counter_try_finally keeps_counter_except
  keeps_counter_if keeps_counter_set_lock
  keeps_counter_set_ensured keeps_counter_wait_for_lock : frame.

Ltac frame :=
  repeat first
    [ progress cbv zeta
    | solve [auto with frame]
    | solve [apply keeps_counter_provider_do; intros; reflexivity]
    | apply keeps_counter_bind
    | apply keeps_counter_try_finally
    | apply keeps_counter_except
    | match goal with
      | |- keeps_counter (if ?b then _ else _) => destruct b
      | |- keeps_counter (match ?x with _ => _ end) => destruct x
      | |- keeps_counter _ => fail 1
      | |- _ => intro
      end ].

Lemma keeps_counter_ensure_cache fuel reset :
  keeps_counter (ensure_cache fuel reset).
Proof. unfold ensure_cache, build_full_cache. frame. Qed.

Lemma keeps_counter_get_all_full_data : keeps_counter get_all_full_data.
Proof. unfold get_all_full_data, get_all_full_data_ordered. frame. Qed.

Lemma keeps_counter_get_lowest_change_id : keeps_counter get_lowest_change_id.
Proof. unfold get_lowest_change_id. frame. Qed.

Lemma keeps_counter_get_current_change_id :
  keeps_counter get_current_change_id.
Proof. unfold get_current_change_id. frame. Qed.

#[local] Hint Resolve keeps_counter_get_all_full_data
  keeps_counter_get_lowest_change_id keeps_counter_get_current_change_id
  : frame.

Lemma keeps_counter_get_full_data change_id max_change_id :
  keeps_counter (get_full_data change_id max_change_id).
Proof. unfold get_full_data. frame. Qed.

#[local] Hint Resolve keeps_counter_get_full_data : frame.

Lemma keeps_counter_update_restricted_data fuel user_id :
  keeps_counter (update_restricted_data fuel user_id).
Proof.
  unfold update_restricted_data, refresh_if_stale, refresh_restricted_data,
    fetch_full_data, full_resync.
  frame.
Qed.

#[local] Hint Resolve keeps_counter_update_restricted_data : frame.

Lemma keeps_counter_get_all_restricted_data fuel user_id :
  keeps_counter (get_all_restricted_data fuel user_id).
Proof. unfold get_all_restricted_data. frame. Qed.

#[local] Hint Resolve keeps_counter_get_all_restricted_data : frame.

Lemma keeps_counter_get_restricted_data fuel user_id change_id max_change_id :
  keeps_counter (get_restricted_data fuel user_id change_id max_change_id).
Proof. unfold get_restricted_data. frame. Qed.

(** what a call does to the ChangeId of the next batch *)
Lemma run_call_next_change_id fuel c self r self' :
  run_call fuel c self = (r, self') ->
  match r with
  | Ok (Some change_id) =>
      change_id = next_change_id self ∧ next_change_id self' = change_id + 1
  | _ => next_change_id self' = next_change_id self
  end.
Proof.
  assert (Hkeep : ∀ A (m : M ElementCache A),
    keeps_counter m ->
    (m;; mret None) self = (r, self') ->
    match r with
    | Ok (Some change_id) =>
        change_id = next_change_id self ∧ next_change_id self' = change_id + 1
    | _ => next_change_id self' = next_change_id self
    end).
  { intros A m Hm. rewrite bind_unfold.
    destruct (m self) as [o s] eqn:Hrun.
    destruct (Hm _ _ _ Hrun) as [Hc Hs].
    destruct o; intros [= <- <-]; unfold next_change_id; by rewrite Hc, Hs. }
  destruct c; simpl.
  - apply Hkeep, keeps_counter_ensure_cache.
  - destruct (ensured self) eqn:Hens.
    + destruct (change_elements_counter elements self Hens)
        as (s & Hrun & _ & Hs & Hc).
      rewrite (bind_Ok _ _ _ _ _ Hrun). intros [= <- <-]. split; [done|].
      unfold next_change_id at 1. by rewrite Hc.
    + unfold change_elements. mstep. rewrite Hens. simpl.
      by intros [= <- <-].
  - apply Hkeep, keeps_counter_get_all_full_data.
  - apply Hkeep, keeps_counter_get_full_data.
  - apply Hkeep, keeps_counter_update_restricted_data.
  - apply Hkeep, keeps_counter_get_all_restricted_data.
  - apply Hkeep, keeps_counter_get_restricted_data.
  - apply Hkeep, keeps_counter_get_current_change_id.
  - apply Hkeep, keeps_counter_get_lowest_change_id.
Qed.

(** the ChangeIds of a run start at the next ChangeId and increase *)
Lemma run_calls_increasing fuel calls : ∀ self change_ids self',
  run_calls fuel calls self = (change_ids, self') ->
  (∀ (i : nat) ci, change_ids !! i = Some ci -> next_change_id self <= ci)
  ∧ (∀ (i j : nat) ci cj,
       change_ids !! i = Some ci -> change_ids !! j = Some cj ->
       (i < j)%nat -> ci < cj).
Proof.
  induction calls as [|c calls IH]; intros self change_ids self'; simpl.
  - intros [= <- <-]. split; intros; by simplify_eq.
  - destruct (run_call fuel c self) as [r s] eqn:Hcall.
    apply run_call_next_change_id in Hcall.
    destruct r as [[change_id|]| |].
    + destruct Hcall as [-> Hnext].
      destruct (run_calls fuel calls s) as [ids s'] eqn:Hrest.
      intros [= <- <-]. destruct (IH _ _ _ Hrest) as [Hlow Hsorted].
      rewrite Hnext in Hlow. split.
      * intros [|i] ci; simpl; [intros [= <-]; lia|].
        intros Hi%Hlow. lia.
      * intros [|i] [|j] ci cj; simpl; try lia.
        -- intros [= <-] Hj%Hlow _. lia.
        -- intros Hi Hj Hlt. apply (Hsorted i j); [done | done | lia].
    + intros Hrest. rewrite <- Hcall. exact (IH _ _ _ Hrest).
    + intros Hrest. rewrite <- Hcall. exact (IH _ _ _ Hrest).
    + intros [= <- <-]. split; intros; by simplify_eq.
Qed.

(** C3 (monotonic ChangeId).  Calls of [change_elements] made one after
    another on an ensured cache all return, and every later call returns a
    strictly larger ChangeId than every earlier one.  The ids are the
    successive values of the provider's counter: the i-th call returns the
    next ChangeId of the initial state plus i, whatever seed the calls pass.
    The same order holds when other calls of the cache come in between,
    whether they return or raise. *)
Theorem change_ids_strictly_increasing fuel batches calls self :
  (ensured self = true ->
   ∃ change_ids self',
     change_elements_seq batches self = (Ok change_ids, self') ∧
     length change_ids = length batches ∧
     (∀ (i j : nat) ci cj,
        change_ids !! i = Some ci -> change_ids !! j = Some cj ->
        (i < j)%nat -> ci < cj) ∧
     (∀ (i : nat) ci, change_ids !! i = Some ci ->
        ci = next_change_id self + Z.of_nat i))
  ∧ (∀ change_ids self',
       run_calls fuel calls self = (change_ids, self') ->
       ∀ (i j : nat) ci cj,
         change_ids !! i = Some ci -> change_ids !! j = Some cj ->
         (i < j)%nat -> ci < cj).
Proof.
  split.
  - intros Hens.
    destruct (change_elements_seq_spec batches self Hens) as [self' H].
    eexists _, self'. split; [exact H|].
    assert (Hnth : ∀ (i : nat) ci,
      map (fun i => next_change_id self + Z.of_nat i)
        (seq 0 (length batches)) !! i = Some ci ->
      ci = next_change_id self + Z.of_nat i).
    { intros i ci Hi. change (map ?f ?l) with (f <$> l) in Hi.
      rewrite list_lookup_fmap in Hi.
      destruct (seq 0 (length batches) !! i) as [k|] eqn:Hk; [|done].
      apply lookup_seq in Hk as [-> _]. simpl in Hi. by simplify_eq. }
    split; [by rewrite length_map, length_seq|]. split; [|exact Hnth].
    intros i j ci cj Hi Hj Hlt. apply Hnth in Hi, Hj. lia.
  - intros change_ids self' Hrun.
    by destruct (run_calls_increasing _ _ _ _ _ Hrun) as [_ Hsorted].
Qed.

Lemma change_ids_strictly_increasing_witness :
  ensured (built_cache false) = true
  ∧ run_calls 0
      [ChangeElements [("motion:1", motion "B")]; EnsureCache false;
       ChangeElements [("motion:1", motion "B")]; GetFullData 5 (-1);
       UpdateRestrictedData 7; ChangeElements []; EnsureCache true;
       ChangeElements [("motion:1", JNull)]]
      (fresh_cache true)
    = ([1001; 1002; 1003],
       state_after
         (ensure_cache 0 false;;
          change_elements [("motion:1", motion "B")];;
          update_restricted_data 0 7;;
          change_elements [];;
          ensure_cache 0 true;;
          change_elements [("motion:1", JNull)])
         (fresh_cache true))
  ∧ (∃ change_ids self',
       change_elements_seq
         [[("motion:1", motion "B")]; [("motion:1", JNull)]; []]
         (built_cache false) = (Ok change_ids, self') ∧
       length change_ids = 3%nat ∧
       (∀ (i j : nat) ci cj,
          change_ids !! i = Some ci -> change_ids !! j = Some cj ->
          (i < j)%nat -> ci < cj) ∧
       (∀ (i : nat) ci, change_ids !! i = Some ci ->
          ci = next_change_id (built_cache false) + Z.of_nat i))
  ∧ (∀ (i j : nat) ci cj,
       [1001; 1002; 1003] !! i = Some ci -> [1001; 1002; 1003] !! j = Some cj ->
       (i < j)%nat -> ci < cj).
Proof.
  assert (Hrun : run_calls 0
      [ChangeElements [("motion:1", motion "B")]; EnsureCache false;
       ChangeElements [("motion:1", motion "B")]; GetFullData 5 (-1);
       UpdateRestrictedData 7; ChangeElements []; EnsureCache true;
       ChangeElements [("motion:1", JNull)]]
      (fresh_cache true)
    = ([1001; 1002; 1003],
       state_after
         (ensure_cache 0 false;;
          change_elements [("motion:1", motion "B")];;
          update_restricted_data 0 7;;
          change_elements [];;
          ensure_cache 0 true;;
          change_elements [("motion:1", JNull)])
         (fresh_cache true)))
    by (vm_compute; reflexivity).
  split; [reflexivity|]. split; [exact Hrun|]. split.
  - apply (proj1 (change_ids_strictly_increasing 0
             [[("motion:1", motion "B")]; [("motion:1", JNull)]; []] []
             (built_cache false))).
    reflexivity.
  - exact (proj2 (change_ids_strictly_increasing 0 [] _ (fresh_cache true))
             _ _ Hrun).
Defined.

(** * Further properties of the cache *)

(** ** Building the cache *)

(** releasing a lock that was free before it was taken restores the state *)
Lemma release_holding lock_name self :
  lock_name ∉ Provider.locks (cache_provider self) ->
  with_provider (Provider.del_lock lock_name) (holding lock_name self) = self.
Proof.
  intros Hfree. destruct self as [u [st idx c ls] cp t e]. simpl in *.
  unfold with_provider, Provider.del_lock, Provider.with_locks. simpl.
  do 2 f_equal. apply set_eq. intros x.
  rewrite elem_of_difference, elem_of_union, elem_of_singleton.
  split; [by intros [[->|?] ?]|]. intros Hx. split; [by right | by intros ->].
Qed.



Lemma ensure_cache_build fuel reset self :
  reset || negb (Provider.data_exists None (cache_provider self)) = true ->
  "ensure_cache" ∉ Provider.locks (cache_provider self) ->
  ensure_cache fuel reset self =
  (try_finally build_full_cache
     (provider_do (Provider.del_lock "ensure_cache"));;
   set_ensured true) (holding "ensure_cache" self).
Proof.
  intros Hb Hfree. unfold ensure_cache. mstep. rewrite Hb. cbv zeta. mstep.
  by rewrite set_lock_free.
Qed.

Lemma ensure_cache_waits fuel reset self :
  reset || negb (Provider.data_exists None (cache_provider self)) = true ->
  "ensure_cache" ∈ Provider.locks (cache_provider self) ->
  ensure_cache fuel reset self = (Diverge, self).
Proof.
  intros Hb Hheld. unfold ensure_cache. mstep. rewrite Hb. cbv zeta. mstep.
  rewrite set_lock_held by done. simpl.
  replace (with_provider _ self) with self by (by destruct self as [? [] ? ? ?]).
  rewrite bind_unfold. by rewrite wait_for_lock_held.
Qed.

Lemma build_full_cache_unfold self :
  build_full_cache self =
  match build_mapping self with
  | Ok mapping =>
      (Ok tt, with_provider (Provider.reset_full_cache mapping) self)
  | Raise e => (Raise e, self)
  | Diverge => (Diverge, self)
  end.
Proof.
  unfold build_full_cache. mstep. rewrite bind_lift. unfold id.
  by destruct (build_mapping self).
Qed.

(** what a build that returned has done *)
Lemma ensure_cache_built fuel reset self self' :
  reset || negb (Provider.data_exists None (cache_provider self)) = true ->
  ensure_cache fuel reset self = (Ok tt, self') ->
  ∃ mapping,
    build_mapping self = Ok mapping ∧
    ("ensure_cache" ∉ Provider.locks (cache_provider self)) ∧
    self' = state_after (set_ensured true)
              (with_provider (Provider.reset_full_cache mapping) self).
Proof.
  intros Hb Hrun.
  destruct (decide ("ensure_cache" ∈ Provider.locks (cache_provider self)))
    as [Hheld|Hfree].
  { pose proof (ensure_cache_waits fuel reset self Hb Hheld) as Hw. congruence. }
  rewrite ensure_cache_build in Hrun by done.
  revert Hrun. rewrite bind_unfold. unfold try_finally.
  rewrite build_full_cache_unfold.
  change (build_mapping (holding "ensure_cache" self)) with (build_mapping self).
  destruct (build_mapping self) as [mapping| |]; try done.
  unfold provider_do. cbn beta iota. intros [= <-].
  exists mapping. split; [done|]. split; [done|].
  destruct self as [u [st idx c ls] cp t e]. simpl in *.
  unfold with_provider, Provider.del_lock, Provider.with_locks,
    Provider.reset_full_cache. simpl.
  unfold state_after. simpl. do 2 f_equal. apply set_eq. intros x.
  rewrite elem_of_difference, elem_of_union, elem_of_singleton.
  split; [by intros [[->|?] ?]|]. intros Hx. split; [by right | by intros ->].
Qed.





(** ** Dictionaries built by assignments *)
Section dict_more.
Context {K V : Type} `{EqDecision K}.
Implicit Types (k : K) (v : V) (d src : list (K * V)).

Lemma update_singleton k v d : PyDict.update [(k, v)] d = PyDict.set k v d.
Proof. reflexivity. Qed.

Lemma get_set k k' v d :
  PyDict.get k' (PyDict.set k v d) = if decide (k' = k) then Some v else PyDict.get k' d.
Proof.
  case_decide as Hk.
  - subst. apply PyDictFacts.get_set_eq.
  - apply PyDictFacts.get_set_ne. congruence.
Qed.

Lemma elem_get_NoDup k v d :
  NoDup (PyDict.keys d) -> (k, v) ∈ d -> PyDict.get k d = Some v.
Proof.
  unfold PyDict.keys. induction d as [|[k0 v0] d IH]; simpl.
  - by intros _ Hin%elem_of_nil.
  - intros [Hnotin Hnd]%NoDup_cons [Heq|Hin]%elem_of_cons.
    + simplify_eq. by rewrite decide_True.
    + rewrite decide_False; [by apply IH|].
      intros ->. apply Hnotin. apply list_elem_of_fmap. by exists (k0, v).
Qed.

Lemma get_del_all ks k d :
  PyDict.get k (PyDict.del_all ks d)
  = if decide (k ∈ ks) then None else PyDict.get k d.
Proof.
  case_decide.
  - by apply PyDictFacts.get_del_all_elem.
  - by apply PyDictFacts.get_del_all_notin.
Qed.
End dict_more.

(** ** The mapping of a build *)

(** the loop of [ensure_cache] over the elements of one collection *)
Lemma build_collection_spec collection_string elements : ∀ mapping mapping',
  for_each_pure elements (fun element mapping =>
    id ← element_id_of element;
    Ok (PyDict.update
          [(get_element_id collection_string id, json_dumps element)]
          mapping)) mapping = Ok mapping' ->
  (∀ k v, PyDict.get k mapping' = Some v ->
     PyDict.get k mapping = Some v
     ∨ ∃ element id, element ∈ elements ∧ element_id_of element = Ok id ∧
         k = get_element_id collection_string id ∧ v = json_dumps element)
  ∧ (∀ k, is_Some (PyDict.get k mapping) -> is_Some (PyDict.get k mapping'))
  ∧ (∀ element id, element ∈ elements -> element_id_of element = Ok id ->
       ∃ element', element' ∈ elements ∧ element_id_of element' = Ok id ∧
         PyDict.get (get_element_id collection_string id) mapping'
         = Some (json_dumps element'))
  ∧ (∀ k, (∀ id, k ≠ get_element_id collection_string id) ->
       PyDict.get k mapping' = PyDict.get k mapping).
Proof.
  induction elements as [|element0 elements IH]; intros mapping mapping'; simpl.
  - intros [= <-]. split; [auto|]. split; [auto|]. split; [|auto].
    by intros element id Hin%elem_of_nil.
  - destruct (element_id_of element0) as [id0| |] eqn:Hid0; simpl; try done.
    intros Hrest. destruct (IH _ _ Hrest) as (Hfrom & Hkept & Hall & Hother).
    split; [|split; [|split]].
    + intros k v [Hget|(e & id & He & Hid & -> & ->)]%Hfrom.
      * rewrite get_set in Hget. case_decide as Hk.
        -- injection Hget as <-. right. exists element0, id0.
           split; [left|done].
        -- by left.
      * right. exists e, id. split; [by right|done].
    + intros k Hk. apply Hkept. rewrite get_set. case_decide; [by eexists|done].
    + intros e id [->|He]%elem_of_cons Hid.
      * assert (id = id0) as -> by congruence.
        destruct (Hkept (get_element_id collection_string id0)) as [v Hv].
        { rewrite get_set, decide_True by done. by eexists. }
        destruct (Hfrom _ _ Hv) as [Hget|(e' & id' & He' & Hid' & Hk & ->)].
        -- rewrite get_set, decide_True in Hget by done.
           injection Hget as <-. exists element0. split; [left|done].
        -- apply get_element_id_inj in Hk as [_ <-].
           exists e'. split; [by right|done].
      * destruct (Hall e id He Hid) as (e' & He' & Hid' & Hget).
        exists e'. split; [by right|done].
    + intros k Hk. rewrite Hother by done. rewrite get_set.
      rewrite decide_False; [done|]. apply Hk.
Qed.

Lemma cachables_NoDup self : NoDup (PyDict.keys (cachables self)).
Proof.
  unfold cachables.
  assert (Hgen : ∀ l (acc : list (string * Cachable)),
    NoDup (PyDict.keys acc) ->
    NoDup (PyDict.keys (fold_left (fun acc cachable =>
      PyDict.set (get_collection_string cachable) cachable acc) l acc))).
  { induction l as [|cb l IH]; intros acc Hacc; simpl; [done|].
    by apply IH, keys_set_NoDup. }
  apply Hgen. apply NoDup_nil_2.
Qed.

(** the loop of [ensure_cache] over the collections *)
Lemma build_collections_spec (cs : list (string * Cachable)) :
  NoDup (PyDict.keys cs) -> ∀ mapping mapping',
  for_each_pure cs (fun '(collection_string, cachable) mapping =>
    elements ← get_elements cachable;
    for_each_pure elements (fun element mapping =>
      id ← element_id_of element;
      Ok (PyDict.update
            [(get_element_id collection_string id, json_dumps element)]
            mapping)) mapping) mapping = Ok mapping' ->
  (∀ k v, PyDict.get k mapping' = Some v ->
     PyDict.get k mapping = Some v
     ∨ ∃ collection_string cachable elements element id,
         (collection_string, cachable) ∈ cs ∧
         get_elements cachable = Ok elements ∧
         element ∈ elements ∧ element_id_of element = Ok id ∧
         k = get_element_id collection_string id ∧ v = json_dumps element)
  ∧ (∀ collection_string cachable elements element id,
       (collection_string, cachable) ∈ cs ->
       get_elements cachable = Ok elements ->
       element ∈ elements -> element_id_of element = Ok id ->
       ∃ element', element' ∈ elements ∧ element_id_of element' = Ok id ∧
         PyDict.get (get_element_id collection_string id) mapping'
         = Some (json_dumps element'))
  ∧ (∀ k, (∀ collection_string id, collection_string ∈ PyDict.keys cs ->
             k ≠ get_element_id collection_string id) ->
       PyDict.get k mapping' = PyDict.get k mapping).
Proof.
  induction cs as [|[c0 cb0] cs IH]; intros Hnd mapping mapping'; simpl.
  - intros [= <-]. split; [auto|]. split; [|auto].
    by intros c cb els e id Hin%elem_of_nil.
  - change (PyDict.keys ((c0, cb0) :: cs)) with (c0 :: PyDict.keys cs) in Hnd.
    apply NoDup_cons in Hnd as [Hnotin Hnd].
    destruct (get_elements cb0) as [elements0| |] eqn:Hels; simpl; try done.
    destruct (for_each_pure elements0 _ mapping) as [m1| |] eqn:Hinner;
      simpl; try done.
    intros Hrest.
    destruct (build_collection_spec _ _ _ _ Hinner)
      as (Hfrom0 & _ & Hall0 & Hother0).
    destruct (IH Hnd _ _ Hrest) as (Hfrom & Hall & Hother).
    split; [|split].
    + intros k v [Hget|(c & cb & els & e & id & Hc & Hg & He & Hid & -> & ->)]%Hfrom.
      * destruct (Hfrom0 _ _ Hget) as [?|(e & id & He & Hid & -> & ->)];
          [by left|].
        right. exists c0, cb0, elements0, e, id. split; [left|done].
      * right. exists c, cb, els, e, id. split; [by right|done].
    + intros c cb els e id [Heq|Hc]%elem_of_cons Hg He Hid.
      * simplify_eq. assert (els = elements0) as -> by congruence.
        destruct (Hall0 e id He Hid) as (e' & He' & Hid' & Hget).
        exists e'. do 2 (split; [done|]).
        rewrite Hother; [done|].
        intros c id' Hc Heq. apply get_element_id_inj in Heq as [-> _]. done.
      * by apply (Hall c cb els e id).
    + intros k Hk. rewrite Hother.
      * apply Hother0. intros id. apply Hk. left.
      * intros c id Hc. apply Hk. by right.
Qed.

Lemma get_element_full_data_unfold collection_string id self :
  get_element_full_data collection_string id self =
  (Ok match PyDict.get (get_element_id collection_string id)
              (Provider.store None (cache_provider self)) with
      | Some element => json_loads element
      | None => JNull
      end, self).
Proof.
  unfold get_element_full_data. mstep. unfold Provider.get_element.
  by destruct (PyDict.get _ _).
Qed.

(** X3 (build, then read).  After a build by [ensure_cache],
    [get_element_full_data] returns, for every id of an element that a
    collection enumerated, an enumerated element of that collection with this
    id; and whatever it returns other than [None] is an element that the
    collection of that name enumerated, with the id asked for. *)
Theorem ensure_cache_build_read fuel reset self self' :
  reset || negb (Provider.data_exists None (cache_provider self)) = true ->
  ensure_cache fuel reset self = (Ok tt, self') ->
  (∀ collection_string cachable elements element id,
     PyDict.get collection_string (cachables self) = Some cachable ->
     get_elements cachable = Ok elements ->
     element ∈ elements -> element_id_of element = Ok id ->
     ∃ element', element' ∈ elements ∧ element_id_of element' = Ok id ∧
       get_element_full_data collection_string id self' = (Ok element', self'))
  ∧ (∀ collection_string id body,
       get_element_full_data collection_string id self' = (Ok body, self') ->
       body ≠ JNull ->
       ∃ cachable elements,
         PyDict.get collection_string (cachables self) = Some cachable ∧
         get_elements cachable = Ok elements ∧
         body ∈ elements ∧ element_id_of body = Ok id).
Proof.
  intros Hb Hrun.
  apply ensure_cache_built in Hrun as (mapping & Hmap & _ & ->); [|done].
  assert (Hstore : Provider.store None
      (cache_provider (state_after (set_ensured true)
         (with_provider (Provider.reset_full_cache mapping) self))) = mapping).
  { unfold Provider.store. simpl. by rewrite lookup_insert_eq. }
  unfold build_mapping in Hmap.
  apply build_collections_spec in Hmap as (Hfrom & Hall & _);
    [|apply cachables_NoDup].
  split.
  - intros c cb els e id Hc Hg He Hid.
    apply get_Some_elem in Hc.
    destruct (Hall c cb els e id Hc Hg He Hid) as (e' & He' & Hid' & Hget).
    exists e'. do 2 (split; [done|]).
    by rewrite get_element_full_data_unfold, Hstore, Hget.
  - intros c id body. rewrite get_element_full_data_unfold, Hstore.
    destruct (PyDict.get _ mapping) as [v|] eqn:Hget; [|by intros [= <-]].
    intros [= <-] _.
    destruct (Hfrom _ _ Hget)
      as [Hnil|(c' & cb & els & e & id' & Hc & Hg & He & Hid & Hk & ->)];
      [done|].
    apply get_element_id_inj in Hk as [-> ->].
    exists cb, els. split; [|done].
    apply elem_get_NoDup; [apply cachables_NoDup|done].
Qed.

Lemma ensure_cache_build_read_witness :
  false || negb (Provider.data_exists None (cache_provider (fresh_cache false)))
  = true
  ∧ ensure_cache 0 false (fresh_cache false) = (Ok tt, built_cache false)
  ∧ PyDict.get "motion" (cachables (fresh_cache false))
    = Some (motions see_all)
  ∧ (∃ element',
       element' ∈ [motion "A"] ∧ element_id_of element' = Ok 1 ∧
       get_element_full_data "motion" 1 (built_cache false)
       = (Ok element', built_cache false))
  ∧ get_element_full_data "motion" 2 (built_cache false)
    = (Ok JNull, built_cache false).
Proof.
  assert (Hb : false || negb (Provider.data_exists None
                                (cache_provider (fresh_cache false))) = true)
    by reflexivity.
  assert (Hrun : ensure_cache 0 false (fresh_cache false)
                 = (Ok tt, built_cache false)) by (vm_compute; reflexivity).
  destruct (ensure_cache_build_read 0 false _ _ Hb Hrun) as [Hread _].
  split; [exact Hb|]. split; [exact Hrun|]. split; [reflexivity|]. split.
  - apply (Hread "motion" (motions see_all) [motion "A"] (motion "A") 1);
      [reflexivity | reflexivity | apply list_elem_of_here | reflexivity].
  - vm_compute. reflexivity.
Defined.

(** ** The state after a write *)

Lemma store_add_elements elements p :
  Provider.store None (Provider.add_elements elements p)
  = PyDict.update elements (Provider.store None p).
Proof. unfold Provider.store at 1. simpl. by rewrite lookup_insert_eq. Qed.

(** what [change_elements] does to the state of an ensured cache *)
Lemma change_elements_Ok elements self :
  ensured self = true ->
  ∃ self',
    change_elements elements self = (Ok (next_change_id self), self') ∧
    Provider.store None (cache_provider self')
    = PyDict.del_all (partition_elements elements).2
        (PyDict.update (partition_elements elements).1
           (Provider.store None (cache_provider self))) ∧
    (∀ user_id, Provider.stores (cache_provider self') !! Some user_id
                = Provider.stores (cache_provider self) !! Some user_id) ∧
    Provider.change_index (cache_provider self')
    = (Provider.change_index (cache_provider self)
       ++ map (fun id => (next_change_id self, id)) (PyDict.keys elements))%list ∧
    Provider.counter (cache_provider self') = Some (next_change_id self) ∧
    Provider.locks (cache_provider self') = Provider.locks (cache_provider self) ∧
    ensured self' = true ∧
    start_time self' = start_time self ∧
    use_restricted_data_cache self' = use_restricted_data_cache self ∧
    cachable_provider self' = cachable_provider self.
Proof.
  intros H. unfold change_elements, next_change_id.
  mstep. rewrite H. simpl negb. cbv iota.
  destruct (partition_elements elements) as [ch de]. simpl.
  destruct (bool_decide (ch ≠ [])) eqn:Hch, (bool_decide (de ≠ [])) eqn:Hde;
    mstep; unfold provider_call; simpl.
  all: try (apply bool_decide_eq_false in Hch; apply dec_stable in Hch as ->).
  all: try (apply bool_decide_eq_false in Hde; apply dec_stable in Hde as ->).
  all: eexists; split; [reflexivity|]; simpl.
  all: split; [|split; [|by auto]].
  - change (Provider.store None ?p) with
      (Provider.store None (Provider.del_elements de None
         (Provider.add_elements ch (cache_provider self)))) at 1.
    by rewrite store_del_elements, store_add_elements.
  - intros user_id. unfold Provider.store.
    rewrite lookup_insert_eq. simpl.
    rewrite !lookup_insert_ne by done. done.
  - change (Provider.store None ?p) with
      (Provider.store None (Provider.add_elements ch (cache_provider self))) at 1.
    by rewrite store_add_elements.
  - intros user_id. by rewrite lookup_insert_ne.
  - change (Provider.store None ?p) with
      (Provider.store None (Provider.del_elements de None (cache_provider self)))
      at 1.
    by rewrite store_del_elements.
  - intros user_id. destruct (Provider.stores (cache_provider self) !! None);
      [by rewrite lookup_insert_ne|done].
  - done.
  - done.
Qed.

(** the two lists of a batch whose keys are distinct *)
Lemma partition_elements_get elements k :
  NoDup (PyDict.keys elements) ->
  NoDup (PyDict.keys (partition_elements elements).1)
  ∧ PyDict.get k (partition_elements elements).1
    = match PyDict.get k elements with
      | Some data => if truthy data then Some (json_dumps data) else None
      | None => None
      end
  ∧ (k ∈ (partition_elements elements).2 <->
     ∃ data, PyDict.get k elements = Some data ∧ truthy data = false).
Proof.
  rewrite partition_elements_truthy. simpl. unfold PyDict.keys.
  induction elements as [|[k0 data0] elements IH]; simpl.
  - intros _. split; [apply NoDup_nil_2|]. split; [done|].
    split; [by intros ?%elem_of_nil | by intros (d & ? & _)].
  - intros [Hnotin Hnd]%NoDup_cons.
    destruct (IH Hnd) as (IHnd & IHget & IHdel).
    assert (Hk0 : ∀ P `{∀ x, Decision (P x)},
      k0 ∉ map fst (filter P elements)).
    { intros P ? Hin. apply Hnotin.
      apply list_elem_of_fmap in Hin as (x & -> & Hx).
      apply list_elem_of_filter in Hx as [_ Hx].
      apply list_elem_of_fmap. by exists x. }
    rewrite !filter_cons. simpl.
    destruct (truthy data0) eqn:Ht.
    + rewrite (decide_True (P := true = true)),
        (decide_False (P := true = false)) by done.
      simpl. split; [|split].
      * apply NoDup_cons. split; [|done].
        rewrite map_map. simpl. apply (Hk0 _ _).
      * case_decide; [by rewrite Ht|]. exact IHget.
      * rewrite IHdel. case_decide as Hk; [|done]. subst k0.
        split; [|by intros (d & [= <-] & ?); congruence].
        intros (d & Hget & _). apply get_Some_keys in Hget. done.
    + rewrite (decide_False (P := false = true)),
        (decide_True (P := false = false)) by done.
      simpl. split; [done|]. split.
      * case_decide as Hk; [|done]. subst k0. rewrite Ht.
        destruct (PyDict.get k _) as [v|] eqn:Hget; [|done].
        apply get_Some_keys in Hget. exfalso.
        unfold PyDict.keys in Hget. rewrite map_map in Hget. simpl in Hget.
        by apply (Hk0 _ _) in Hget.
      * rewrite elem_of_cons, IHdel. case_decide as Hk.
        -- subst k0. split; [by eauto|by left].
        -- split; [by intros [?|?] | by right].
Qed.

(** X4 (write, then read).  After [change_elements] on a batch with distinct
    keys, [get_element_full_data] returns the body of the batch for an
    element whose key is in the batch with a true body, [None] for one whose
    key is in the batch with a false body, and what it returned before for
    every other element.  The write leaves the stores of all users as they
    were. *)
Theorem change_elements_read_back elements self change_id self' :
  NoDup (PyDict.keys elements) ->
  change_elements elements self = (Ok change_id, self') ->
  (∀ collection_string id,
     get_element_full_data collection_string id self' =
     (match PyDict.get (get_element_id collection_string id) elements with
      | Some data => Ok (if truthy data then data else JNull)
      | None => (get_element_full_data collection_string id self).1
      end, self'))
  ∧ (∀ user_id, Provider.stores (cache_provider self') !! Some user_id
                = Provider.stores (cache_provider self) !! Some user_id).
Proof.
  intros Hnd Hrun.
  destruct (ensured self) eqn:Hens.
  2: { revert Hrun. unfold change_elements. mstep. by rewrite Hens. }
  destruct (change_elements_Ok elements self Hens)
    as (s & Hrun' & Hstore & Husers & _).
  rewrite Hrun' in Hrun. injection Hrun as _ <-.
  split; [|done]. intros c id.
  rewrite !get_element_full_data_unfold, Hstore. simpl.
  destruct (partition_elements_get elements (get_element_id c id) Hnd)
    as (Hnd' & Hget & Hdel).
  rewrite get_del_all, get_update, Hget by done.
  destruct (PyDict.get _ elements) as [data|] eqn:Hk.
  - destruct (truthy data) eqn:Ht.
    + rewrite decide_False; [done|].
      intros (d & [= <-] & ?)%Hdel. congruence.
    + rewrite decide_True; [done|]. apply Hdel. eauto.
  - rewrite decide_False; [done|]. by intros (d & [=] & _)%Hdel.
Qed.

Lemma change_elements_read_back_witness :
  NoDup (PyDict.keys [("motion:1", JNull); ("motion:2", motion2 "B")])
  ∧ change_elements [("motion:1", JNull); ("motion:2", motion2 "B")]
      (built_cache true)
    = (Ok 1001,
       state_after
         (change_elements [("motion:1", JNull); ("motion:2", motion2 "B")])
         (built_cache true))
  ∧ get_element_full_data "motion" 1 (built_cache true)
    = (Ok (motion "A"), built_cache true)
  ∧ get_element_full_data "motion" 1
      (state_after
         (change_elements [("motion:1", JNull); ("motion:2", motion2 "B")])
         (built_cache true))
    = (Ok JNull,
       state_after
         (change_elements [("motion:1", JNull); ("motion:2", motion2 "B")])
         (built_cache true))
  ∧ get_element_full_data "motion" 2
      (state_after
         (change_elements [("motion:1", JNull); ("motion:2", motion2 "B")])
         (built_cache true))
    = (Ok (motion2 "B"),
       state_after
         (change_elements [("motion:1", JNull); ("motion:2", motion2 "B")])
         (built_cache true)).
Proof.
  assert (Hnd : NoDup (PyDict.keys
    [("motion:1", JNull); ("motion:2", motion2 "B")])) by compute_done.
  assert (Hrun :
    change_elements [("motion:1", JNull); ("motion:2", motion2 "B")]
      (built_cache true)
    = (Ok 1001,
       state_after
         (change_elements [("motion:1", JNull); ("motion:2", motion2 "B")])
         (built_cache true))) by (vm_compute; reflexivity).
  destruct (change_elements_read_back _ _ _ _ Hnd Hrun) as [Hread _].
  split; [exact Hnd|]. split; [exact Hrun|].
  split; [vm_compute; reflexivity|]. split.
  - exact (Hread "motion" 1).
  - exact (Hread "motion" 2).
Defined.

(** ** Reading one collection *)

Lemma prefix_refl_app p t : String.prefix p (p +:+ t) = true.
Proof.
  induction p as [|a p IH]; simpl; [by destruct t|].
  by destruct (Ascii.ascii_dec a a).
Qed.

Lemma app_assoc_string (s t u : string) : (s +:+ t) +:+ u = s +:+ t +:+ u.
Proof.
  induction s as [|a s IH]; [done|].
  change (String a ((s +:+ t) +:+ u) = String a (s +:+ t +:+ u)). by f_equal.
Qed.

(** the key of an element starts with its collection and the separator *)
Lemma split_element_id_collection element_id collection_string id :
  split_element_id element_id = Ok (collection_string, id) ->
  String.prefix (collection_string +:+ ":") element_id = true.
Proof.
  unfold split_element_id.
  destruct (rsplit_colon element_id) as [[l r]|] eqn:Hs; [|done].
  apply rsplit_colon_Some in Hs as ->.
  destruct (Z_of_string r); simpl; try done. intros [= <- _].
  rewrite <- app_assoc_string. apply prefix_refl_app.
Qed.

(** the loop of [get_collection_full_data] over the entries of one
    collection yields what the loop of [get_all_full_data_ordered] files
    under that collection *)
Lemma collection_of_ordered collection_string
    (full_data : list (string * serialized)) :
  ∀ out,
  for_each_pure full_data (fun '(element_id, data) out =>
    '(collection_string, id) ← split_element_id element_id;
    Ok (PyDict.set collection_string
          (PyDict.set id (json_loads data)
             (default [] (PyDict.get collection_string out))) out)) []
  = Ok out ->
  for_each_pure
    (filter (fun entry : string * serialized =>
       String.prefix (collection_string +:+ ":") entry.1 = true) full_data)
    (fun '(element_id, data) out =>
       '(returned_collection_string, id) ← split_element_id element_id;
       Ok (if String.eqb returned_collection_string collection_string
           then PyDict.set id (json_loads data) out
           else out)) []
  = Ok (default [] (PyDict.get collection_string out) : list (Z * json)).
Proof.
  induction full_data as [|[k d] full_data IH] using rev_ind; intros out.
  - by intros [= <-].
  - rewrite for_each_pure_app, filter_app, for_each_pure_app.
    destruct (for_each_pure full_data _ []) as [out0| |] eqn:Hout0;
      simpl; try done.
    rewrite (IH out0 eq_refl). simpl.
    destruct (split_element_id k) as [[c id]| |] eqn:Hsplit; simpl; try done.
    intros [= <-]. rewrite filter_cons, filter_nil. simpl.
    destruct (String.eqb_spec c collection_string) as [->|Hne].
    + rewrite decide_True by by eapply split_element_id_collection.
      simpl. rewrite Hsplit. simpl. rewrite String.eqb_refl.
      by rewrite PyDictFacts.get_set_eq.
    + rewrite PyDictFacts.get_set_ne by done.
      case_decide; simpl; [|done]. rewrite Hsplit. simpl.
      by rewrite (proj2 (String.eqb_neq _ _) Hne).
Qed.

(** X5 (one collection).  Whenever [get_all_full_data_ordered] returns,
    [get_collection_full_data] returns for every collection the dictionary
    that [get_all_full_data_ordered] holds under that name, and the empty
    dictionary for a name it does not hold: elements of other collections
    that the provider hands over are dropped. *)
Theorem get_collection_full_data_ordered collection_string self all_data :
  get_all_full_data_ordered self = (Ok all_data, self) ->
  get_collection_full_data collection_string self
  = (Ok (default [] (PyDict.get collection_string all_data)), self).
Proof.
  unfold get_all_full_data_ordered, get_collection_full_data. mstep.
  unfold lift, Provider.get_all_data, Provider.get_collection_data.
  intros [= Hloop]. by rewrite (collection_of_ordered _ _ _ Hloop).
Qed.

Lemma get_collection_full_data_ordered_witness :
  get_all_full_data_ordered (built_cache false)
  = (Ok [("motion", [(1, motion "A")])], built_cache false)
  ∧ get_collection_full_data "motion" (built_cache false)
    = (Ok [(1, motion "A")], built_cache false)
  ∧ get_collection_full_data "user" (built_cache false)
    = (Ok [], built_cache false).
Proof.
  assert (Hord : get_all_full_data_ordered (built_cache false)
    = (Ok [("motion", [(1, motion "A")])], built_cache false))
    by (vm_compute; reflexivity).
  split; [exact Hord|]. split.
  - exact (get_collection_full_data_ordered "motion" _ _ Hord).
  - exact (get_collection_full_data_ordered "user" _ _ Hord).
Defined.

(** ** Dictionaries filled key by key *)
Section dict_append.
Context {K V : Type} `{EqDecision K}.
Implicit Types (k : K) (v : V) (d : list (K * V)).

Lemma keys_app d1 d2 :
  PyDict.keys (d1 ++ d2) = (PyDict.keys d1 ++ PyDict.keys d2)%list.
Proof. apply map_app. Qed.

(** assigning to a new key appends it *)
Lemma set_new k v d :
  k ∉ PyDict.keys d -> PyDict.set k v d = (d ++ [(k, v)])%list.
Proof.
  unfold PyDict.keys. induction d as [|[k0 v0] d IH]; simpl; [done|].
  intros [Hne Hnotin]%not_elem_of_cons.
  rewrite decide_False by done. by rewrite IH.
Qed.

(** assigning to the last key replaces its value *)
Lemma set_last k v v' d :
  k ∉ PyDict.keys d ->
  PyDict.set k v' (d ++ [(k, v)]) = (d ++ [(k, v')])%list.
Proof.
  unfold PyDict.keys. induction d as [|[k0 v0] d IH]; simpl.
  - intros _. by rewrite decide_True.
  - intros [Hne Hnotin]%not_elem_of_cons.
    rewrite decide_False by done. by rewrite IH.
Qed.

Lemma get_last k v d :
  k ∉ PyDict.keys d -> PyDict.get k (d ++ [(k, v)]) = Some v.
Proof.
  unfold PyDict.keys. induction d as [|[k0 v0] d IH]; simpl.
  - intros _. by rewrite decide_True.
  - intros [Hne Hnotin]%not_elem_of_cons.
    rewrite decide_False by done. by apply IH.
Qed.

Lemma set_nonempty k v d : PyDict.set k v d ≠ [].
Proof. destruct d as [|[k0 v0] d]; simpl; [done|]. by case_decide. Qed.
End dict_append.

Lemma append_to_new {A} (c : string) (v : A) acc :
  c ∉ PyDict.keys acc -> PyDict.append_to c v acc = (acc ++ [(c, [v])])%list.
Proof.
  intros Hc. unfold PyDict.append_to.
  rewrite (proj2 (PyDictFacts.get_None_keys c acc)) by done. simpl.
  by apply set_new.
Qed.

Lemma append_to_last {A} (c : string) (v : A) l acc :
  c ∉ PyDict.keys acc ->
  PyDict.append_to c v (acc ++ [(c, l)])
  = (acc ++ [(c, (l ++ [v])%list)])%list.
Proof.
  intros Hc. unfold PyDict.append_to. rewrite get_last by done. simpl.
  by apply set_last.
Qed.

(** appending the values of one collection, one after the other *)
Lemma append_values {A} (c : string) (vs : list A) : ∀ l acc,
  c ∉ PyDict.keys acc ->
  fold_left (fun out data => PyDict.append_to c data out) vs
    (acc ++ [(c, l)])%list
  = (acc ++ [(c, (l ++ vs)%list)])%list.
Proof.
  induction vs as [|v vs IH]; intros l acc Hc; simpl.
  - by rewrite app_nil_r.
  - rewrite append_to_last by done. rewrite IH by done.
    by rewrite <- app_assoc.
Qed.

(** the double loop of [get_all_full_data] over a dictionary without empty
    collections *)
Lemma flatten_ordered {A} (all_data : list (string * list (Z * A))) :
  NoDup (PyDict.keys all_data) ->
  Forall (fun entry => entry.2 ≠ []) all_data ->
  ∀ (acc : list (string * list A)),
    (∀ c, c ∈ PyDict.keys all_data -> c ∉ PyDict.keys acc) ->
    fold_left (fun out '(collection_string, collection_data) =>
        fold_left (fun out data => PyDict.append_to collection_string data out)
          (PyDict.values collection_data) out) all_data acc
    = (acc ++ map (fun entry => (entry.1, PyDict.values entry.2)) all_data)%list.
Proof.
  induction all_data as [|[c cd] all_data IH]; intros Hnd Hne acc Hacc; simpl.
  - by rewrite app_nil_r.
  - change (PyDict.keys ((c, cd) :: all_data))
      with (c :: PyDict.keys all_data) in *.
    apply NoDup_cons in Hnd as [Hc Hnd].
    apply Forall_cons in Hne as [Hcd Hne]. simpl in Hcd.
    destruct cd as [|[i v] cd]; [done|]. simpl.
    assert (Hfresh : c ∉ PyDict.keys acc) by (apply Hacc; left).
    rewrite append_to_new by done. rewrite append_values by done.
    rewrite IH; [by rewrite <- app_assoc|done|done|].
    intros c' Hc'. rewrite keys_app. simpl.
    intros [Hin|Hin%list_elem_of_singleton]%elem_of_app.
    + revert Hin. apply Hacc. by right.
    + by subst.
Qed.

(** what [get_all_full_data_ordered] returns has no collection twice and no
    empty collection *)
Lemma get_all_full_data_ordered_shape self all_data self' :
  get_all_full_data_ordered self = (Ok all_data, self') ->
  NoDup (PyDict.keys all_data) ∧ Forall (fun entry => entry.2 ≠ []) all_data.
Proof.
  unfold get_all_full_data_ordered. mstep. unfold lift. intros [= Hloop _].
  refine (for_each_pure_inv (fun out =>
    NoDup (PyDict.keys out) ∧ Forall (fun entry => entry.2 ≠ []) out)
    _ _ _ _ _ _ Hloop).
  - split; [apply NoDup_nil_2 | apply Forall_nil_2].
  - intros [element_id data] out out' _ [Hnd Hne].
    destruct (split_element_id element_id) as [[c id]| |]; simpl; try done.
    intros [= <-]. split; [by apply keys_set_NoDup|].
    apply Forall_forall. intros [c' d'] Hin.
    apply elem_of_set in Hin as [[-> ->]|Hin].
    + apply set_nonempty.
    + rewrite Forall_forall in Hne. by apply (Hne (c', d')).
Qed.

(** X6 (grouping).  Whenever [get_all_full_data_ordered] returns,
    [get_all_full_data] returns the same collections in the same order, each
    with the bodies of its dictionary in their order; no collection occurs
    twice and none is empty. *)
Theorem get_all_full_data_by_collection self all_data :
  get_all_full_data_ordered self = (Ok all_data, self) ->
  get_all_full_data self
  = (Ok (map (fun entry => (entry.1, PyDict.values entry.2)) all_data), self)
  ∧ NoDup (PyDict.keys all_data)
  ∧ Forall (fun entry => entry.2 ≠ []) all_data.
Proof.
  intros Hord.
  destruct (get_all_full_data_ordered_shape _ _ _ Hord) as [Hnd Hne].
  split; [|done].
  unfold get_all_full_data. rewrite (bind_Ok _ _ _ _ _ Hord).
  unfold mret, M_ret. do 2 f_equal.
  rewrite flatten_ordered; [done|done|done|].
  by intros c _ Hc%elem_of_nil.
Qed.

Lemma get_all_full_data_by_collection_witness :
  get_all_full_data_ordered (built_cache false)
  = (Ok [("motion", [(1, motion "A")])], built_cache false)
  ∧ get_all_full_data (built_cache false)
    = (Ok [("motion", [motion "A"])], built_cache false).
Proof.
  assert (Hord : get_all_full_data_ordered (built_cache false)
    = (Ok [("motion", [(1, motion "A")])], built_cache false))
    by (vm_compute; reflexivity).
  split; [exact Hord|].
  exact (proj1 (get_all_full_data_by_collection _ _ Hord)).
Defined.

(** ** Restricted reads without the restricted-data cache *)

(** what [get_all_full_data] returns *)
Lemma get_all_full_data_Ok self all_data self' :
  get_all_full_data self = (Ok all_data, self') ->
  self' = self ∧
  ∃ ordered,
    get_all_full_data_ordered self = (Ok ordered, self) ∧
    all_data = map (fun entry => (entry.1, PyDict.values entry.2)) ordered ∧
    NoDup (PyDict.keys all_data) ∧
    Forall (fun entry => entry.2 ≠ []) all_data.
Proof.
  intros Hrun. pose proof (get_all_full_data_state _ _ _ Hrun) as ->.
  split; [done|]. revert Hrun. unfold get_all_full_data.
  rewrite bind_unfold.
  destruct (get_all_full_data_ordered self) as [[ordered| |] s] eqn:Hord;
    try done.
  apply get_all_full_data_ordered_state in Hord as Hs. subst s.
  destruct (get_all_full_data_ordered_shape _ _ _ Hord) as [Hnd Hne].
  unfold mret, M_ret. intros [= <-]. exists ordered. split; [done|].
  rewrite flatten_ordered; [|done|done|by intros c _ Hc%elem_of_nil].
  simpl. split; [done|]. split.
  - unfold PyDict.keys. rewrite map_map. simpl. exact Hnd.
  - apply Forall_fmap. eapply Forall_impl; [exact Hne|].
    intros [c d] Hd. simpl in *. by destruct d.
Qed.

(** the loop of [get_all_restricted_data] over the collections of the full
    data *)
Lemma restrict_all_spec self user_id (all_data : list (string * list json)) :
  NoDup (PyDict.keys all_data) ->
  ∀ acc result,
    (∀ c, c ∈ PyDict.keys all_data -> c ∉ PyDict.keys acc) ->
    for_each_pure all_data
      (fun '(collection_string, full_data) all_restricted_data =>
         elements ← restrict self user_id collection_string full_data;
         Ok (PyDict.set collection_string elements all_restricted_data)) acc
    = Ok result <->
    ∃ restricted,
      result = (acc ++ restricted)%list ∧
      Forall2 (fun full restricted =>
        restricted.1 = full.1 ∧
        restrict self user_id full.1 full.2 = Ok restricted.2)
        all_data restricted.
Proof.
  induction all_data as [|[c fd] all_data IH]; intros Hnd acc result Hacc; simpl.
  - split.
    + intros [= <-]. exists []. by rewrite app_nil_r.
    + intros (ys & -> & Hys). apply Forall2_nil_inv_l in Hys as ->.
      by rewrite app_nil_r.
  - change (PyDict.keys ((c, fd) :: all_data))
      with (c :: PyDict.keys all_data) in *.
    apply NoDup_cons in Hnd as [Hc Hnd].
    assert (Hfresh : c ∉ PyDict.keys acc) by (apply Hacc; left).
    assert (Hacc' : ∀ els c', c' ∈ PyDict.keys all_data ->
      c' ∉ PyDict.keys (acc ++ [(c, els)])).
    { intros els c' Hc'. rewrite keys_app. simpl.
      intros [Hin|Hin%list_elem_of_singleton]%elem_of_app.
      - revert Hin. apply Hacc. by right.
      - by subst. }
    split.
    + destruct (restrict self user_id c fd) as [els| |] eqn:Hr; simpl; try done.
      rewrite set_new by done.
      intros (ys & -> & Hys)%IH; [|done|by apply Hacc'].
      exists ((c, els) :: ys). rewrite <- app_assoc. split; [done|].
      by apply Forall2_cons.
    + intros (ys & -> & Hys).
      apply Forall2_cons_inv_l in Hys as ([c' els] & ys' & [Hc' Hr] & Hys & ->).
      simpl in *. subst c'. rewrite Hr. simpl. rewrite set_new by done.
      apply IH; [done|by apply Hacc'|].
      exists ys'. by rewrite <- app_assoc.
Qed.

(** X7 (snapshot without the restricted-data cache).  With caching disabled,
    [get_all_restricted_data] returns a result exactly when the permission
    filter of every collection of the full data returns: the collections of
    [get_all_full_data] in their order, each with what its filter lets
    through for the user, also when that is the empty list. *)
Theorem get_all_restricted_data_without_cache fuel user_id self all_data :
  use_restricted_data_cache self = false ->
  get_all_full_data self = (Ok all_data, self) ->
  ∀ result,
    get_all_restricted_data fuel user_id self = (Ok result, self) <->
    Forall2 (fun full restricted =>
      restricted.1 = full.1 ∧
      restrict self user_id full.1 full.2 = Ok restricted.2)
      all_data result.
Proof.
  intros Huse Hall result.
  destruct (get_all_full_data_Ok _ _ _ Hall) as (_ & _ & _ & _ & Hnd & _).
  unfold get_all_restricted_data. mstep. rewrite Huse. simpl.
  rewrite (bind_Ok _ _ _ _ _ Hall). mstep. unfold lift, id.
  pose proof (restrict_all_spec self user_id all_data Hnd [] result) as Hspec.
  destruct (for_each_pure all_data _ []) as [r| |] eqn:Hloop.
  - split.
    + intros [= <-]. destruct (proj1 (Hspec ltac:(by intros c _ Hc%elem_of_nil)) eq_refl)
        as (ys & -> & Hys). done.
    + intros Hys. do 2 f_equal.
      assert (Ok r = Ok result) as [= ->]; [|done].
      apply Hspec; [by intros c _ Hc%elem_of_nil|]. by exists result.
  - split; [done|]. intros Hys.
    assert (Raise e = Ok result) as [=].
    apply Hspec; [by intros c _ Hc%elem_of_nil|]. by exists result.
  - split; [done|]. intros Hys.
    assert (Diverge = Ok result) as [=].
    apply Hspec; [by intros c _ Hc%elem_of_nil|]. by exists result.
Qed.

Lemma get_all_restricted_data_without_cache_witness :
  use_restricted_data_cache retitled_cache_live = false
  ∧ get_all_full_data retitled_cache_live
    = (Ok [("motion", [motion "B"])], retitled_cache_live)
  ∧ restrict retitled_cache_live 7 "motion" [motion "B"] = Ok []
  ∧ get_all_restricted_data 0 7 retitled_cache_live
    = (Ok [("motion", [])], retitled_cache_live).
Proof.
  assert (Hall : get_all_full_data retitled_cache_live
    = (Ok [("motion", [motion "B"])], retitled_cache_live))
    by (vm_compute; reflexivity).
  assert (Hfilter : restrict retitled_cache_live 7 "motion" [motion "B"] = Ok [])
    by (vm_compute; reflexivity).
  assert (Huse : use_restricted_data_cache retitled_cache_live = false)
    by reflexivity.
  split; [exact Huse|]. split; [exact Hall|]. split; [exact Hfilter|].
  apply (get_all_restricted_data_without_cache 0 7 retitled_cache_live _
           Huse Hall).
  constructor; [split; [reflexivity|exact Hfilter]|constructor].
Defined.

Lemma keys_decode_changed raw :
  PyDict.keys (decode_changed raw) = PyDict.keys raw.
Proof.
  unfold decode_changed, PyDict.keys. rewrite map_map.
  apply map_ext. by intros [c l].
Qed.

Lemma keys_append_to_NoDup {A} (c : string) (v : A) d :
  NoDup (PyDict.keys d) -> NoDup (PyDict.keys (PyDict.append_to c v d)).
Proof. apply keys_set_NoDup. Qed.

(** the answer of [get_data_since] is a dictionary *)
Lemma get_data_since_NoDup change_id user_id max_change_id p changed deleted :
  Provider.get_data_since change_id user_id max_change_id p
  = Ok (changed, deleted) ->
  NoDup (PyDict.keys changed).
Proof.
  unfold Provider.get_data_since. intros Hloop.
  refine (for_each_pure_inv (fun acc => NoDup (PyDict.keys acc.1))
            _ _ _ _ _ _ Hloop).
  - apply NoDup_nil_2.
  - intros m [ch de] [ch' de'] _ Hnd.
    destruct (PyDict.get m _); [|by intros [= <- _]].
    destruct (split_element_id m) as [[c i]| |]; simpl; try done.
    intros [= <- _]. by apply keys_append_to_NoDup.
Qed.

(** the loop of [get_restricted_data] over the changed collections *)
Lemma restrict_delta_spec self user_id
    (changed_elements : list (string * list json)) :
  NoDup (PyDict.keys changed_elements) ->
  ∀ restricted_data deleted_elements data deleted,
    (∀ c, c ∈ PyDict.keys changed_elements ->
          c ∉ PyDict.keys restricted_data) ->
    for_each_pure changed_elements
      (fun '(collection_string, full_data) '(restricted_data, deleted_elements) =>
         elements ← restrict self user_id collection_string full_data;
         full_data_ids ← id_set full_data;
         restricted_data_ids ← id_set elements;
         let deleted_elements :=
           (deleted_elements
            ++ map (get_element_id collection_string)
                 (list_difference full_data_ids restricted_data_ids))%list in
         Ok (if bool_decide (elements ≠ [])
             then PyDict.set collection_string elements restricted_data
             else restricted_data,
             deleted_elements))
      (restricted_data, deleted_elements)
    = Ok (data, deleted) ->
    ∃ hidden,
      deleted = (deleted_elements ++ hidden)%list ∧
      (∀ k, k ∈ hidden <->
         ∃ c full_data elements id,
           (c, full_data) ∈ changed_elements ∧
           restrict self user_id c full_data = Ok elements ∧
           has_id full_data id ∧ ¬ has_id elements id ∧
           k = get_element_id c id) ∧
      (∀ c elements, (c, elements) ∈ data <->
         (c, elements) ∈ restricted_data ∨
         (elements ≠ [] ∧ ∃ full_data,
            (c, full_data) ∈ changed_elements ∧
            restrict self user_id c full_data = Ok elements)).
Proof.
  induction changed_elements as [|[c fd] changed IH];
    intros Hnd rd de data deleted Hrd; simpl.
  - intros [= <- <-]. exists []. rewrite app_nil_r. split; [done|]. split.
    + intros k. split; [by intros ?%elem_of_nil|].
      by intros (? & ? & ? & ? & ?%elem_of_nil & _).
    + intros c els. split; [by left|].
      intros [?|(_ & ? & ?%elem_of_nil & _)]; done.
  - change (PyDict.keys ((c, fd) :: changed))
      with (c :: PyDict.keys changed) in *.
    apply NoDup_cons in Hnd as [Hc Hnd].
    assert (Hfresh : c ∉ PyDict.keys rd) by (apply Hrd; left).
    destruct (restrict self user_id c fd) as [els| |] eqn:Hr; simpl; try done.
    destruct (id_set fd) as [fids| |] eqn:Hfids; simpl; try done.
    destruct (id_set els) as [rids| |] eqn:Hrids; simpl; try done.
    intros Hrest. apply IH in Hrest as (hidden & -> & Hhidden & Hdata);
      [|done|].
    2: { intros c' Hc'. case_bool_decide; [|apply Hrd; by right].
         rewrite set_new, keys_app by done. simpl.
         intros [Hin|Hin%list_elem_of_singleton]%elem_of_app.
         - revert Hin. apply Hrd. by right.
         - by subst. }
    exists (map (get_element_id c) (list_difference fids rids) ++ hidden)%list.
    split; [by rewrite <- app_assoc|]. split.
    + intros k. rewrite elem_of_app, Hhidden, list_elem_of_fmap. split.
      * intros [(id & -> & Hid)|(c' & fd' & els' & id & Hin & ?)].
        -- apply list_elem_of_difference in Hid as [Hf Hn].
           exists c, fd, els, id. split; [left|]. split; [done|].
           split; [by apply (id_set_spec _ _ Hfids)|]. split; [|done].
           by intros ?%(id_set_spec _ _ Hrids).
        -- exists c', fd', els', id. split; [by right|done].
      * intros (c' & fd' & els' & id & [Heq|Hin]%elem_of_cons & Hr' & Hf & Hn & ->).
        -- simplify_eq. assert (els' = els) as -> by congruence.
           left. exists id. split; [done|].
           apply list_elem_of_difference. split.
           ++ by apply (id_set_spec _ _ Hfids).
           ++ by intros ?%(id_set_spec _ _ Hrids).
        -- right. by exists c', fd', els', id.
    + intros c' els'. rewrite Hdata. split.
      * intros [Hin|(Hne & fd' & Hin & Hr')].
        -- case_bool_decide as Hels; [|by left].
           rewrite set_new in Hin by done.
           apply elem_of_app in Hin as [?|Hin%list_elem_of_singleton];
             [by left|].
           simplify_eq. right. split; [done|]. exists fd. split; [left|done].
        -- right. split; [done|]. exists fd'. split; [by right|done].
      * intros [Hin|(Hne & fd' & [Heq|Hin]%elem_of_cons & Hr')].
        -- left. case_bool_decide; [|done]. rewrite set_new by done.
           apply elem_of_app. by left.
        -- simplify_eq. assert (els' = els) as -> by congruence.
           left. rewrite bool_decide_eq_true_2 by done.
           rewrite set_new by done. apply elem_of_app. right. left.
        -- right. split; [done|]. by exists fd'.
Qed.

(** X8 (delta without the restricted-data cache).  With caching disabled and
    [change_id] other than 0, a [get_restricted_data] that returns has left
    the cache as it was and has filtered the delta of [get_full_data]: the
    deletion list is that of [get_full_data] followed by the ids of the
    changed elements that the filter of their collection dropped, and the
    changes hold, for each collection whose filter let something through,
    exactly what it let through; a collection with nothing left is omitted. *)
Theorem get_restricted_data_without_cache fuel user_id change_id max_change_id
    self data deleted self' :
  use_restricted_data_cache self = false -> change_id ≠ 0 ->
  get_restricted_data fuel user_id change_id max_change_id self
  = (Ok (data, deleted), self') ->
  self' = self ∧
  ∃ changed_elements deleted_elements hidden,
    get_full_data change_id max_change_id self
    = (Ok (changed_elements, deleted_elements), self) ∧
    deleted = (deleted_elements ++ hidden)%list ∧
    (∀ k, k ∈ hidden <->
       ∃ c full_data elements id,
         (c, full_data) ∈ changed_elements ∧
         restrict self user_id c full_data = Ok elements ∧
         has_id full_data id ∧ ¬ has_id elements id ∧
         k = get_element_id c id) ∧
    (∀ c elements, (c, elements) ∈ data <->
       elements ≠ [] ∧ ∃ full_data,
         (c, full_data) ∈ changed_elements ∧
         restrict self user_id c full_data = Ok elements).
Proof.
  intros Huse Hne. unfold get_restricted_data.
  apply Z.eqb_neq in Hne as Hne'. rewrite Hne'. mstep. rewrite Huse. simpl.
  rewrite bind_unfold.
  destruct (get_full_data change_id max_change_id self)
    as [[[changed deleted0]| |] s] eqn:Hfull; try done.
  apply get_full_data_Ok in Hfull as Hshape.
  destruct Hshape as (-> & [(? & _)|(_ & lowest & raw & _ & _ & Hsince & ->)]);
    [done|].
  mstep. unfold lift, id.
  destruct (for_each_pure _ _ _) as [[d de]| |] eqn:Hloop; try done.
  intros [= <- <- <-]. split; [done|].
  apply restrict_delta_spec in Hloop as (hidden & -> & Hhidden & Hdata).
  - exists (decode_changed raw), deleted0, hidden. do 3 (split; [done|]).
    intros c els. rewrite Hdata. split; [|by right].
    by intros [?%elem_of_nil|?].
  - rewrite keys_decode_changed. by eapply get_data_since_NoDup.
  - by intros c _ ?%elem_of_nil.
Qed.

Lemma get_restricted_data_without_cache_witness :
  use_restricted_data_cache retitled_cache_live = false
  ∧ 1001 ≠ 0
  ∧ get_restricted_data 0 7 1001 (-1) retitled_cache_live
    = (Ok ([], ["motion:1"]), retitled_cache_live)
  ∧ ∃ changed_elements deleted_elements hidden,
      get_full_data 1001 (-1) retitled_cache_live
      = (Ok (changed_elements, deleted_elements), retitled_cache_live) ∧
      ["motion:1"] = (deleted_elements ++ hidden)%list ∧
      (∀ k, k ∈ hidden <->
         ∃ c full_data elements id,
           (c, full_data) ∈ changed_elements ∧
           restrict retitled_cache_live 7 c full_data = Ok elements ∧
           has_id full_data id ∧ ¬ has_id elements id ∧
           k = get_element_id c id) ∧
      (∀ c elements, (c, elements) ∈ [] <->
         elements ≠ [] ∧ ∃ full_data,
           (c, full_data) ∈ changed_elements ∧
           restrict retitled_cache_live 7 c full_data = Ok elements).
Proof.
  assert (Hne : 1001 ≠ 0) by lia.
  assert (Hrun : get_restricted_data 0 7 1001 (-1) retitled_cache_live
    = (Ok ([], ["motion:1"]), retitled_cache_live))
    by (vm_compute; reflexivity).
  assert (Huse : use_restricted_data_cache retitled_cache_live = false)
    by reflexivity.
  split; [exact Huse|]. split; [exact Hne|]. split; [exact Hrun|].
  exact (proj2 (get_restricted_data_without_cache 0 7 1001 (-1)
                  retitled_cache_live _ _ _ Huse Hne Hrun)).
Defined.

Lemma get_all_restricted_data_without_cache_state fuel user_id self :
  use_restricted_data_cache self = false ->
  state_after (get_all_restricted_data fuel user_id) self = self.
Proof.
  intros Huse. unfold state_after, get_all_restricted_data. mstep.
  rewrite Huse. simpl. rewrite bind_unfold.
  destruct (get_all_full_data self) as [o s] eqn:Hall.
  apply get_all_full_data_state in Hall as ->.
  by destruct o.
Qed.

(** X9 (no state without the restricted-data cache).  With caching disabled,
    [get_all_restricted_data], [get_restricted_data] and
    [get_element_restricted_data] leave the cache as it was, whatever they
    return or raise, and [exists_restricted_data] returns [False] without
    asking the provider. *)
Theorem restricted_reads_without_cache fuel user_id change_id max_change_id
    collection_string id self :
  use_restricted_data_cache self = false ->
  state_after (get_all_restricted_data fuel user_id) self = self
  ∧ state_after (get_restricted_data fuel user_id change_id max_change_id) self
    = self
  ∧ state_after
      (get_element_restricted_data fuel user_id collection_string id) self
    = self
  ∧ exists_restricted_data user_id self = (Ok false, self).
Proof.
  intros Huse. split; [by apply get_all_restricted_data_without_cache_state|].
  split; [|split].
  - unfold state_after, get_restricted_data. destruct (change_id =? 0).
    + rewrite bind_unfold.
      pose proof (get_all_restricted_data_without_cache_state fuel user_id
                    self Huse) as Hs. unfold state_after in Hs.
      destruct (get_all_restricted_data fuel user_id self) as [o s].
      simpl in Hs. subst s. by destruct o.
    + mstep. rewrite Huse. simpl. rewrite bind_unfold.
      destruct (get_full_data change_id max_change_id self) as [o s] eqn:Hfull.
      apply get_full_data_state in Hfull as ->.
      by destruct o as [[changed deleted]| |].
  - unfold state_after, get_element_restricted_data. mstep.
    rewrite Huse. simpl. rewrite bind_unfold, get_element_full_data_unfold.
    destruct (PyDict.get _ _) as [element|]; [|done].
    destruct (json_loads element); try done; mstep; unfold lift;
      by destruct (restrict _ _ _ _).
  - unfold exists_restricted_data. mstep. by rewrite Huse.
Qed.

Lemma restricted_reads_without_cache_witness :
  use_restricted_data_cache (built_cache false) = false
  ∧ state_after (get_all_restricted_data 0 7) (built_cache false)
    = built_cache false
  ∧ state_after (get_restricted_data 0 7 5 (-1)) (built_cache false)
    = built_cache false
  ∧ state_after (get_element_restricted_data 0 7 "motion" 1) (built_cache false)
    = built_cache false
  ∧ exists_restricted_data 7 (built_cache false) = (Ok false, built_cache false).
Proof.
  split; [reflexivity|].
  exact (restricted_reads_without_cache 0 7 5 (-1) "motion" 1
           (built_cache false) eq_refl).
Defined.

(** X10 (stale restricted read).  For a [change_id] other than 0 that is
    below the low-water mark, [get_restricted_data] raises the stale-read
    error and leaves the cache as it was, with caching enabled or disabled:
    the test comes before the refresh of the user's store, also on a cache
    that is not ensured or whose refresh lock is held. *)
Theorem get_restricted_data_low_water_mark fuel user_id change_id
    max_change_id lowest self :
  get_lowest_change_id self = (Ok lowest, self) ->
  change_id ≠ 0 -> change_id < lowest ->
  get_restricted_data fuel user_id change_id max_change_id self
  = (Raise (RuntimeError (stale_read_message change_id lowest)), self).
Proof.
  intros Hlow Hne Hlt. unfold get_restricted_data.
  apply Z.eqb_neq in Hne. rewrite Hne. mstep.
  destruct (use_restricted_data_cache self); simpl.
  - rewrite (bind_Ok _ _ _ _ _ Hlow).
    by rewrite (proj2 (Z.ltb_lt _ _) Hlt).
  - rewrite bind_unfold. unfold get_full_data. rewrite Hne.
    rewrite (bind_Ok _ _ _ _ _ Hlow).
    by rewrite (proj2 (Z.ltb_lt _ _) Hlt).
Qed.

Lemma get_restricted_data_low_water_mark_witness :
  get_lowest_change_id (changed_cache true) = (Ok 1001, changed_cache true)
  ∧ 5 ≠ 0 ∧ 5 < 1001
  ∧ get_restricted_data 0 7 5 (-1) (changed_cache true)
    = (Raise (RuntimeError (stale_read_message 5 1001)), changed_cache true).
Proof.
  assert (Hlow : get_lowest_change_id (changed_cache true)
                 = (Ok 1001, changed_cache true)) by (vm_compute; reflexivity).
  assert (Hne : 5 ≠ 0) by lia.
  assert (Hlt : 5 < 1001) by lia.
  split; [exact Hlow|]. split; [exact Hne|]. split; [exact Hlt|].
  exact (get_restricted_data_low_water_mark 0 7 5 (-1) 1001 _ Hlow Hne Hlt).
Defined.

(** ** The registry of collections *)

(** X11 (registry).  The keys of [cachables] are distinct, and a collection
    name is bound to the last cachable of [cachable_provider()] with that
    name: a later cachable replaces an earlier one with the same name. *)
Theorem cachables_last_wins self collection_string :
  NoDup (PyDict.keys (cachables self))
  ∧ PyDict.get collection_string (cachables self)
    = last (filter (fun cachable =>
              get_collection_string cachable = collection_string)
            (cachable_provider self)).
Proof.
  split; [apply cachables_NoDup|]. unfold cachables.
  assert (Hgen : ∀ l (acc : list (string * Cachable)),
    PyDict.get collection_string (fold_left (fun acc cachable =>
      PyDict.set (get_collection_string cachable) cachable acc) l acc)
    = match last (filter (fun cachable =>
                get_collection_string cachable = collection_string) l) with
      | Some cachable => Some cachable
      | None => PyDict.get collection_string acc
      end).
  { induction l as [|cb l IH]; intros acc; simpl; [done|].
    rewrite IH, filter_cons. case_decide as Hc.
    - rewrite last_cons. destruct (last _); [done|].
      subst. apply PyDictFacts.get_set_eq.
    - destruct (last _); [done|]. by apply PyDictFacts.get_set_ne. }
  rewrite Hgen. by destruct (last _).
Qed.

(** ** The low-water mark and the current ChangeId *)

Lemma lowest_change_id_spec p lowest :
  Provider.get_lowest_change_id p = Some lowest ->
  (∀ e, e ∈ Provider.change_index p -> lowest <= e.1)
  ∧ ∃ e, e ∈ Provider.change_index p ∧ e.1 = lowest.
Proof.
  unfold Provider.get_lowest_change_id.
  destruct (Provider.change_index p) as [|e0 index]; [done|].
  intros [= <-].
  assert (Hgen : ∀ (l : list (Z * string)) m,
    (fold_left (fun m e' => Z.min m e'.1) l m <= m
     ∧ ∀ e, e ∈ l -> fold_left (fun m e' => Z.min m e'.1) l m <= e.1)
    ∧ (fold_left (fun m e' => Z.min m e'.1) l m = m
       ∨ ∃ e, e ∈ l ∧ e.1 = fold_left (fun m e' => Z.min m e'.1) l m)).
  { induction l as [|e l IH]; intros m; simpl.
    - split; [split; [lia|by intros e ?%elem_of_nil]|by left].
    - destruct (IH (Z.min m e.1)) as [[Hle Hall] Hex]. split; [split|].
      + lia.
      + intros e' [->|He']%elem_of_cons; [lia|by apply Hall].
      + destruct Hex as [Heq|(e' & He' & Heq)].
        * destruct (Z.min_spec m e.1) as [[_ Hm]|[_ Hm]].
          -- left. lia.
          -- right. exists e. split; [left|lia].
        * right. exists e'. split; [by right|done]. }
  destruct (Hgen index e0.1) as [[Hle Hall] Hex]. split.
  - intros e [->|He]%elem_of_cons; [done|by apply Hall].
  - destruct Hex as [Heq|(e & He & Heq)].
    + exists e0. split; [left|done].
    + exists e. split; [by right|done].
Qed.

Lemma max_entry_spec index e0 :
  e0 ∈ index ->
  ∃ e, Provider.max_entry index = Some e ∧ e ∈ index ∧
       ∀ e', e' ∈ index -> e'.1 <= e.1.
Proof.
  unfold Provider.max_entry. intros Hin.
  assert (Hgen : ∀ (l : list (Z * string)) acc,
    match fold_left (fun acc e =>
            match acc with
            | Some b => if decide (b.1 < e.1) then Some e else acc
            | None => Some e
            end) l acc with
    | Some r =>
        (Some r = acc ∨ r ∈ l)
        ∧ (∀ e', e' ∈ l -> e'.1 <= r.1)
        ∧ (∀ b, acc = Some b -> b.1 <= r.1)
    | None => acc = None ∧ l = []
    end).
  { induction l as [|e l IH]; intros acc; simpl.
    - destruct acc as [b|]; [|done]. split; [by left|].
      split; [by intros e' ?%elem_of_nil|]. by intros ? [= <-].
    - specialize (IH match acc with
                      | Some b => if decide (b.1 < e.1) then Some e else acc
                      | None => Some e
                      end).
      destruct (fold_left _ l _) as [r|].
      + destruct IH as (Hfrom & Hall & Hacc). split; [|split].
        * destruct Hfrom as [Heq|Hr]; [|right; by right].
          destruct acc as [b|]; [|injection Heq as ->; right; left].
          case_decide; [injection Heq as ->; right; left|by left].
        * intros e' [->|He']%elem_of_cons; [|by apply Hall].
          destruct acc as [b|]; [|by apply Hacc].
          case_decide; [by apply Hacc|].
          specialize (Hacc b eq_refl). lia.
        * intros b ->. case_decide.
          -- specialize (Hacc e eq_refl). lia.
          -- by apply Hacc.
      + destruct IH as [Hacc _]. destruct acc as [b|]; [|done].
        by case_decide. }
  specialize (Hgen index None).
  destruct (fold_left _ index None) as [r|].
  - destruct Hgen as ([?|Hr] & Hall & _); [done|]. by exists r.
  - destruct Hgen as [_ ->]. by apply elem_of_nil in Hin.
Qed.

(** the low-water mark is not above the current ChangeId *)
Lemma lowest_le_current self lowest :
  Provider.get_lowest_change_id (cache_provider self) = Some lowest ->
  lowest <= current_change_id self.
Proof.
  intros Hlow. apply lowest_change_id_spec in Hlow as [Hall (e0 & He0 & _)].
  destruct (max_entry_spec _ _ He0) as (e & Hmax & He & _).
  unfold current_change_id, Provider.get_current_change_id.
  rewrite Hmax. destruct e as [score member]. by apply (Hall _ He).
Qed.

Lemma get_all_full_data_Raise self e self' :
  get_all_full_data self = (Raise e, self') -> ∃ msg, e = ValueError msg.
Proof.
  unfold get_all_full_data, get_all_full_data_ordered. mstep.
  rewrite bind_lift.
  destruct (for_each_pure _ _ _) as [a| e' |] eqn:Hloop; try done.
  intros [= -> _].
  apply for_each_pure_Raise in Hloop as ([k d] & out & _ & Hbody).
  destruct (split_element_id k) as [[c i]| e' |] eqn:Hs; simpl in Hbody;
    try done.
  injection Hbody as ->. by eapply split_element_id_Raise.
Qed.

(** X12 (low-water mark and current ChangeId).  Whenever
    [get_lowest_change_id] returns, [get_current_change_id] returns a
    ChangeId that is not below it, and [get_full_data] since that current
    ChangeId raises no [RuntimeError]: it is never refused as stale. *)
Theorem lowest_change_id_le_current self lowest :
  get_lowest_change_id self = (Ok lowest, self) ->
  ∃ current,
    get_current_change_id self = (Ok current, self) ∧
    lowest <= current ∧
    ∀ max_change_id msg self',
      get_full_data current max_change_id self
      ≠ (Raise (RuntimeError msg), self').
Proof.
  intros Hlow. destruct (get_lowest_change_id_Ok _ _ _ Hlow) as (_ & Hne & Hp).
  exists (current_change_id self). split; [apply get_current_change_id_unfold|].
  pose proof (lowest_le_current _ _ Hp) as Hle. split; [done|].
  intros max_change_id msg self'. unfold get_full_data.
  destruct (current_change_id self =? 0) eqn:Hc.
  - rewrite bind_unfold.
    destruct (get_all_full_data self) as [[a| e |] s] eqn:Hall; try done.
    apply get_all_full_data_Raise in Hall as [msg' ->]. done.
  - rewrite (bind_Ok _ _ _ _ _ Hlow).
    rewrite (proj2 (Z.ltb_ge _ _) Hle). mstep.
    destruct (Provider.get_data_since _ _ _ _) as [[raw deleted]| e |] eqn:Hd;
      try done.
    apply get_data_since_Raise in Hd as [msg' ->]. done.
Qed.

Lemma lowest_change_id_le_current_witness :
  get_lowest_change_id (changed_cache false) = (Ok 1001, changed_cache false)
  ∧ ∃ current,
      get_current_change_id (changed_cache false)
      = (Ok current, changed_cache false) ∧
      1001 <= current ∧
      ∀ max_change_id msg self',
        get_full_data current max_change_id (changed_cache false)
        ≠ (Raise (RuntimeError msg), self').
Proof.
  assert (Hlow : get_lowest_change_id (changed_cache false)
                 = (Ok 1001, changed_cache false)) by (vm_compute; reflexivity).
  split; [exact Hlow|].
  exact (lowest_change_id_le_current _ _ Hlow).
Defined.

(** ** What a refresh leaves alone *)

Lemma full_resync_others user_id self r self' :
  full_resync user_id self = (r, self') ->
  ∀ namespace, namespace ≠ Some user_id ->
    Provider.stores (cache_provider self') !! namespace
    = Provider.stores (cache_provider self) !! namespace.
Proof.
  unfold full_resync. rewrite bind_unfold.
  destruct (get_all_full_data self) as [o s] eqn:Ho.
  apply get_all_full_data_state in Ho as ->.
  destruct o; try (by intros [= _ <-]).
  mstep. intros [= _ <-] ns Hns. simpl. by rewrite lookup_delete_ne.
Qed.

Lemma fetch_full_data_others user_id user_change_id self r self' :
  fetch_full_data user_id user_change_id self = (r, self') ->
  ∀ namespace, namespace ≠ Some user_id ->
    Provider.stores (cache_provider self') !! namespace
    = Provider.stores (cache_provider self) !! namespace.
Proof.
  unfold fetch_full_data, except_RuntimeError.
  destruct (get_full_data _ _ self) as [o s] eqn:Hg.
  apply get_full_data_state in Hg as ->.
  destruct o as [a|[]|]; try (by intros [= _ <-]).
  apply full_resync_others.
Qed.

Lemma del_elements_others elements user_id p namespace :
  namespace ≠ user_id ->
  Provider.stores (Provider.del_elements elements user_id p) !! namespace
  = Provider.stores p !! namespace.
Proof.
  intros Hns. simpl. destruct (Provider.stores p !! user_id); [|done].
  by rewrite lookup_insert_ne.
Qed.

Lemma refresh_restricted_data_others user_id user_change_id change_id
    self r self' :
  refresh_restricted_data user_id user_change_id change_id self = (r, self') ->
  ∀ namespace, namespace ≠ Some user_id ->
    Provider.stores (cache_provider self') !! namespace
    = Provider.stores (cache_provider self) !! namespace.
Proof.
  unfold refresh_restricted_data. rewrite bind_unfold.
  destruct (fetch_full_data user_id user_change_id self) as [o s1] eqn:Hf.
  pose proof (fetch_full_data_others _ _ _ _ _ Hf) as Hs1.
  destruct o as [[full_data_elements deleted_elements]| |];
    try (by intros [= _ <-]).
  mstep. rewrite bind_lift.
  destruct (restrict_full_data _ _ _ _) as [[mapping deleted]| |];
    try (by intros [= _ <-]).
  mstep. destruct (bool_decide _); mstep; intros [= _ <-] ns Hns.
  - cbn [cache_provider with_provider].
    rewrite del_elements_others by done. simpl.
    rewrite lookup_insert_ne by done. by apply Hs1.
  - simpl. rewrite lookup_insert_ne by done. by apply Hs1.
Qed.

Lemma refresh_if_stale_others user_id self r self' :
  refresh_if_stale user_id self = (r, self') ->
  ∀ namespace, namespace ≠ Some user_id ->
    Provider.stores (cache_provider self') !! namespace
    = Provider.stores (cache_provider self) !! namespace.
Proof.
  unfold refresh_if_stale. mstep.
  assert (Hrest : ∀ user_change_id,
    (change_id ← get_current_change_id;
     if user_change_id <? change_id
     then refresh_restricted_data user_id user_change_id change_id
     else mret tt) self = (r, self') ->
    ∀ namespace, namespace ≠ Some user_id ->
      Provider.stores (cache_provider self') !! namespace
      = Provider.stores (cache_provider self) !! namespace).
  { intros user_change_id.
    rewrite bind_unfold, get_current_change_id_unfold.
    destruct (_ <? _).
    - apply refresh_restricted_data_others.
    - by intros [= _ <-]. }
  destruct (Provider.get_change_id_user _ _) as [v|].
  - rewrite bind_lift. destruct (int_of_serialized v);
      [apply Hrest | by intros [= _ <-]..].
  - mstep. apply Hrest.
Qed.

(** the shape of every run of [update_restricted_data] *)
Lemma update_restricted_data_cases fuel user_id self :
  update_restricted_data fuel user_id self = (Ok tt, self)
  ∨ (∃ e, update_restricted_data fuel user_id self = (Raise e, self))
  ∨ update_restricted_data fuel user_id self = (Diverge, self)
  ∨ (lock_name_of user_id ∉ Provider.locks (cache_provider self)) ∧
    ∃ r s1,
      refresh_if_stale user_id (holding (lock_name_of user_id) self) = (r, s1) ∧
      update_restricted_data fuel user_id self
      = (r, match r with
            | Ok _ => with_provider (Provider.del_lock (lock_name_of user_id)) s1
            | _ => s1
            end).
Proof.
  destruct (use_restricted_data_cache self) eqn:Huse.
  2: { left. unfold update_restricted_data. mstep. by rewrite Huse. }
  destruct (ensured self) eqn:Hens.
  2: { right. left. eexists. unfold update_restricted_data. mstep.
       rewrite Huse. simpl. mstep. by rewrite Hens. }
  destruct (decide (lock_name_of user_id
                    ∈ Provider.locks (cache_provider self))) as [Hheld|Hfree].
  { right. right. left. by apply update_restricted_data_waits. }
  right. right. right. split; [done|].
  rewrite update_restricted_data_acquired by done. rewrite bind_unfold.
  destruct (refresh_if_stale user_id _) as [o s1] eqn:Hcrit.
  exists o, s1. split; [done|]. by destruct o as [[]| |].
Qed.

(** X13 (isolation of a refresh).  Whatever [update_restricted_data] does for
    a user, return, raise or wait, it leaves the full store and the stores of
    all other users, the ChangeIndex, the counter, every lock but the user's
    refresh lock and the attributes of the cache as they were. *)
Theorem update_restricted_data_isolation fuel user_id self r self' :
  update_restricted_data fuel user_id self = (r, self') ->
  (∀ namespace, namespace ≠ Some user_id ->
     Provider.stores (cache_provider self') !! namespace
     = Provider.stores (cache_provider self) !! namespace)
  ∧ Provider.change_index (cache_provider self')
    = Provider.change_index (cache_provider self)
  ∧ Provider.counter (cache_provider self')
    = Provider.counter (cache_provider self)
  ∧ (∀ lock_name, lock_name ≠ lock_name_of user_id ->
       lock_name ∈ Provider.locks (cache_provider self')
       <-> lock_name ∈ Provider.locks (cache_provider self))
  ∧ ensured self' = ensured self
  ∧ start_time self' = start_time self
  ∧ use_restricted_data_cache self' = use_restricted_data_cache self
  ∧ cachable_provider self' = cachable_provider self.
Proof.
  destruct (update_restricted_data_cases fuel user_id self)
    as [->|[[e ->]|[->|(Hfree & r' & s1 & Hcrit & ->)]]];
    try (intros [= _ <-]; repeat split; done).
  intros [= <- <-].
  pose proof (refresh_if_stale_others _ _ _ _ Hcrit) as Hothers.
  apply refresh_if_stale_stores_only in Hcrit as Hframe.
  pose proof (stores_only_locks _ _ Hframe) as Hlocks.
  destruct (stores_only_attrs _ _ Hframe) as (? & ? & ? & ? & ? & ?).
  assert (Hl : ∀ lock_name, lock_name ≠ lock_name_of user_id ->
    lock_name ∈ Provider.locks (cache_provider s1)
    <-> lock_name ∈ Provider.locks (cache_provider self)).
  { intros l Hl. rewrite Hlocks. simpl.
    rewrite elem_of_union, elem_of_singleton. tauto. }
  destruct r' as [[]| |]; simpl;
    (split; [exact Hothers|]); (split; [done|]); (split; [done|]);
    (split; [|done]); [|exact Hl..].
  intros l Hne. rewrite elem_of_difference, elem_of_singleton.
  split; [intros [Hin _]; by apply Hl|].
  intros Hin. split; [by apply Hl|done].
Qed.

Lemma update_restricted_data_isolation_witness :
  update_restricted_data 0 7 failing_cache
  = (Raise (KeyError "permission"),
     state_after (update_restricted_data 0 7) failing_cache)
  ∧ Provider.stores
      (cache_provider (state_after (update_restricted_data 0 7) failing_cache))
    !! None
    = Provider.stores (cache_provider failing_cache) !! None
  ∧ Provider.change_index
      (cache_provider (state_after (update_restricted_data 0 7) failing_cache))
    = Provider.change_index (cache_provider failing_cache).
Proof.
  assert (Hrun : update_restricted_data 0 7 failing_cache
    = (Raise (KeyError "permission"),
       state_after (update_restricted_data 0 7) failing_cache))
    by (vm_compute; reflexivity).
  destruct (update_restricted_data_isolation 0 7 _ _ _ Hrun)
    as (Hothers & Hindex & _).
  split; [exact Hrun|]. split; [|exact Hindex].
  apply Hothers. discriminate.
Defined.

(** ** A refreshed store is up to date *)

(** the sentinel that a refresh writes survives its deletions *)
Lemma refresh_restricted_data_sentinel user_id user_change_id change_id
    self self' :
  refresh_restricted_data user_id user_change_id change_id self
  = (Ok tt, self') ->
  "_config:change_id" ∉ changed_ids self ->
  PyDict.get "_config:change_id" (restricted_store user_id self')
  = Some (str_of_int change_id).
Proof.
  intros Hrun Hindex.
  apply refresh_restricted_data_Ok in Hrun
    as (fde & deleted0 & s1 & mapping & deleted & Hfetch & Hloop & _ & Hstore).
  apply restrict_full_data_Ok in Hloop as (Hnd & Hmap & Hdel & _).
  unfold restricted_store. rewrite Hstore.
  rewrite PyDictFacts.get_del_all_notin.
  - rewrite get_update by by apply keys_set_NoDup.
    by rewrite PyDictFacts.get_set_eq.
  - intros [Hk|(c & id & Hk)]%Hdel.
    + by apply Hindex, (fetch_full_data_deleted _ _ _ _ _ _ Hfetch).
    + symmetry in Hk. by apply get_element_id_not_sentinel in Hk.
Qed.

(** the critical section does nothing on a store that is up to date *)
Lemma refresh_if_stale_current user_id self user_change_id :
  recorded_change_id user_id self = Ok user_change_id ->
  current_change_id self <= user_change_id ->
  refresh_if_stale user_id self = (Ok tt, self).
Proof.
  unfold recorded_change_id, refresh_if_stale. intros Hrec Hle. mstep.
  assert (Hrest :
    (change_id ← get_current_change_id;
     if user_change_id <? change_id
     then refresh_restricted_data user_id user_change_id change_id
     else mret tt) self = (Ok tt, self)).
  { rewrite bind_unfold, get_current_change_id_unfold.
    fold (current_change_id self).
    by rewrite (proj2 (Z.ltb_ge _ _) Hle). }
  destruct (Provider.get_change_id_user _ _) as [v|].
  - rewrite bind_lift, Hrec. exact Hrest.
  - injection Hrec as <-. mstep. exact Hrest.
Qed.

(** a call that returned has left the user's store up to date, or has found
    no ChangeId above [-1] to record *)
Lemma update_restricted_data_current fuel user_id self self' :
  use_restricted_data_cache self = true ->
  "_config:change_id" ∉ changed_ids self ->
  update_restricted_data fuel user_id self = (Ok tt, self') ->
  ensured self' = true
  ∧ use_restricted_data_cache self' = true
  ∧ (lock_name_of user_id ∉ Provider.locks (cache_provider self'))
  ∧ current_change_id self' = current_change_id self
  ∧ changed_ids self' = changed_ids self
  ∧ ∃ user_change_id,
      recorded_change_id user_id self' = Ok user_change_id ∧
      current_change_id self' <= user_change_id.
Proof.
  intros Huse Hindex Hrun.
  apply update_restricted_data_Ok in Hrun as (Hens & Hfree & s1 & Hcrit & ->);
    [|done].
  apply refresh_if_stale_stores_only in Hcrit as Hframe.
  destruct (stores_only_attrs _ _ Hframe) as (Huse1 & Hens1 & Hst1 & _ & Hidx1 & _).
  simpl in Huse1, Hens1, Hst1, Hidx1.
  assert (Hcur : current_change_id s1 = current_change_id self).
  { unfold current_change_id, Provider.get_current_change_id.
    by rewrite Hidx1, Hst1. }
  split; [by rewrite <- Hens|]. split; [by rewrite <- Huse|].
  split; [apply del_lock_free|]. split; [exact Hcur|].
  split; [unfold changed_ids; simpl; by rewrite Hidx1|].
  apply refresh_if_stale_Ok in Hcrit as (ucid & Hrec & Hcases).
  change (current_change_id (holding _ self))
    with (current_change_id self) in Hcases.
  change (recorded_change_id user_id (with_provider _ s1))
    with (recorded_change_id user_id s1).
  change (current_change_id (with_provider _ s1))
    with (current_change_id s1).
  destruct (ucid <? current_change_id self) eqn:Hlt.
  - apply refresh_restricted_data_sentinel in Hcases; [|done].
    exists (current_change_id self). split; [|lia].
    unfold recorded_change_id, Provider.get_change_id_user.
    unfold restricted_store in Hcases. by rewrite Hcases.
  - subst s1. exists ucid. split; [done|]. apply Z.ltb_ge in Hlt. lia.
Qed.

(** a second call right after one that returned changes nothing *)
Lemma update_restricted_data_again fuel fuel' user_id self self' :
  use_restricted_data_cache self = true ->
  "_config:change_id" ∉ changed_ids self ->
  update_restricted_data fuel user_id self = (Ok tt, self') ->
  update_restricted_data fuel' user_id self' = (Ok tt, self').
Proof.
  intros Huse Hindex Hrun.
  destruct (update_restricted_data_current _ _ _ _ Huse Hindex Hrun)
    as (Hens & Huse' & Hfree & _ & _ & ucid & Hrec & Hle).
  rewrite update_restricted_data_acquired by done.
  rewrite (bind_Ok _ _ _ _ _
             (refresh_if_stale_current user_id
                (holding (lock_name_of user_id) self') ucid Hrec Hle)).
  unfold provider_do. by rewrite release_holding.
Qed.

(** X14 (already current).  With caching enabled, when the sentinel key is
    not a member of the ChangeIndex and [update_restricted_data] has returned,
    the ChangeId recorded for the user is not below the current one, and a
    second call returns and changes nothing. *)
Theorem update_restricted_data_idempotent fuel fuel' user_id self self' :
  use_restricted_data_cache self = true ->
  "_config:change_id" ∉ changed_ids self ->
  update_restricted_data fuel user_id self = (Ok tt, self') ->
  update_restricted_data fuel' user_id self' = (Ok tt, self')
  ∧ ∃ user_change_id,
      recorded_change_id user_id self' = Ok user_change_id ∧
      current_change_id self' <= user_change_id.
Proof.
  intros Huse Hindex Hrun. split.
  - by eapply update_restricted_data_again.
  - by destruct (update_restricted_data_current _ _ _ _ Huse Hindex Hrun)
      as (_ & _ & _ & _ & _ & H).
Qed.

Lemma update_restricted_data_idempotent_witness :
  use_restricted_data_cache (built_cache true) = true
  ∧ ("_config:change_id" ∉ changed_ids (built_cache true))
  ∧ update_restricted_data 0 7 (built_cache true) = (Ok tt, read_cache)
  ∧ update_restricted_data 0 7 read_cache = (Ok tt, read_cache)
  ∧ ∃ user_change_id,
      recorded_change_id 7 read_cache = Ok user_change_id ∧
      current_change_id read_cache <= user_change_id.
Proof.
  assert (Huse : use_restricted_data_cache (built_cache true) = true)
    by reflexivity.
  assert (Hsentinel : "_config:change_id" ∉ changed_ids (built_cache true))
    by compute_done.
  assert (Hrun : update_restricted_data 0 7 (built_cache true)
                 = (Ok tt, read_cache)) by (vm_compute; reflexivity).
  split; [exact Huse|]. split; [exact Hsentinel|]. split; [exact Hrun|].
  exact (update_restricted_data_idempotent 0 0 7 _ _ Huse Hsentinel Hrun).
Defined.

(** ** The full resync *)

Lemma update_new {K V} `{EqDecision K} (src d : list (K * V)) :
  NoDup (PyDict.keys (d ++ src)) -> PyDict.update src d = (d ++ src)%list.
Proof.
  unfold PyDict.update. revert d.
  induction src as [|[k v] src IH]; intros d Hnd; simpl.
  - by rewrite app_nil_r.
  - rewrite set_new.
    + rewrite IH; rewrite <- app_assoc; done.
    + rewrite keys_app in Hnd. apply NoDup_app in Hnd as (_ & Hdis & _).
      intros Hin. apply (Hdis _ Hin). left.
Qed.

(** the full data do not depend on the locks *)
Lemma get_all_full_data_holding lock_name self :
  get_all_full_data (holding lock_name self)
  = ((get_all_full_data self).1, holding lock_name self).
Proof.
  unfold get_all_full_data, get_all_full_data_ordered. mstep.
  rewrite !bind_lift.
  change (Provider.get_all_data None (cache_provider (holding lock_name self)))
    with (Provider.get_all_data None (cache_provider self)).
  by destruct (for_each_pure _ _ _).
Qed.

Lemma get_lowest_change_id_holding lock_name self :
  get_lowest_change_id (holding lock_name self)
  = ((get_lowest_change_id self).1, holding lock_name self).
Proof. by rewrite !get_lowest_change_id_unfold. Qed.

(** X15 (full resync).  With caching enabled, when the ChangeId after the one
    recorded for the user is below the low-water mark, an
    [update_restricted_data] that returns has recreated the user's store from
    all full data: the store holds the sentinel with the current ChangeId and
    what the filters let through of [get_all_full_data], minus the deletion
    list, and nothing of what it held before. *)
Theorem update_restricted_data_full_resync fuel user_id self self'
    user_change_id lowest :
  use_restricted_data_cache self = true ->
  recorded_change_id user_id self = Ok user_change_id ->
  get_lowest_change_id self = (Ok lowest, self) ->
  user_change_id + 1 < lowest -> user_change_id ≠ -1 ->
  update_restricted_data fuel user_id self = (Ok tt, self') ->
  ∃ all_data mapping deleted,
    get_all_full_data self = (Ok all_data, self) ∧
    restrict_full_data self user_id all_data [] = Ok (mapping, deleted) ∧
    restricted_store user_id self'
    = PyDict.del_all deleted
        (PyDict.set "_config:change_id"
           (str_of_int (current_change_id self)) mapping).
Proof.
  intros Huse Hrec Hlow Hlt Hne Hrun.
  apply update_restricted_data_Ok in Hrun as (Hens & Hfree & s1 & Hcrit & ->);
    [|done].
  apply refresh_if_stale_Ok in Hcrit as (ucid & Hrec' & Hcases).
  change (recorded_change_id user_id (holding _ self))
    with (recorded_change_id user_id self) in Hrec'.
  assert (ucid = user_change_id) as -> by congruence.
  change (current_change_id (holding _ self))
    with (current_change_id self) in Hcases.
  destruct (get_lowest_change_id_Ok _ _ _ Hlow) as (_ & Hl0 & Hp).
  pose proof (lowest_le_current _ _ Hp) as Hle.
  rewrite (proj2 (Z.ltb_lt user_change_id (current_change_id self)))
    in Hcases by lia.
  apply refresh_restricted_data_Ok in Hcases
    as (fde & deleted0 & s2 & mapping & deleted & Hfetch & Hloop & _ & Hstore).
  change (restrict_full_data (holding _ self) user_id fde deleted0)
    with (restrict_full_data self user_id fde deleted0) in Hloop.
  revert Hfetch. unfold fetch_full_data, except_RuntimeError, get_full_data.
  rewrite (proj2 (Z.eqb_neq (user_change_id + 1) 0)) by lia.
  rewrite bind_unfold, get_lowest_change_id_holding, Hlow. simpl.
  rewrite (proj2 (Z.ltb_lt (user_change_id + 1) lowest)) by lia.
  unfold raise at 1. unfold full_resync.
  rewrite bind_unfold, get_all_full_data_holding.
  destruct (get_all_full_data self) as [[all_data| |] s] eqn:Hall; try done.
  apply get_all_full_data_state in Hall as Hs. subst s. simpl.
  mstep. intros [= <- <- <-].
  exists all_data, mapping, deleted. do 2 (split; [done|]).
  change (restricted_store user_id (with_provider _ s1))
    with (Provider.store (Some user_id) (cache_provider s1)).
  rewrite Hstore. f_equal.
  replace (Provider.store (Some user_id) _) with (@nil (string * serialized)).
  - apply restrict_full_data_Ok in Hloop as (Hnd & _).
    rewrite update_new; [done|]. simpl. by apply keys_set_NoDup.
  - unfold Provider.store. simpl. by rewrite lookup_delete_eq.
Qed.

Lemma update_restricted_data_full_resync_witness :
  use_restricted_data_cache rebuilt_cache = true
  ∧ recorded_change_id 7 rebuilt_cache = Ok 1000
  ∧ get_lowest_change_id rebuilt_cache = (Ok 1002, rebuilt_cache)
  ∧ 1000 + 1 < 1002 ∧ 1000 ≠ -1
  ∧ update_restricted_data 0 7 rebuilt_cache
    = (Ok tt, state_after (update_restricted_data 0 7) rebuilt_cache)
  ∧ ∃ all_data mapping deleted,
      get_all_full_data rebuilt_cache = (Ok all_data, rebuilt_cache) ∧
      restrict_full_data rebuilt_cache 7 all_data [] = Ok (mapping, deleted) ∧
      restricted_store 7
        (state_after (update_restricted_data 0 7) rebuilt_cache)
      = PyDict.del_all deleted
          (PyDict.set "_config:change_id"
             (str_of_int (current_change_id rebuilt_cache)) mapping).
Proof.
  assert (Huse : use_restricted_data_cache rebuilt_cache = true)
    by reflexivity.
  assert (Hrec : recorded_change_id 7 rebuilt_cache = Ok 1000)
    by (vm_compute; reflexivity).
  assert (Hlow : get_lowest_change_id rebuilt_cache = (Ok 1002, rebuilt_cache))
    by (vm_compute; reflexivity).
  assert (Hlt : 1000 + 1 < 1002) by lia.
  assert (Hne : 1000 ≠ -1) by lia.
  assert (Hrun : update_restricted_data 0 7 rebuilt_cache
    = (Ok tt, state_after (update_restricted_data 0 7) rebuilt_cache))
    by (vm_compute; reflexivity).
  split; [exact Huse|]. split; [exact Hrec|]. split; [exact Hlow|].
  split; [exact Hlt|]. split; [exact Hne|]. split; [exact Hrun|].
  exact (update_restricted_data_full_resync 0 7 _ _ _ _
           Huse Hrec Hlow Hlt Hne Hrun).
Defined.

(** ** The store of a user: eviction and creation *)

(** a refresh that returns has written the user's store *)
Lemma refresh_restricted_data_exists user_id user_change_id change_id
    self self' :
  refresh_restricted_data user_id user_change_id change_id self
  = (Ok tt, self') ->
  is_Some (Provider.stores (cache_provider self') !! Some user_id).
Proof.
  unfold refresh_restricted_data. rewrite bind_unfold.
  destruct (fetch_full_data user_id user_change_id self) as [o s1].
  destruct o as [[full_data_elements deleted_elements]| |]; try done.
  mstep. rewrite bind_lift.
  destruct (restrict_full_data _ _ _ _) as [[mapping deleted]| |]; try done.
  mstep. destruct (bool_decide _); mstep; intros [= <-]; simpl.
  - rewrite !lookup_insert_eq. by eexists.
  - rewrite lookup_insert_eq. by eexists.
Qed.

(** X16 (eviction).  With caching enabled, [del_user] returns and removes the
    user's store, leaving the full store and the stores of the other users
    as they were: [exists_restricted_data] is then [False] and no ChangeId is
    recorded for the user.  When the current ChangeId is above [-1], the next
    [update_restricted_data] that returns has created the store again. *)
Theorem del_user_evicts fuel user_id self self2 :
  use_restricted_data_cache self = true ->
  del_user user_id self = (Ok tt, state_after (del_user user_id) self)
  ∧ exists_restricted_data user_id (state_after (del_user user_id) self)
    = (Ok false, state_after (del_user user_id) self)
  ∧ recorded_change_id user_id (state_after (del_user user_id) self) = Ok (-1)
  ∧ (∀ namespace, namespace ≠ Some user_id ->
       Provider.stores (cache_provider (state_after (del_user user_id) self))
       !! namespace
       = Provider.stores (cache_provider self) !! namespace)
  ∧ (-1 < current_change_id self ->
     update_restricted_data fuel user_id (state_after (del_user user_id) self)
     = (Ok tt, self2) ->
     exists_restricted_data user_id self2 = (Ok true, self2)).
Proof.
  intros Huse. unfold state_after, del_user, provider_do.
  simpl. split; [done|]. split; [|split; [|split]].
  - unfold exists_restricted_data. mstep. simpl. rewrite Huse. simpl.
    unfold provider_get, Provider.data_exists. simpl.
    rewrite lookup_delete_eq. by rewrite bool_decide_eq_false_2 by by intros [? ?].
  - unfold recorded_change_id, Provider.get_change_id_user, Provider.store.
    simpl. by rewrite lookup_delete_eq.
  - intros ns Hns. by rewrite lookup_delete_ne.
  - intros Hcur Hrun.
    apply update_restricted_data_Ok in Hrun as (_ & _ & s1 & Hcrit & ->);
      [|done].
    apply refresh_if_stale_stores_only in Hcrit as Hframe.
    destruct (stores_only_attrs _ _ Hframe) as (Huse1 & _).
    apply refresh_if_stale_Ok in Hcrit as (ucid & Hrec & Hcases).
    revert Hrec. unfold recorded_change_id, Provider.get_change_id_user,
      Provider.store. simpl. rewrite lookup_delete_eq. simpl. intros [= <-].
    change (current_change_id (holding _ _))
      with (current_change_id self) in Hcases.
    rewrite (proj2 (Z.ltb_lt (-1) (current_change_id self))) in Hcases by done.
    apply refresh_restricted_data_exists in Hcases.
    unfold exists_restricted_data. mstep. simpl. rewrite Huse1. simpl.
    rewrite Huse. simpl. unfold provider_get, Provider.data_exists. simpl.
    by rewrite bool_decide_eq_true_2.
Qed.

Lemma del_user_evicts_witness :
  use_restricted_data_cache read_cache = true
  ∧ exists_restricted_data 7 read_cache = (Ok true, read_cache)
  ∧ del_user 7 read_cache = (Ok tt, state_after (del_user 7) read_cache)
  ∧ exists_restricted_data 7 (state_after (del_user 7) read_cache)
    = (Ok false, state_after (del_user 7) read_cache)
  ∧ -1 < current_change_id read_cache
  ∧ update_restricted_data 0 7 (state_after (del_user 7) read_cache)
    = (Ok tt, read_cache).
Proof.
  assert (Huse : use_restricted_data_cache read_cache = true) by reflexivity.
  assert (Hcur : -1 < current_change_id read_cache)
    by (vm_compute; reflexivity).
  assert (Hrun : update_restricted_data 0 7 (state_after (del_user 7) read_cache)
    = (Ok tt, read_cache)) by (vm_compute; reflexivity).
  destruct (del_user_evicts 0 7 read_cache read_cache Huse)
    as (Hdel & Hgone & _ & _ & Hback).
  split; [exact Huse|]. split; [exact (Hback Hcur Hrun)|].
  split; [exact Hdel|]. split; [exact Hgone|]. split; [exact Hcur|].
  exact Hrun.
Defined.

(** ** Point reads of restricted data *)

(** a text without the separator that does not start a collection name does
    not start the ids of its elements *)
Lemma prefix_get_element_id p collection_string id :
  (∀ q r, p ≠ q +:+ ":" +:+ r) ->
  String.prefix p collection_string = false ->
  String.prefix p (get_element_id collection_string id) = false.
Proof.
  unfold get_element_id. generalize (string_of_Z id). intros s.
  revert p. induction collection_string as [|a c IH]; intros p Hsep.
  - destruct p as [|b p]; [done|]. intros _.
    change ("" +:+ ":" +:+ s) with (String ":" s). simpl.
    destruct (Ascii.ascii_dec b ":") as [->|]; [|done].
    by destruct (Hsep "" p).
  - destruct p as [|b p]; [done|].
    change (String a c +:+ ":" +:+ s) with (String a (c +:+ ":" +:+ s)).
    simpl. destruct (Ascii.ascii_dec b a) as [->|]; [|done].
    apply IH. intros q r ->. by destruct (Hsep (String a q) r).
Qed.

Lemma config_no_separator q r : "_config" ≠ q +:+ ":" +:+ r.
Proof.
  do 8 (destruct q as [|? q]; [discriminate|]).
  intros H. discriminate H.
Qed.

(** every stored element is in the snapshot, under its collection *)
Lemma group_restricted_complete restricted_data out :
  group_restricted restricted_data = Ok out ->
  ∀ element_id data collection_string id,
    (element_id, data) ∈ restricted_data ->
    String.prefix "_config" element_id = false ->
    split_element_id element_id = Ok (collection_string, id) ->
    ∃ bodies, PyDict.get collection_string out = Some bodies ∧
              json_loads data ∈ bodies.
Proof.
  unfold group_restricted. intros Hloop k data c id Hin Hp Hs.
  apply (for_each_pure_round (fun acc acc' : list (string * list json) =>
    ∀ c b, (∃ bs, PyDict.get c acc = Some bs ∧ b ∈ bs) ->
           ∃ bs', PyDict.get c acc' = Some bs' ∧ b ∈ bs')) in Hloop
    as [_ Hrounds].
  - destruct (Hrounds _ Hin) as (a & a' & Hbody & Hkept).
    rewrite Hp, Hs in Hbody. simpl in Hbody. injection Hbody as <-.
    apply Hkept. unfold PyDict.append_to. rewrite PyDictFacts.get_set_eq.
    eexists. split; [done|]. apply elem_of_app. right. left.
  - auto.
  - intros a1 a2 a3 H12 H23 c' b Hb. by apply H23, H12.
  - intros [k' d'] a a' Hbody c' b (bs & Hget & Hb).
    destruct (String.prefix "_config" k'); [injection Hbody as <-; eauto|].
    destruct (split_element_id k') as [[c'' i'']| |]; simpl in Hbody;
      try done.
    injection Hbody as <-. unfold PyDict.append_to.
    destruct (decide (c'' = c')) as [->|Hne].
    + rewrite PyDictFacts.get_set_eq, Hget. simpl. eexists. split; [done|].
      apply elem_of_app. by left.
    + rewrite PyDictFacts.get_set_ne by done. eauto.
Qed.

(** X17 (point read and snapshot).  With caching enabled, on a store whose
    keys are the sentinel and element ids, when the sentinel key is not a
    member of the ChangeIndex: an element that
    [get_element_restricted_data] returns for a collection whose name does
    not start with ["_config"] is in the snapshot that
    [get_all_restricted_data] returns next, under that collection. *)
Theorem get_element_restricted_data_in_snapshot fuel fuel' user_id
    collection_string id self body self' :
  use_restricted_data_cache self = true ->
  "_config:change_id" ∉ changed_ids self ->
  Forall restricted_key (PyDict.keys (restricted_store user_id self)) ->
  String.prefix "_config" collection_string = false ->
  get_element_restricted_data fuel user_id collection_string id self
  = (Ok body, self') ->
  body ≠ JNull ->
  ∃ all_data bodies,
    get_all_restricted_data fuel' user_id self' = (Ok all_data, self') ∧
    PyDict.get collection_string all_data = Some bodies ∧
    body ∈ bodies.
Proof.
  intros Huse Hindex Hkeys Hc. unfold get_element_restricted_data. mstep.
  rewrite Huse. simpl. rewrite bind_unfold.
  destruct (update_restricted_data fuel user_id self) as [[[]| |] s1] eqn:Hrun;
    try done.
  mstep. unfold Provider.get_element.
  destruct (PyDict.get _ _) as [out|] eqn:Hget; [|by intros [= <- <-]].
  intros [= <- <-] _.
  destruct (update_restricted_data_current _ _ _ _ Huse Hindex Hrun)
    as (_ & Huse1 & _).
  destruct (update_restricted_data_store _ _ _ _ Huse Hrun Hkeys) as [Hkeys1 _].
  destruct (group_restricted_Ok _ Hkeys1) as [all_data Hgroup].
  destruct (group_restricted_complete _ _ Hgroup
              (get_element_id collection_string id) out collection_string id)
    as (bodies & Hbodies & Hin).
  { by apply get_Some_elem. }
  { apply prefix_get_element_id; [apply config_no_separator|done]. }
  { apply split_get_element_id. }
  exists all_data, bodies. split; [|done].
  unfold get_all_restricted_data. mstep. rewrite Huse1. simpl.
  rewrite (bind_Ok _ _ _ _ _
    (update_restricted_data_again fuel fuel' user_id self s1 Huse Hindex Hrun)).
  mstep. unfold Provider.get_all_data, lift.
  unfold restricted_store in Hgroup. by rewrite Hgroup.
Qed.

Lemma get_element_restricted_data_in_snapshot_witness :
  use_restricted_data_cache (built_cache true) = true
  ∧ ("_config:change_id" ∉ changed_ids (built_cache true))
  ∧ Forall restricted_key (PyDict.keys (restricted_store 7 (built_cache true)))
  ∧ String.prefix "_config" "motion" = false
  ∧ get_element_restricted_data 0 7 "motion" 1 (built_cache true)
    = (Ok (motion "A"), read_cache)
  ∧ motion "A" ≠ JNull
  ∧ ∃ all_data bodies,
      get_all_restricted_data 0 7 read_cache = (Ok all_data, read_cache) ∧
      PyDict.get "motion" all_data = Some bodies ∧
      motion "A" ∈ bodies.
Proof.
  assert (Huse : use_restricted_data_cache (built_cache true) = true)
    by reflexivity.
  assert (Hsentinel : "_config:change_id" ∉ changed_ids (built_cache true))
    by compute_done.
  assert (Hkeys : Forall restricted_key
    (PyDict.keys (restricted_store 7 (built_cache true))))
    by apply Forall_nil_2.
  assert (Hc : String.prefix "_config" "motion" = false) by reflexivity.
  assert (Hrun : get_element_restricted_data 0 7 "motion" 1 (built_cache true)
    = (Ok (motion "A"), read_cache)) by (vm_compute; reflexivity).
  assert (Hbody : motion "A" ≠ JNull) by discriminate.
  split; [exact Huse|]. split; [exact Hsentinel|]. split; [exact Hkeys|].
  split; [exact Hc|]. split; [exact Hrun|]. split; [exact Hbody|].
  exact (get_element_restricted_data_in_snapshot 0 0 7 "motion" 1 _ _ _
           Huse Hsentinel Hkeys Hc Hrun Hbody).
Defined.

(** ** The delta of a write *)

(** the last ChangeId recorded for a member is its highest score *)
Lemma last_change_spec member index :
  match Provider.last_change member index with
  | Some s => (s, member) ∈ index ∧ ∀ s', (s', member) ∈ index -> s' <= s
  | None => member ∉ map snd index
  end.
Proof.
  unfold Provider.last_change.
  assert (Hgen : ∀ (l : list (Z * string)) (acc : option Z),
    match fold_left (fun acc e =>
            if decide (e.2 = member)
            then Some (match acc with Some s => Z.max s e.1 | None => e.1 end)
            else acc) l acc with
    | Some s =>
        (acc = Some s ∨ (s, member) ∈ l)
        ∧ (∀ s', (s', member) ∈ l -> s' <= s)
        ∧ (∀ a, acc = Some a -> a <= s)
    | None => acc = None ∧ member ∉ map snd l
    end).
  { induction l as [|[s0 m0] l IH]; intros acc; simpl.
    - destruct acc as [a|].
      + split; [by left|]. split; [by intros s' ?%elem_of_nil|].
        by intros ? [= <-].
      + split; [done|]. by intros ?%elem_of_nil.
    - case_decide as Hm; simpl in Hm.
      + subst m0.
        specialize (IH (Some match acc with
                             | Some s => Z.max s s0
                             | None => s0
                             end)).
        destruct (fold_left _ l _) as [s|]; [|by destruct IH].
        destruct IH as (Hfrom & Hall & Hacc).
        specialize (Hacc _ eq_refl). split; [|split].
        * destruct Hfrom as [[= <-]|Hin]; [|right; by right].
          destruct acc as [a|]; [|right; left].
          destruct (Z.max_spec a s0) as [[_ ->]|[_ ->]]; [right; left|by left].
        * intros s' [[= ->]|Hin]%elem_of_cons; [|by apply Hall].
          destruct acc; lia.
        * intros a ->. lia.
      + specialize (IH acc). destruct (fold_left _ l acc) as [s|].
        * destruct IH as (Hfrom & Hall & Hacc). split; [|split; [|done]].
          -- destruct Hfrom; [by left|right; by right].
          -- intros s' [[= _ ?]|Hin]%elem_of_cons; [done|by apply Hall].
        * destruct IH as [-> Hnotin]. split; [done|].
          by intros [?|?]%elem_of_cons. }
  specialize (Hgen index None).
  destruct (fold_left _ index None) as [s|].
  - destruct Hgen as ([?|?] & ? & _); done.
  - by destruct Hgen.
Qed.

(** a member is in the unbounded range from [change_id] when one of its
    scores is *)
Lemma in_range_from change_id member index :
  Provider.in_range change_id (-1) (Provider.last_change member index) = true
  <-> ∃ s, (s, member) ∈ index ∧ change_id <= s.
Proof.
  pose proof (last_change_spec member index) as Hspec.
  destruct (Provider.last_change member index) as [s|]; simpl.
  - destruct Hspec as [Hin Hmax].
    rewrite andb_true_r, bool_decide_eq_true. split; [by eauto|].
    intros (s' & Hs' & Hle). specialize (Hmax _ Hs'). lia.
  - split; [done|]. intros (s & Hs & _). exfalso. apply Hspec.
    apply list_elem_of_fmap. by exists (s, member).
Qed.

(** every element in range that is in the store is reported as changed *)
Lemma get_data_since_complete change_id user_id max_change_id p changed
    deleted m v collection_string id :
  Provider.get_data_since change_id user_id max_change_id p
  = Ok (changed, deleted) ->
  m ∈ map snd (Provider.change_index p) ->
  Provider.in_range change_id max_change_id
    (Provider.last_change m (Provider.change_index p)) = true ->
  PyDict.get m (Provider.store user_id p) = Some v ->
  split_element_id m = Ok (collection_string, id) ->
  ∃ values, PyDict.get collection_string changed = Some values ∧ v ∈ values.
Proof.
  unfold Provider.get_data_since. intros Hloop Hm Hrange Hget Hsplit.
  apply (for_each_pure_round
    (fun acc acc' : list (string * list serialized) * list string =>
       ∀ c b, (∃ bs, PyDict.get c acc.1 = Some bs ∧ b ∈ bs) ->
              ∃ bs', PyDict.get c acc'.1 = Some bs' ∧ b ∈ bs')) in Hloop
    as [_ Hrounds].
  - destruct (Hrounds m) as ([ch de] & [ch' de'] & Hbody & Hkept).
    { apply list_elem_of_filter. split; [done|]. by apply elem_of_remove_dups. }
    rewrite Hget, Hsplit in Hbody. simpl in Hbody. injection Hbody as <- <-.
    apply Hkept. simpl. unfold PyDict.append_to.
    rewrite PyDictFacts.get_set_eq. eexists. split; [done|].
    apply elem_of_app. right. left.
  - auto.
  - intros a1 a2 a3 H12 H23 c b Hb. by apply H23, H12.
  - intros m' [ch de] [ch' de'] Hbody c b (bs & Hbs & Hb). simpl in *.
    destruct (PyDict.get m' _); [|injection Hbody as <- _; eauto].
    destruct (split_element_id m') as [[c' i']| |]; simpl in Hbody; try done.
    injection Hbody as <- _. unfold PyDict.append_to.
    destruct (decide (c' = c)) as [->|Hne].
    + rewrite PyDictFacts.get_set_eq, Hbs. simpl. eexists. split; [done|].
      apply elem_of_app. by left.
    + rewrite PyDictFacts.get_set_ne by done. eauto.
Qed.

(** [get_data_since] returns when the members in range that are in the store
    are element ids *)
Lemma get_data_since_in_range_Ok change_id user_id max_change_id p :
  (∀ m v, Provider.in_range change_id max_change_id
            (Provider.last_change m (Provider.change_index p)) = true ->
          PyDict.get m (Provider.store user_id p) = Some v ->
          well_formed_id m) ->
  ∃ r, Provider.get_data_since change_id user_id max_change_id p = Ok r.
Proof.
  intros Hwf. unfold Provider.get_data_since.
  match goal with |- context [for_each_pure ?xs ?body ?acc] =>
    destruct (for_each_pure_Ok (fun _ => True) xs body acc) as (r & -> & _)
  end; [done | | by eexists].
  intros m [ch de] Hm _.
  apply list_elem_of_filter in Hm as [Hrange _].
  destruct (PyDict.get m _) as [v|] eqn:Hget; [|by eexists].
  specialize (Hwf m v Hrange Hget). unfold well_formed_id in Hwf.
  destruct (split_element_id m) as [[c i]| |]; [|done..].
  simpl. by eexists.
Qed.

Lemma get_decode_changed c raw :
  PyDict.get c (decode_changed raw) = map json_loads <$> PyDict.get c raw.
Proof.
  unfold decode_changed. induction raw as [|[c' l] raw IH]; simpl; [done|].
  by case_decide.
Qed.

(** X18 (write, then delta).  On a cache whose recorded ChangeIds are positive
    and below the next one, after [change_elements] on a non-empty batch with
    distinct element ids as keys, [get_full_data] since the returned ChangeId
    returns the batch: the deletion list holds exactly the keys with a false
    body, and the changes hold, under the collection of its key, exactly
    every true body. *)
Theorem change_elements_delta elements self change_id self' :
  NoDup (PyDict.keys elements) -> elements ≠ [] ->
  Forall well_formed_id (PyDict.keys elements) ->
  Forall (fun entry => 0 < entry.1 < next_change_id self)
    (Provider.change_index (cache_provider self)) ->
  0 < next_change_id self ->
  change_elements elements self = (Ok change_id, self') ->
  ∃ changed deleted,
    get_full_data change_id (-1) self' = (Ok (changed, deleted), self') ∧
    (∀ k, k ∈ deleted <->
       ∃ data, PyDict.get k elements = Some data ∧ truthy data = false) ∧
    (∀ c body,
       (∃ bodies, PyDict.get c changed = Some bodies ∧ body ∈ bodies) <->
       ∃ k id, PyDict.get k elements = Some body ∧ truthy body = true ∧
               split_element_id k = Ok (c, id)).
Proof.
  intros Hnd Hne Hwf Hidx Hpos Hrun.
  destruct (ensured self) eqn:Hens.
  2: { revert Hrun. unfold change_elements. mstep. by rewrite Hens. }
  destruct (change_elements_Ok elements self Hens)
    as (s & Hrun' & Hstore & _ & Hindex & _).
  rewrite Hrun' in Hrun. injection Hrun as <- <-.
  set (C := next_change_id self) in *.
  set (p' := cache_provider s) in *.
  (* the members in range are the keys of the batch *)
  assert (Hrange : ∀ k,
    Provider.in_range C (-1) (Provider.last_change k (Provider.change_index p'))
    = true <-> k ∈ PyDict.keys elements).
  { intros k. rewrite in_range_from, Hindex. split.
    - intros (s' & [Hold|Hnew]%elem_of_app & Hle).
      + rewrite Forall_forall in Hidx. specialize (Hidx _ Hold). simpl in Hidx.
        lia.
      + by apply list_elem_of_fmap in Hnew as (k' & [= _ ->] & Hk').
    - intros Hk. exists C. split; [|lia]. apply elem_of_app. right.
      apply list_elem_of_fmap. by exists k. }
  (* what the store holds under these keys *)
  assert (Hget : ∀ k data, PyDict.get k elements = Some data ->
    PyDict.get k (Provider.store None p')
    = if truthy data then Some (json_dumps data) else None).
  { intros k data Hk. subst p'. rewrite Hstore.
    destruct (partition_elements_get elements k Hnd) as (Hnd' & Hch & Hde).
    rewrite get_del_all, get_update, Hch, Hk by done.
    destruct (truthy data) eqn:Ht.
    - rewrite decide_False; [done|]. intros (d & Hd & ?)%Hde. congruence.
    - rewrite decide_True; [done|]. apply Hde. eauto. }
  assert (Hkeys : ∀ k, k ∈ PyDict.keys elements ->
    ∃ data, PyDict.get k elements = Some data).
  { intros k Hk. destruct (PyDict.get k elements) as [d|] eqn:Hd; [by eexists|].
    by apply PyDictFacts.get_None_keys in Hd. }
  (* the low-water mark *)
  destruct elements as [|[k0 data0] elements'] eqn:Helements; [done|].
  rewrite <- Helements in *.
  assert (Hk0 : (C, k0) ∈ Provider.change_index p').
  { rewrite Hindex. apply elem_of_app. right. apply list_elem_of_fmap.
    exists k0. split; [done|]. rewrite Helements. left. }
  assert (∃ lowest, Provider.get_lowest_change_id p' = Some lowest)
    as [lowest Hlow].
  { unfold Provider.get_lowest_change_id.
    destruct (Provider.change_index p'); [by apply elem_of_nil in Hk0|].
    by eexists. }
  destruct (lowest_change_id_spec _ _ Hlow) as [Hall (e & He & Hel)].
  assert (0 < lowest <= C) as [Hl0 HlC].
  { split; [|apply (Hall _ Hk0)]. subst lowest. revert He. rewrite Hindex.
    intros [Hold|Hnew]%elem_of_app.
    - rewrite Forall_forall in Hidx. by apply (Hidx _ Hold).
    - by apply list_elem_of_fmap in Hnew as (k' & -> & _). }
  (* the provider's answer *)
  destruct (get_data_since_in_range_Ok C None (-1) p') as [[raw deleted] Hsince].
  { intros m v Hm Hv. apply Hrange in Hm.
    rewrite Forall_forall in Hwf. by apply Hwf. }
  exists (decode_changed raw), deleted. split; [|split].
  - apply (get_full_data_since _ _ _ lowest); [lia|done|lia|lia|done].
  - intros k. rewrite (get_data_since_deleted _ _ _ _ _ _ Hsince). split.
    + intros (_ & Hin%Hrange & Hnone).
      destruct (Hkeys _ Hin) as [data Hdata]. exists data. split; [done|].
      rewrite (Hget _ _ Hdata) in Hnone. by destruct (truthy data).
    + intros (data & Hdata & Ht).
      assert (Hk : k ∈ PyDict.keys elements) by by eapply get_Some_keys.
      split; [|split].
      * rewrite Hindex, map_app. apply elem_of_app. right.
        rewrite map_map. simpl. by rewrite map_id.
      * by apply Hrange.
      * by rewrite (Hget _ _ Hdata), Ht.
  - intros c body. rewrite get_decode_changed. split.
    + intros (bodies & Hbodies & Hbody).
      destruct (PyDict.get c raw) as [values|] eqn:Hvalues; [|done].
      injection Hbodies as <-.
      apply list_elem_of_fmap in Hbody as (v & -> & Hv).
      apply get_Some_elem in Hvalues.
      destruct (get_data_since_changed _ _ _ _ _ _ Hsince _ _ _ Hvalues Hv)
        as (m & id & Hm%Hrange & Hv' & Hsplit).
      destruct (Hkeys _ Hm) as [data Hdata].
      rewrite (Hget _ _ Hdata) in Hv'.
      destruct (truthy data) eqn:Ht; [|done]. injection Hv' as <-.
      by exists m, id.
    + intros (k & id & Hdata & Ht & Hsplit).
      assert (Hk : k ∈ PyDict.keys elements) by by eapply get_Some_keys.
      destruct (get_data_since_complete C None (-1) p' raw deleted k
                  (json_dumps body) c id) as (values & Hvalues & Hv);
        [done| |by apply Hrange|by rewrite (Hget _ _ Hdata), Ht|done|].
      * rewrite Hindex, map_app. apply elem_of_app. right.
        rewrite map_map. simpl. by rewrite map_id.
      * rewrite Hvalues. simpl. eexists. split; [done|].
        apply list_elem_of_fmap. by exists (json_dumps body).
Qed.

Lemma change_elements_delta_witness :
  NoDup (PyDict.keys [("motion:1", JNull); ("motion:2", motion2 "B")])
  ∧ [("motion:1", JNull); ("motion:2", motion2 "B")] ≠ []
  ∧ Forall well_formed_id
      (PyDict.keys [("motion:1", JNull); ("motion:2", motion2 "B")])
  ∧ Forall (fun entry => 0 < entry.1 < next_change_id (built_cache true))
      (Provider.change_index (cache_provider (built_cache true)))
  ∧ 0 < next_change_id (built_cache true)
  ∧ change_elements [("motion:1", JNull); ("motion:2", motion2 "B")]
      (built_cache true)
    = (Ok 1001,
       state_after
         (change_elements [("motion:1", JNull); ("motion:2", motion2 "B")])
         (built_cache true))
  ∧ get_full_data 1001 (-1)
      (state_after
         (change_elements [("motion:1", JNull); ("motion:2", motion2 "B")])
         (built_cache true))
    = (Ok ([("motion", [motion2 "B"])], ["motion:1"]),
       state_after
         (change_elements [("motion:1", JNull); ("motion:2", motion2 "B")])
         (built_cache true)).
Proof.
  assert (Hnd : NoDup (PyDict.keys
    [("motion:1", JNull); ("motion:2", motion2 "B")])) by compute_done.
  assert (Hne : [("motion:1", JNull); ("motion:2", motion2 "B")] ≠ [])
    by discriminate.
  assert (Hwf : Forall well_formed_id
    (PyDict.keys [("motion:1", JNull); ("motion:2", motion2 "B")]))
    by compute_done.
  assert (Hidx : Forall
    (fun entry => 0 < entry.1 < next_change_id (built_cache true))
    (Provider.change_index (cache_provider (built_cache true))))
    by apply Forall_nil_2.
  assert (Hpos : 0 < next_change_id (built_cache true)) by reflexivity.
  assert (Hrun :
    change_elements [("motion:1", JNull); ("motion:2", motion2 "B")]
      (built_cache true)
    = (Ok 1001,
       state_after
         (change_elements [("motion:1", JNull); ("motion:2", motion2 "B")])
         (built_cache true))) by (vm_compute; reflexivity).
  destruct (change_elements_delta _ _ _ _ Hnd Hne Hwf Hidx Hpos Hrun)
    as (changed & deleted & Hread & _).
  split; [exact Hnd|]. split; [exact Hne|]. split; [exact Hwf|].
  split; [exact Hidx|]. split; [exact Hpos|]. split; [exact Hrun|].
  rewrite Hread. revert Hread. vm_compute. by intros [= <- <-].
Defined.

(** ** The first refresh of a user *)

Lemma elem_of_del_all {K V} `{EqDecision K} (ks : list K) (k : K) (v : V) d :
  (k, v) ∈ PyDict.del_all ks d -> (k, v) ∈ d.
Proof.
  unfold PyDict.del_all. revert d.
  induction ks as [|k0 ks IH]; intros d; simpl; [done|].
  intros Hin%IH. clear IH. induction d as [|[k1 v1] d IHd]; simpl in *; [done|].
  case_decide.
  - right. by apply IHd.
  - apply elem_of_cons in Hin as [->|Hin]; [left|right; by apply IHd].
Qed.

(** the loop of [update_restricted_data] over the fetched collections, on a
    dictionary of collections *)
Lemma restrict_full_data_spec self user_id
    (full_data_elements : list (string * list json)) :
  NoDup (PyDict.keys full_data_elements) ->
  ∀ mapping0 deleted0 mapping deleted,
    for_each_pure full_data_elements (restrict_collection self user_id)
      (mapping0, deleted0) = Ok (mapping, deleted) ->
    (∀ k v, PyDict.get k mapping = Some v ->
       PyDict.get k mapping0 = Some v
       ∨ ∃ c full_data elements element id,
           (c, full_data) ∈ full_data_elements ∧
           restrict self user_id c full_data = Ok elements ∧
           element ∈ elements ∧ element_id_of element = Ok id ∧
           k = get_element_id c id ∧ v = json_dumps element)
    ∧ (∀ c full_data, (c, full_data) ∈ full_data_elements ->
         ∃ elements,
           restrict self user_id c full_data = Ok elements ∧
           ∀ element id, element ∈ elements -> element_id_of element = Ok id ->
             ∃ element', element' ∈ elements ∧ element_id_of element' = Ok id ∧
               PyDict.get (get_element_id c id) mapping
               = Some (json_dumps element'))
    ∧ (∀ k, k ∈ deleted ->
         k ∈ deleted0
         ∨ ∃ c full_data elements id,
             (c, full_data) ∈ full_data_elements ∧
             restrict self user_id c full_data = Ok elements ∧
             has_id full_data id ∧ ¬ has_id elements id ∧
             k = get_element_id c id)
    ∧ (∀ k, (∀ c id, c ∈ PyDict.keys full_data_elements ->
               k ≠ get_element_id c id) ->
         PyDict.get k mapping = PyDict.get k mapping0)
    ∧ (∀ k, k ∈ deleted0 -> k ∈ deleted).
Proof.
  induction full_data_elements as [|[c0 fd0] fde IH];
    intros Hnd mapping0 deleted0 mapping deleted; cbn [for_each_pure].
  - intros [= <- <-]. split; [auto|]. split; [|auto].
    by intros c fd Hin%elem_of_nil.
  - change (PyDict.keys ((c0, fd0) :: fde)) with (c0 :: PyDict.keys fde) in *.
    apply NoDup_cons in Hnd as [Hnotin Hnd].
    destruct (restrict_collection self user_id (c0, fd0) (mapping0, deleted0))
      as [[m1 d1]| |] eqn:Hround; try done.
    intros Hrest.
    destruct (IH Hnd _ _ _ _ Hrest) as (Hfrom & Hall & Hdel & Hother & Hmono).
    revert Hround. unfold restrict_collection.
    destruct (restrict self user_id c0 fd0) as [els0| |] eqn:Hr0;
      simpl; try done.
    destruct (id_set fd0) as [fids| |] eqn:Hfids; simpl; try done.
    destruct (id_set els0) as [rids| |] eqn:Hrids; simpl; try done.
    destruct (for_each_pure els0 _ mapping0) as [m1'| |] eqn:Hinner;
      simpl; try done.
    intros [= -> <-].
    destruct (build_collection_spec _ _ _ _ Hinner)
      as (Hfrom0 & _ & Hall0 & Hother0).
    split; [|split; [|split; [|split]]].
    + intros k v [Hget|(c & fd & els & e & id & Hc & ?)]%Hfrom.
      * destruct (Hfrom0 _ _ Hget) as [?|(e & id & He & Hid & -> & ->)];
          [by left|].
        right. exists c0, fd0, els0, e, id. split; [left|done].
      * right. exists c, fd, els, e, id. split; [by right|done].
    + intros c fd [Heq|Hc]%elem_of_cons.
      * simplify_eq. exists els0. split; [done|]. intros e id He Hid.
        destruct (Hall0 e id He Hid) as (e' & He' & Hid' & Hget).
        exists e'. do 2 (split; [done|]).
        rewrite Hother; [done|].
        intros c id' Hc Heq. apply get_element_id_inj in Heq as [-> _]. done.
      * by apply Hall.
    + intros k [Hk|(c & fd & els & id & Hc & ?)]%Hdel.
      * apply elem_of_app in Hk as [?|Hk]; [by left|]. right.
        apply list_elem_of_fmap in Hk as (id & -> & Hid).
        apply list_elem_of_difference in Hid as [Hf Hn].
        exists c0, fd0, els0, id. split; [left|]. split; [done|].
        split; [by apply (id_set_spec _ _ Hfids)|].
        split; [|done]. by intros ?%(id_set_spec _ _ Hrids).
      * right. exists c, fd, els, id. split; [by right|done].
    + intros k Hk. rewrite Hother.
      * apply Hother0. intros id. apply Hk. left.
      * intros c id Hc. apply Hk. by right.
    + intros k Hk. apply Hmono, elem_of_app. by left.
Qed.

(** X19 (first snapshot of a user).  With caching enabled, for a user whose
    store is empty and a current ChangeId above [-1], a
    [get_all_restricted_data] that returns has filtered all full data: every
    body of the snapshot is let through by the filter of its collection on
    the full data of that collection, and for every element that a filter
    lets through, of a collection whose name does not start with
    ["_config"], the snapshot holds an element with the same id that the
    filter let through. *)
Theorem first_refresh_filters_all_data fuel user_id self result self' :
  use_restricted_data_cache self = true ->
  restricted_store user_id self = [] ->
  -1 < current_change_id self ->
  get_all_restricted_data fuel user_id self = (Ok result, self') ->
  ∃ all_data,
    get_all_full_data self = (Ok all_data, self) ∧
    (∀ c bodies body,
       PyDict.get c result = Some bodies -> body ∈ bodies ->
       ∃ full_data elements,
         (c, full_data) ∈ all_data ∧
         restrict self user_id c full_data = Ok elements ∧
         body ∈ elements) ∧
    (∀ c full_data, (c, full_data) ∈ all_data ->
       ∃ elements,
         restrict self user_id c full_data = Ok elements ∧
         (String.prefix "_config" c = false ->
          ∀ element id,
            element ∈ elements -> element_id_of element = Ok id ->
            ∃ bodies element',
              PyDict.get c result = Some bodies ∧ element' ∈ bodies ∧
              element' ∈ elements ∧ element_id_of element' = Ok id)).
Proof.
  intros Huse Hempty Hcur. unfold get_all_restricted_data. mstep.
  rewrite Huse. simpl. rewrite bind_unfold.
  destruct (update_restricted_data fuel user_id self) as [[[]| |] s1] eqn:Hrun;
    try done.
  mstep. unfold Provider.get_all_data, lift.
  destruct (group_restricted _) as [out| |] eqn:Hgroup; try done.
  intros [= <- <-].
  apply update_restricted_data_Ok in Hrun as (Hens & Hfree & s2 & Hcrit & ->);
    [|done].
  change (Provider.store (Some user_id) (cache_provider (with_provider _ s2)))
    with (Provider.store (Some user_id) (cache_provider s2)) in Hgroup.
  apply refresh_if_stale_Ok in Hcrit as (ucid & Hrec & Hcases).
  revert Hrec. unfold recorded_change_id, Provider.get_change_id_user.
  change (Provider.store (Some user_id) (cache_provider (holding _ self)))
    with (restricted_store user_id self).
  rewrite Hempty. simpl. intros [= <-].
  change (current_change_id (holding _ self))
    with (current_change_id self) in Hcases.
  rewrite (proj2 (Z.ltb_lt (-1) (current_change_id self))) in Hcases by done.
  apply refresh_restricted_data_Ok in Hcases
    as (fde & deleted0 & s3 & mapping & deleted & Hfetch & Hloop & _ & Hstore).
  change (restrict_full_data (holding _ self) user_id fde deleted0)
    with (restrict_full_data self user_id fde deleted0) in Hloop.
  revert Hfetch. unfold fetch_full_data, except_RuntimeError, get_full_data.
  change (-1 + 1 =? 0) with true. cbv iota.
  rewrite bind_unfold, get_all_full_data_holding.
  destruct (get_all_full_data self) as [[all_data| e |] s] eqn:Hall; try done.
  2: { apply get_all_full_data_Raise in Hall as [msg ->]. done. }
  destruct (get_all_full_data_Ok _ _ _ Hall) as (-> & _ & _ & _ & Hnd & _).
  simpl. intros [= <- <- <-].
  exists all_data. split; [done|].
  assert (Hstore' : Provider.store (Some user_id) (cache_provider s2)
    = PyDict.del_all deleted
        (PyDict.set "_config:change_id"
           (str_of_int (current_change_id self)) mapping)).
  { rewrite Hstore.
    change (Provider.store (Some user_id) (cache_provider (holding _ self)))
      with (restricted_store user_id self).
    rewrite Hempty. f_equal.
    apply restrict_full_data_Ok in Hloop as (Hnd' & _).
    rewrite update_new; [done|]. simpl. by apply keys_set_NoDup. }
  pose proof (restrict_full_data_Ok _ _ _ _ _ _ Hloop) as (Hmnd & _).
  unfold restrict_full_data in Hloop.
  apply restrict_full_data_spec in Hloop as (Hfrom & Hall' & Hdel & _ & _);
    [|done].
  rewrite Hstore' in Hgroup. split.
  - intros c bodies body Hc Hbody. apply get_Some_elem in Hc.
    destruct (group_restricted_sound _ _ Hgroup _ _ _ Hc Hbody)
      as (_ & k & data & id & Hin & Hp & Hsplit & ->).
    apply elem_of_del_all, elem_of_set in Hin as [[-> _]|Hin]; [done|].
    apply elem_get_NoDup in Hin; [|done].
    destruct (Hfrom _ _ Hin)
      as [?|(c' & fd & els & e & id' & Hc' & Hr & He & Hid & -> & ->)];
      [done|].
    rewrite split_get_element_id in Hsplit. injection Hsplit as <- <-.
    by exists fd, els.
  - intros c fd Hc. destruct (Hall' _ _ Hc) as (els & Hr & Hels).
    exists els. split; [done|]. intros Hp e id He Hid.
    destruct (Hels e id He Hid) as (e' & He' & Hid' & Hget).
    destruct (group_restricted_complete _ _ Hgroup
                (get_element_id c id) (json_dumps e') c id)
      as (bodies & Hbodies & Hin).
    + apply get_Some_elem. rewrite PyDictFacts.get_del_all_notin.
      * rewrite PyDictFacts.get_set_ne; [done|].
        intros Heq. symmetry in Heq.
        by apply get_element_id_not_sentinel in Heq.
      * intros [?|(c' & fd' & els' & id' & Hc' & Hr' & _ & Hn & Heq)]%Hdel;
          [by apply elem_of_nil in H|].
        apply get_element_id_inj in Heq as [<- <-].
        assert (fd' = fd) as ->.
        { apply elem_get_NoDup in Hc, Hc'; [|done..]. congruence. }
        apply Hn. exists e. split; [|done]. congruence.
    + apply prefix_get_element_id; [apply config_no_separator|done].
    + apply split_get_element_id.
    + by exists bodies, e'.
Qed.

Lemma first_refresh_filters_all_data_witness :
  use_restricted_data_cache (built_cache true) = true
  ∧ restricted_store 7 (built_cache true) = []
  ∧ -1 < current_change_id (built_cache true)
  ∧ get_all_restricted_data 0 7 (built_cache true)
    = (Ok [("motion", [motion "A"])], read_cache)
  ∧ ∃ all_data,
      get_all_full_data (built_cache true) = (Ok all_data, built_cache true) ∧
      (∀ c bodies body,
         PyDict.get c [("motion", [motion "A"])] = Some bodies ->
         body ∈ bodies ->
         ∃ full_data elements,
           (c, full_data) ∈ all_data ∧
           restrict (built_cache true) 7 c full_data = Ok elements ∧
           body ∈ elements) ∧
      (∀ c full_data, (c, full_data) ∈ all_data ->
         ∃ elements,
           restrict (built_cache true) 7 c full_data = Ok elements ∧
           (String.prefix "_config" c = false ->
            ∀ element id,
              element ∈ elements -> element_id_of element = Ok id ->
              ∃ bodies element',
                PyDict.get c [("motion", [motion "A"])] = Some bodies ∧
                element' ∈ bodies ∧
                element' ∈ elements ∧ element_id_of element' = Ok id)).
Proof.
  assert (Huse : use_restricted_data_cache (built_cache true) = true)
    by reflexivity.
  assert (Hempty : restricted_store 7 (built_cache true) = []) by reflexivity.
  assert (Hcur : -1 < current_change_id (built_cache true))
    by (vm_compute; reflexivity).
  assert (Hrun : get_all_restricted_data 0 7 (built_cache true)
    = (Ok [("motion", [motion "A"])], read_cache))
    by (vm_compute; reflexivity).
  split; [exact Huse|]. split; [exact Hempty|]. split; [exact Hcur|].
  split; [exact Hrun|].
  exact (first_refresh_filters_all_data 0 7 _ _ _ Huse Hempty Hcur Hrun).
Defined.

(** ** The incremental refresh *)

(** the collections of a delta are distinct *)
Lemma get_full_data_NoDup change_id max_change_id self changed deleted self' :
  get_full_data change_id max_change_id self = (Ok (changed, deleted), self') ->
  NoDup (PyDict.keys changed).
Proof.
  intros Hrun. apply get_full_data_Ok in Hrun
    as (_ & [(_ & Hall & _)|(_ & lowest & raw & _ & _ & Hsince & ->)]).
  - by destruct (get_all_full_data_Ok _ _ _ Hall) as (_ & _ & _ & _ & Hnd & _).
  - rewrite keys_decode_changed. by eapply get_data_since_NoDup.
Qed.

Lemma get_full_data_holding lock_name change_id max_change_id self :
  get_full_data change_id max_change_id (holding lock_name self)
  = ((get_full_data change_id max_change_id self).1, holding lock_name self).
Proof.
  unfold get_full_data. destruct (change_id =? 0).
  - rewrite !bind_unfold, get_all_full_data_holding.
    destruct (get_all_full_data self) as [o s] eqn:Hall.
    apply get_all_full_data_state in Hall as ->. by destruct o.
  - rewrite !bind_unfold, get_lowest_change_id_holding.
    rewrite get_lowest_change_id_unfold. simpl.
    destruct (Provider.get_lowest_change_id _) as [n|]; [|done].
    destruct (n =? 0); [done|]. destruct (change_id <? n); [done|].
    mstep.
    change (Provider.get_data_since change_id None max_change_id
              (cache_provider (holding lock_name self)))
      with (Provider.get_data_since change_id None max_change_id
              (cache_provider self)).
    by destruct (Provider.get_data_since _ _ _ _) as [[? ?]| |].
Qed.

(** X20 (incremental refresh).  With caching enabled, for a user whose
    recorded ChangeId is below the current one, when [get_full_data] since
    the next ChangeId returns a delta and [update_restricted_data] returns:
    the ids of the delta's deletion list are not in the user's store; for
    every changed collection the filter has run, each element it let through
    is stored under its id (unless the deletion list names that id), and each
    id of the delta that it dropped is not in the store; every other key but
    the sentinel holds what it held before. *)
Theorem update_restricted_data_applies_delta fuel user_id self self'
    user_change_id changed_elements deleted_elements :
  use_restricted_data_cache self = true ->
  recorded_change_id user_id self = Ok user_change_id ->
  user_change_id < current_change_id self ->
  get_full_data (user_change_id + 1) (-1) self
  = (Ok (changed_elements, deleted_elements), self) ->
  update_restricted_data fuel user_id self = (Ok tt, self') ->
  (∀ k, k ∈ deleted_elements ->
     PyDict.get k (restricted_store user_id self') = None)
  ∧ (∀ c full_data, (c, full_data) ∈ changed_elements ->
       ∃ elements,
         restrict self user_id c full_data = Ok elements ∧
         (∀ element id,
            element ∈ elements -> element_id_of element = Ok id ->
            get_element_id c id ∉ deleted_elements ->
            ∃ element', element' ∈ elements ∧ element_id_of element' = Ok id ∧
              PyDict.get (get_element_id c id) (restricted_store user_id self')
              = Some (json_dumps element')) ∧
         (∀ id, has_id full_data id -> ¬ has_id elements id ->
            PyDict.get (get_element_id c id) (restricted_store user_id self')
            = None))
  ∧ (∀ k, k ≠ "_config:change_id" -> k ∉ deleted_elements ->
       (∀ c full_data elements id,
          (c, full_data) ∈ changed_elements ->
          restrict self user_id c full_data = Ok elements ->
          has_id full_data id ∨ has_id elements id ->
          k ≠ get_element_id c id) ->
       PyDict.get k (restricted_store user_id self')
       = PyDict.get k (restricted_store user_id self)).
Proof.
  intros Huse Hrec Hlt Hdelta Hrun.
  pose proof (get_full_data_NoDup _ _ _ _ _ _ Hdelta) as Hnd.
  apply update_restricted_data_Ok in Hrun as (Hens & Hfree & s1 & Hcrit & ->);
    [|done].
  apply refresh_if_stale_Ok in Hcrit as (ucid & Hrec' & Hcases).
  change (recorded_change_id user_id (holding _ self))
    with (recorded_change_id user_id self) in Hrec'.
  assert (ucid = user_change_id) as -> by congruence.
  change (current_change_id (holding _ self))
    with (current_change_id self) in Hcases.
  rewrite (proj2 (Z.ltb_lt _ _) Hlt) in Hcases.
  apply refresh_restricted_data_Ok in Hcases
    as (fde & deleted0 & s2 & mapping & deleted & Hfetch & Hloop & _ & Hstore).
  change (restrict_full_data (holding _ self) user_id fde deleted0)
    with (restrict_full_data self user_id fde deleted0) in Hloop.
  revert Hfetch. unfold fetch_full_data, except_RuntimeError.
  rewrite get_full_data_holding, Hdelta. simpl. intros [= <- <- <-].
  change (restricted_store user_id (with_provider _ s1))
    with (Provider.store (Some user_id) (cache_provider s1)).
  rewrite Hstore.
  change (Provider.store (Some user_id) (cache_provider (holding _ self)))
    with (restricted_store user_id self).
  pose proof (restrict_full_data_Ok _ _ _ _ _ _ Hloop)
    as (Hmnd & _ & _ & Hhidden).
  unfold restrict_full_data in Hloop.
  apply restrict_full_data_spec in Hloop
    as (Hfrom & Hall & Hdel & _ & Hmono); [|done].
  assert (Hsnd : NoDup (PyDict.keys (PyDict.set "_config:change_id"
      (str_of_int (current_change_id self)) mapping)))
    by by apply keys_set_NoDup.
  split; [|split].
  - intros k Hk. by apply PyDictFacts.get_del_all_elem, Hmono.
  - intros c fd Hc. destruct (Hall _ _ Hc) as (els & Hr & Hels).
    exists els. split; [done|]. split.
    + intros e id He Hid Hnot.
      destruct (Hels e id He Hid) as (e' & He' & Hid' & Hget).
      exists e'. do 2 (split; [done|]).
      rewrite PyDictFacts.get_del_all_notin.
      * rewrite get_update by done. rewrite PyDictFacts.get_set_ne, Hget; [done|].
        intros Heq. symmetry in Heq.
        by apply get_element_id_not_sentinel in Heq.
      * intros [?|(c' & fd' & els' & id' & Hc' & Hr' & _ & Hn & Heq)]%Hdel;
          [done|].
        apply get_element_id_inj in Heq as [<- <-].
        assert (fd' = fd) as ->.
        { apply elem_get_NoDup in Hc, Hc'; [|done..]. congruence. }
        apply Hn. exists e. split; [|done]. congruence.
    + intros id Hf Hn. apply PyDictFacts.get_del_all_elem.
      destruct (Hhidden _ _ Hc) as (els' & Hr' & Hh).
      apply Hh; [done|]. congruence.
  - intros k Hsent Hnot Hfresh.
    rewrite PyDictFacts.get_del_all_notin.
    + rewrite get_update by done.
      rewrite PyDictFacts.get_set_ne by done.
      destruct (PyDict.get k mapping) as [v|] eqn:Hget; [|done].
      destruct (Hfrom _ _ Hget)
        as [?|(c & fd & els & e & id & Hc & Hr & He & Hid & -> & _)]; [done|].
      exfalso. apply (Hfresh c fd els id Hc Hr); [|done].
      right. by exists e.
    + intros [?|(c & fd & els & id & Hc & Hr & Hf & _ & ->)]%Hdel; [done|].
      apply (Hfresh c fd els id Hc Hr); [|done]. by left.
Qed.

Lemma update_restricted_data_applies_delta_witness :
  use_restricted_data_cache retitled_cache = true
  ∧ recorded_change_id 7 retitled_cache = Ok 1000
  ∧ 1000 < current_change_id retitled_cache
  ∧ get_full_data (1000 + 1) (-1) retitled_cache
    = (Ok ([("motion", [motion "B"])], []), retitled_cache)
  ∧ update_restricted_data 0 7 retitled_cache
    = (Ok tt, state_after (update_restricted_data 0 7) retitled_cache)
  ∧ restrict retitled_cache 7 "motion" [motion "B"] = Ok []
  ∧ PyDict.get "motion:1" (restricted_store 7 retitled_cache)
    = Some (json_dumps (motion "A"))
  ∧ PyDict.get (get_element_id "motion" 1)
      (restricted_store 7
         (state_after (update_restricted_data 0 7) retitled_cache))
    = None.
Proof.
  assert (Huse : use_restricted_data_cache retitled_cache = true)
    by reflexivity.
  assert (Hrec : recorded_change_id 7 retitled_cache = Ok 1000)
    by (vm_compute; reflexivity).
  assert (Hstale : 1000 < current_change_id retitled_cache)
    by (vm_compute; reflexivity).
  assert (Hdelta : get_full_data (1000 + 1) (-1) retitled_cache
    = (Ok ([("motion", [motion "B"])], []), retitled_cache))
    by (vm_compute; reflexivity).
  assert (Hrun : update_restricted_data 0 7 retitled_cache
    = (Ok tt, state_after (update_restricted_data 0 7) retitled_cache))
    by (vm_compute; reflexivity).
  assert (Hfilter : restrict retitled_cache 7 "motion" [motion "B"] = Ok [])
    by (vm_compute; reflexivity).
  destruct (update_restricted_data_applies_delta 0 7 _ _ _ _ _
              Huse Hrec Hstale Hdelta Hrun) as (_ & Hchanged & _).
  destruct (Hchanged "motion" [motion "B"] (list_elem_of_here _ _))
    as (elements & Hr & _ & Hhidden).
  split; [exact Huse|]. split; [exact Hrec|]. split; [exact Hstale|].
  split; [exact Hdelta|]. split; [exact Hrun|]. split; [exact Hfilter|].
  split; [vm_compute; reflexivity|].
  apply Hhidden.
  - exists (motion "B"). split; [apply list_elem_of_here | reflexivity].
  - rewrite Hfilter in Hr. injection Hr as <-.
    intros (element & Hin & _). by apply elem_of_nil in Hin.
Defined.

(** ** A refresh that fails *)

(** a refresh that does not return has written nothing after the fetch *)
Lemma refresh_restricted_data_fails user_id user_change_id change_id
    self r self' :
  refresh_restricted_data user_id user_change_id change_id self = (r, self') ->
  r ≠ Ok tt ->
  restricted_store user_id self' = restricted_store user_id self
  ∨ restricted_store user_id self' = [].
Proof.
  unfold refresh_restricted_data. rewrite bind_unfold.
  destruct (fetch_full_data user_id user_change_id self) as [o s1] eqn:Hf.
  apply fetch_full_data_store in Hf.
  destruct o as [[full_data_elements deleted_elements]| |];
    try (by intros [= _ <-]).
  mstep. rewrite bind_lift.
  destruct (restrict_full_data _ _ _ _) as [[mapping deleted]| |];
    try (by intros [= _ <-]).
  mstep. by destruct (bool_decide _); mstep; intros [= <- _].
Qed.

(** X21 (a refresh that fails).  When [update_restricted_data] does not
    return, the user's store is as it was or empty (purged for a full
    resync): no part of the filtered data has been written. *)
Theorem update_restricted_data_fails fuel user_id self r self' :
  update_restricted_data fuel user_id self = (r, self') ->
  r ≠ Ok tt ->
  restricted_store user_id self' = restricted_store user_id self
  ∨ restricted_store user_id self' = [].
Proof.
  destruct (update_restricted_data_cases fuel user_id self)
    as [->|[[e ->]|[->|(Hfree & r' & s1 & Hcrit & ->)]]];
    try (intros [= _ <-]; by left).
  intros [= <- <-] Hr.
  assert (Hs1 : restricted_store user_id s1 = restricted_store user_id self
                ∨ restricted_store user_id s1 = []).
  { revert Hcrit. unfold refresh_if_stale. mstep.
    assert (Hrest : ∀ user_change_id,
      (change_id ← get_current_change_id;
       if user_change_id <? change_id
       then refresh_restricted_data user_id user_change_id change_id
       else mret tt) (holding (lock_name_of user_id) self) = (r', s1) ->
      restricted_store user_id s1 = restricted_store user_id self
      ∨ restricted_store user_id s1 = []).
    { intros user_change_id.
      rewrite bind_unfold, get_current_change_id_unfold.
      destruct (_ <? _).
      - intros Hrun. by apply refresh_restricted_data_fails in Hrun.
      - by intros [= <- _]. }
    destruct (Provider.get_change_id_user _ _) as [v|].
    - rewrite bind_lift. destruct (int_of_serialized v);
        [apply Hrest | by intros [= _ <-]; left..].
    - mstep. apply Hrest. }
  by destruct r' as [[]| |].
Qed.

Lemma update_restricted_data_fails_witness :
  update_restricted_data 0 7 failing_cache
  = (Raise (KeyError "permission"),
     state_after (update_restricted_data 0 7) failing_cache)
  ∧ Raise (KeyError "permission") ≠ Ok tt
  ∧ (restricted_store 7 (state_after (update_restricted_data 0 7) failing_cache)
     = restricted_store 7 failing_cache
     ∨ restricted_store 7
         (state_after (update_restricted_data 0 7) failing_cache) = []).
Proof.
  assert (Hrun : update_restricted_data 0 7 failing_cache
    = (Raise (KeyError "permission"),
       state_after (update_restricted_data 0 7) failing_cache))
    by (vm_compute; reflexivity).
  assert (Hr : Raise (KeyError "permission") ≠ Ok tt) by discriminate.
  split; [exact Hrun|]. split; [exact Hr|].
  exact (update_restricted_data_fails 0 7 _ _ _ Hrun Hr).
Defined.

(** ** Keys that are not element ids *)

(** a loop with a round that always raises does not return *)
Lemma for_each_pure_poisoned {X Acc} (xs : list X)
    (body : X -> Acc -> outcome Acc) acc x :
  x ∈ xs -> (∀ a a', body x a ≠ Ok a') ->
  ∀ r, for_each_pure xs body acc ≠ Ok r.
Proof.
  intros Hx Hbody r Hloop.
  apply (for_each_pure_round (fun _ _ => True)) in Hloop as [_ Hrounds];
    [|done..].
  destruct (Hrounds x Hx) as (a & a' & Hok & _). by apply (Hbody a a').
Qed.

(** [get_all_full_data] raises as soon as a key of the full store is not an
    element id *)
Lemma get_all_full_data_poisoned self k :
  k ∈ PyDict.keys (Provider.store None (cache_provider self)) ->
  ¬ well_formed_id k ->
  ∃ msg, get_all_full_data self = (Raise (ValueError msg), self).
Proof.
  intros Hk Hbad.
  destruct (get_all_full_data self) as [o s] eqn:Hall.
  apply get_all_full_data_state in Hall as Hs. subst s.
  destruct o as [all_data| e |].
  - exfalso. apply get_all_full_data_Ok in Hall as (_ & ordered & Hord & _).
    revert Hord. unfold get_all_full_data_ordered. mstep.
    unfold lift, Provider.get_all_data. intros [= Hloop].
    apply list_elem_of_fmap in Hk as ([k' d] & -> & Hin).
    refine (for_each_pure_poisoned _ _ _ _ Hin _ _ Hloop).
    intros a a'. simpl. unfold well_formed_id in Hbad. simpl in Hbad.
    by destruct (split_element_id k') as [[c i]| |].
  - apply get_all_full_data_Raise in Hall as Hmsg. destruct Hmsg as [msg ->].
    by exists msg.
  - exfalso. revert Hall.
    unfold get_all_full_data, get_all_full_data_ordered. mstep.
    rewrite bind_lift.
    destruct (for_each_pure _ _ _) as [a| e |] eqn:Hloop; try done.
    apply for_each_pure_Diverge in Hloop as ([k' d] & out & _ & Hbody).
    pose proof (split_element_id_not_Diverge k') as Hnd.
    by destruct (split_element_id k') as [[c i]| |].
Qed.

(** X22 (keys are not checked).  [change_elements] accepts a batch with
    distinct keys one of which is not an element id; when the body under
    that key is true, every later [get_all_full_data], and so every
    [get_full_data] with [change_id = 0], raises a [ValueError]. *)
Theorem change_elements_unchecked_key elements self change_id self' key data :
  NoDup (PyDict.keys elements) ->
  PyDict.get key elements = Some data -> truthy data = true ->
  ¬ well_formed_id key ->
  change_elements elements self = (Ok change_id, self') ->
  ∃ msg,
    get_all_full_data self' = (Raise (ValueError msg), self') ∧
    ∀ max_change_id,
      get_full_data 0 max_change_id self' = (Raise (ValueError msg), self').
Proof.
  intros Hnd Hget Ht Hbad Hrun.
  destruct (ensured self) eqn:Hens.
  2: { revert Hrun. unfold change_elements. mstep. by rewrite Hens. }
  destruct (change_elements_Ok elements self Hens) as (s & Hrun' & Hstore & _).
  rewrite Hrun' in Hrun. injection Hrun as _ <-.
  destruct (get_all_full_data_poisoned s key) as [msg Hall]; [|done|].
  - rewrite Hstore. eapply get_Some_keys.
    destruct (partition_elements_get elements key Hnd) as (Hnd' & Hch & Hde).
    rewrite get_del_all, get_update, Hch, Hget, Ht by done.
    rewrite decide_False; [done|]. intros (d & Hd & ?)%Hde. congruence.
  - exists msg. split; [done|]. intros max_change_id.
    unfold get_full_data. simpl. rewrite bind_unfold. by rewrite Hall.
Qed.

Lemma change_elements_unchecked_key_witness :
  NoDup (PyDict.keys [("motion", motion "B")])
  ∧ PyDict.get "motion" [("motion", motion "B")] = Some (motion "B")
  ∧ truthy (motion "B") = true
  ∧ ¬ well_formed_id "motion"
  ∧ change_elements [("motion", motion "B")] (built_cache false)
    = (Ok 1001,
       state_after (change_elements [("motion", motion "B")])
         (built_cache false))
  ∧ ∃ msg,
      get_all_full_data
        (state_after (change_elements [("motion", motion "B")])
           (built_cache false))
      = (Raise (ValueError msg),
         state_after (change_elements [("motion", motion "B")])
           (built_cache false)) ∧
      ∀ max_change_id,
        get_full_data 0 max_change_id
          (state_after (change_elements [("motion", motion "B")])
             (built_cache false))
        = (Raise (ValueError msg),
           state_after (change_elements [("motion", motion "B")])
             (built_cache false)).
Proof.
  assert (Hnd : NoDup (PyDict.keys [("motion", motion "B")])) by compute_done.
  assert (Hget : PyDict.get "motion" [("motion", motion "B")]
                 = Some (motion "B")) by reflexivity.
  assert (Ht : truthy (motion "B") = true) by reflexivity.
  assert (Hbad : ¬ well_formed_id "motion") by compute_done.
  assert (Hrun : change_elements [("motion", motion "B")] (built_cache false)
    = (Ok 1001,
       state_after (change_elements [("motion", motion "B")])
         (built_cache false))) by (vm_compute; reflexivity).
  split; [exact Hnd|]. split; [exact Hget|]. split; [exact Ht|].
  split; [exact Hbad|]. split; [exact Hrun|].
  exact (change_elements_unchecked_key _ _ _ _ _ _ Hnd Hget Ht Hbad Hrun).
Defined.


(** ** The order of the elements of a collection *)

Lemma ordered_ids collection_string (full_data : list (string * serialized)) :
  ∀ out,
  for_each_pure full_data (fun '(element_id, data) out =>
    '(collection_string, id) ← split_element_id element_id;
    Ok (PyDict.set collection_string
          (PyDict.set id (json_loads data)
             (default [] (PyDict.get collection_string out))) out)) []
  = Ok out ->
  NoDup (collection_ids collection_string full_data) ->
  PyDict.keys (default [] (PyDict.get collection_string out) : list (Z * json))
  = collection_ids collection_string full_data.
Proof.
  unfold collection_ids.
  induction full_data as [|[k d] full_data IH] using rev_ind; intros out.
  - by intros [= <-].
  - rewrite for_each_pure_app, omap_app.
    destruct (for_each_pure full_data _ []) as [out0| |] eqn:Hout0;
      simpl; try done.
    destruct (split_element_id k) as [[c id]| |] eqn:Hsplit; simpl; try done.
    intros [= <-] Hnd.
    destruct (String.eqb_spec c collection_string) as [->|Hne].
    + apply NoDup_app in Hnd as (Hnd & Hdis & _).
      rewrite PyDictFacts.get_set_eq. simpl.
      rewrite set_new, keys_app, (IH out0 eq_refl Hnd); [done|].
      rewrite (IH out0 eq_refl Hnd). intros Hin. apply (Hdis _ Hin). left.
    + rewrite app_nil_r in *. rewrite PyDictFacts.get_set_ne by done.
      by apply IH.
Qed.

(** X23 (order within a collection).  In what [get_all_full_data_ordered]
    returns, the ids of a collection stand in the order in which the provider
    hands over their keys, when these ids are distinct: they are not sorted
    by id. *)
Theorem get_all_full_data_ordered_order collection_string self all_data :
  get_all_full_data_ordered self = (Ok all_data, self) ->
  NoDup (collection_ids collection_string
           (Provider.get_all_data None (cache_provider self))) ->
  PyDict.keys (default [] (PyDict.get collection_string all_data))
  = collection_ids collection_string
      (Provider.get_all_data None (cache_provider self)).
Proof.
  unfold get_all_full_data_ordered. mstep. unfold lift.
  intros [= Hloop]. by apply ordered_ids.
Qed.

Lemma get_all_full_data_ordered_order_witness :
  get_all_full_data_ordered reordered_cache
  = (Ok [("motion", [(2, motion2 "B"); (1, motion "A")])], reordered_cache)
  ∧ NoDup (collection_ids "motion"
             (Provider.get_all_data None (cache_provider reordered_cache)))
  ∧ PyDict.keys [(2, motion2 "B"); (1, motion "A")]
    = collection_ids "motion"
        (Provider.get_all_data None (cache_provider reordered_cache)).
Proof.
  assert (Hord : get_all_full_data_ordered reordered_cache
    = (Ok [("motion", [(2, motion2 "B"); (1, motion "A")])], reordered_cache))
    by (vm_compute; reflexivity).
  assert (Hnd : NoDup (collection_ids "motion"
    (Provider.get_all_data None (cache_provider reordered_cache))))
    by compute_done.
  split; [exact Hord|]. split; [exact Hnd|].
  exact (get_all_full_data_ordered_order "motion" _ _ Hord Hnd).
Defined.

(** ** The current ChangeId after a write *)

(** X24 (current ChangeId after a write).  On a cache whose recorded
    ChangeIds are below the next one, after [change_elements] on a non-empty
    batch, [get_current_change_id] returns the ChangeId that
    [change_elements] returned, and the low-water mark, when there is one,
    is not above it. *)
Theorem change_elements_current_change_id elements self change_id self' :
  elements ≠ [] ->
  Forall (fun entry => entry.1 < next_change_id self)
    (Provider.change_index (cache_provider self)) ->
  change_elements elements self = (Ok change_id, self') ->
  get_current_change_id self' = (Ok change_id, self')
  ∧ ∀ lowest,
      get_lowest_change_id self' = (Ok lowest, self') -> lowest <= change_id.
Proof.
  intros Hne Hidx Hrun.
  destruct (ensured self) eqn:Hens.
  2: { revert Hrun. unfold change_elements. mstep. by rewrite Hens. }
  destruct (change_elements_Ok elements self Hens)
    as (s & Hrun' & _ & _ & Hindex & _).
  rewrite Hrun' in Hrun. injection Hrun as <- <-.
  assert (Hcur : current_change_id s = next_change_id self).
  { destruct elements as [|[k0 data0] elements']; [done|].
    assert (Hk0 : (next_change_id self, k0)
                  ∈ Provider.change_index (cache_provider s)).
    { rewrite Hindex. apply elem_of_app. right. left. }
    destruct (max_entry_spec _ _ Hk0) as ([score member] & Hmax & He & Hall).
    unfold current_change_id, Provider.get_current_change_id. rewrite Hmax.
    specialize (Hall _ Hk0). simpl in Hall.
    revert He. rewrite Hindex. intros [Hold|Hnew]%elem_of_app.
    - rewrite Forall_forall in Hidx. specialize (Hidx _ Hold). simpl in Hidx.
      lia.
    - by apply list_elem_of_fmap in Hnew as (k' & [= -> _] & _). }
  split.
  - rewrite get_current_change_id_unfold. fold (current_change_id s).
    by rewrite Hcur.
  - intros lowest Hlow. apply get_lowest_change_id_Ok in Hlow as (_ & _ & Hp).
    rewrite <- Hcur. by apply lowest_le_current.
Qed.

Lemma change_elements_current_change_id_witness :
  [("motion:1", motion "B")] ≠ []
  ∧ Forall (fun entry => entry.1 < next_change_id (built_cache false))
      (Provider.change_index (cache_provider (built_cache false)))
  ∧ change_elements [("motion:1", motion "B")] (built_cache false)
    = (Ok 1001, changed_cache false)
  ∧ get_current_change_id (built_cache false) = (Ok 1000, built_cache false)
  ∧ get_current_change_id (changed_cache false) = (Ok 1001, changed_cache false).
Proof.
  assert (Hne : [("motion:1", motion "B")] ≠ []) by discriminate.
  assert (Hidx : Forall
    (fun entry => entry.1 < next_change_id (built_cache false))
    (Provider.change_index (cache_provider (built_cache false))))
    by apply Forall_nil_2.
  assert (Hrun : change_elements [("motion:1", motion "B")] (built_cache false)
    = (Ok 1001, changed_cache false)) by (vm_compute; reflexivity).
  split; [exact Hne|]. split; [exact Hidx|]. split; [exact Hrun|].
  split; [vm_compute; reflexivity|].
  exact (proj1 (change_elements_current_change_id _ _ _ _ Hne Hidx Hrun)).
Defined.
